(** * ClusterManagerWorkflow: atomic message handlers

    A shallow embedding of
    [updates_and_signals/atomic_message_handlers/workflow.py].

    The workflow is a set of coroutines sharing one object ([self]).  A
    coroutine runs without interruption between two suspension points
    ([workflow.wait_condition], acquiring [nodes_lock] when it is held,
    [workflow.execute_activity]).  Each straight-line segment of the source
    is a function on the workflow object; a suspended coroutine is recorded
    by the source line it is suspended at; the scheduler and the activities
    are the environment and appear as events.  The scheduler is free to
    resume any suspended coroutine whose condition holds, in any order, and
    signals and updates may arrive at any suspension point. *)

From Stdlib Require Import ZArith List String Ascii Bool Lia DecimalString.
From Stdlib Require DecimalZ DecimalPos.
Import ListNotations.

Local Open Scope string_scope.
Local Open Scope Z_scope.

(** ** Python primitives *)

Module Py.

(** [str(n)] for an integer. *)
Definition str (z : Z) : string := NilZero.string_of_int (Z.to_int z).

(** [len(l)]. *)
Definition len {A : Type} (l : list A) : Z := Z.of_nat (List.length l).

(** [l[:n]]: a negative bound counts from the end, and bounds are clipped
    to the length of the list. *)
Definition slice_to {A : Type} (l : list A) (n : Z) : list A :=
  if n <? 0 then firstn (Z.to_nat (Z.max 0 (len l + n))) l
  else firstn (Z.to_nat n) l.

(** [range(n)]. *)
Definition range (n : nat) : list Z := map Z.of_nat (seq 0 n).

(** [k in l] for a list of strings. *)
Definition contains (l : list string) (k : string) : bool :=
  existsb (String.eqb k) l.

(** A [Dict[str, Optional[str]]].  Python dicts iterate in insertion
    order, and the handlers depend on that order, so the dict is the list
    of its items. *)
Definition Dict : Type := list (string * option string).

(** [d.items()] *)
Definition items (d : Dict) : list (string * option string) := d.

Definition keys (d : Dict) : list string := map fst d.

(** [d[k] = v]: an existing key keeps its position, a new key goes last. *)
Fixpoint setitem (d : Dict) (k : string) (v : option string) : Dict :=
  match d with
  | [] => [(k, v)]
  | (k', v') :: d' =>
      if String.eqb k' k then (k', v) :: d' else (k', v') :: setitem d' k v
  end.

(** [d.get(k)]: [None] when the key is absent, [Some v] for the value. *)
Fixpoint get (d : Dict) (k : string) : option (option string) :=
  match d with
  | [] => None
  | (k', v') :: d' => if String.eqb k' k then Some v' else get d' k
  end.

(** [{f(k): None for k in l}] *)
Definition all_none (ks : list string) : Dict :=
  fold_left (fun d k => setitem d k None) ks [].

End Py.

(** ** Data classes (workflow.py, lines 26-54)

    Fields keep their names, except where two classes share one: [state]
    and [max_assigned_nodes] of the input and of the result, and the
    [task_name] of the two update inputs, carry the name of their class. *)

Record ClusterManagerState : Type := {
  cluster_started : bool;
  cluster_shutdown : bool;
  nodes : option Py.Dict;
  max_assigned_nodes : Z
}.

(** [ClusterManagerState()] with the defaults of the dataclass. *)
Definition ClusterManagerState_default : ClusterManagerState :=
  {| cluster_started := false; cluster_shutdown := false;
     nodes := None; max_assigned_nodes := 0 |}.

Record ClusterManagerInput : Type := {
  input_state : option ClusterManagerState;
  test_continue_as_new : bool
}.

Record ClusterManagerResult : Type := {
  result_max_assigned_nodes : Z;
  num_currently_assigned_nodes : Z
}.

Record ClusterManagerAllocateNNodesToJobInput : Type := {
  num_nodes : Z;
  alloc_task_name : string
}.

Record ClusterManagerDeleteJobInput : Type := {
  delete_task_name : string
}.

(** The value the health check writes into a node (line 160). *)
Definition BAD : string := "BAD!".

(** ** Exceptions and activity outcomes *)

Inductive Exception : Type :=
| ApplicationError (message : string)
    (* raised by the handlers, lines 89, 99, 127 *)
| ActivityError (cause : string)
    (* raised by [workflow.execute_activity] when the activity failed *)
| AttributeError
    (* [self.state.nodes.items()] on [None] *)
| TypeError.
    (* [self.state.nodes[node] = ...] on [None] *)

(** What the runtime hands back when an awaited activity is over.  The two
    allocation activities return [None] (their [ret] is ignored);
    [find_bad_nodes] returns the set of bad nodes, here as the sequence in
    which line 159 iterates over it. *)
Inductive ActivityOutcome : Type :=
| Completed (ret : list string)
| Failed (cause : string).

(** [workflow.info()]: the two readings [should_continue_as_new] takes. *)
Record Info : Type := {
  is_continue_as_new_suggested : bool;
  get_current_history_length : Z
}.

(** ** The workflow object *)

(** The coroutine that holds [nodes_lock].  Every [async with] block of the
    source contains exactly one suspension point, the activity call, so the
    holder of the lock is always suspended there, with its local
    variables. *)
Inductive Holder : Type :=
| allocate_at_104 (assigned_nodes : list string) (task_name : string)
| delete_at_134 (nodes_to_free : list string) (task_name : string)
| health_at_152 (assigned_nodes : list string).

Record ClusterManagerWorkflow : Type := {
  state : ClusterManagerState;
  nodes_lock : option Holder;            (* [None]: unlocked *)
  max_history_length : option Z;
  sleep_interval_seconds : Z
}.

(** [self.nodes_lock.locked()] *)
Definition locked (self : ClusterManagerWorkflow) : bool :=
  match nodes_lock self with Some _ => true | None => false end.

Definition with_state (self : ClusterManagerWorkflow)
    (st : ClusterManagerState) : ClusterManagerWorkflow :=
  {| state := st; nodes_lock := nodes_lock self;
     max_history_length := max_history_length self;
     sleep_interval_seconds := sleep_interval_seconds self |}.

Definition with_lock (self : ClusterManagerWorkflow)
    (h : option Holder) : ClusterManagerWorkflow :=
  {| state := state self; nodes_lock := h;
     max_history_length := max_history_length self;
     sleep_interval_seconds := sleep_interval_seconds self |}.

Definition with_nodes (st : ClusterManagerState) (d : Py.Dict)
    : ClusterManagerState :=
  {| cluster_started := cluster_started st;
     cluster_shutdown := cluster_shutdown st;
     nodes := Some d;
     max_assigned_nodes := max_assigned_nodes st |}.

(** [__init__] (lines 63-66); [max_history_length] and
    [sleep_interval_seconds] are set by [init] before any use. *)
Definition new_workflow : ClusterManagerWorkflow :=
  {| state := ClusterManagerState_default; nodes_lock := None;
     max_history_length := None; sleep_interval_seconds := 600 |}.

(** [init] (lines 164-172). *)
Definition init (self : ClusterManagerWorkflow) (input : ClusterManagerInput)
    : ClusterManagerWorkflow :=
  let st := match input_state input with
            | Some s => s
            | None => state self
            end in
  if test_continue_as_new input then
    {| state := st; nodes_lock := nodes_lock self;
       max_history_length := Some 120; sleep_interval_seconds := 1 |}
  else
    {| state := st; nodes_lock := nodes_lock self;
       max_history_length := None; sleep_interval_seconds := 600 |}.

(** ** The list comprehensions of the handlers *)

Definition is_None (v : option string) : bool :=
  match v with None => true | Some _ => false end.

(** [v == task_name] for an [Optional[str]] value. *)
Definition value_eqb (v : option string) (task_name : string) : bool :=
  match v with Some j => String.eqb j task_name | None => false end.

(** Line 94: [[k for k, v in self.state.nodes.items() if v is None]] *)
Definition unassigned_of (d : Py.Dict) : list string :=
  map fst (filter (fun kv => is_None (snd kv)) (Py.items d)).

(** Line 107: [[k for k, v in self.state.nodes.items() if v is not None]] *)
Definition not_None_of (d : Py.Dict) : list string :=
  map fst (filter (fun kv => negb (is_None (snd kv))) (Py.items d)).

(** Lines 130-132:
    [[k for k, v in self.state.nodes.items() if v == input.task_name]] *)
Definition nodes_of_job (d : Py.Dict) (task_name : string) : list string :=
  map fst (filter (fun kv => value_eqb (snd kv) task_name) (Py.items d)).

(** Line 146:
    [[k for k, v in self.state.nodes.items()
      if v is not None and v != "BAD!"]] *)
Definition assigned_of (d : Py.Dict) : list string :=
  map fst (filter (fun kv => negb (is_None (snd kv))
                             && negb (value_eqb (snd kv) BAD)) (Py.items d)).

(** [self.state.nodes.items()] fails when [nodes] is [None]. *)
Definition nodes_items (st : ClusterManagerState) : Exception + Py.Dict :=
  match nodes st with
  | None => inl AttributeError
  | Some d => inr d
  end.

(** [get_assigned_nodes] (lines 145-146). *)
Definition get_assigned_nodes (self : ClusterManagerWorkflow)
    : Exception + list string :=
  match nodes_items (state self) with
  | inl e => inl e
  | inr d => inr (assigned_of d)
  end.

(** [for node in l: d[node] = v] *)
Definition set_each (d : Py.Dict) (l : list string) (v : option string)
    : Py.Dict :=
  fold_left (fun d node => Py.setitem d node v) l d.

(** [for node in l: self.state.nodes[node] = v] (lines 117-118, 142-143,
    159-160).  The body fails on its first iteration when [nodes] is
    [None]; an empty [l] never runs it. *)
Definition set_nodes (st : ClusterManagerState) (l : list string)
    (v : option string) : Exception + ClusterManagerState :=
  match l with
  | [] => inr st
  | _ :: _ =>
      match nodes st with
      | None => inl TypeError
      | Some d => inr (with_nodes st (set_each d l v))
      end
  end.

(** ** Coroutines *)

(** What an update returns. *)
Inductive Value : Type :=
| VNone
| VNodes (l : list string).

(** A coroutine suspended without the lock, named by the line it waits at:
    lines 76, 84 and 122 are [wait_condition(cluster_started)], lines 93,
    129 and 149 are the acquisition of [nodes_lock]. *)
Inductive Coroutine : Type :=
| shutdown_at_76
| allocate_at_84 (input : ClusterManagerAllocateNNodesToJobInput)
| allocate_at_93 (input : ClusterManagerAllocateNNodesToJobInput)
| delete_at_122 (input : ClusterManagerDeleteJobInput)
| delete_at_129 (input : ClusterManagerDeleteJobInput)
| health_at_149.

(** How a segment ends. *)
Inductive Outcome : Type :=
| Suspended (co : Coroutine)   (* waits again, without the lock *)
| InActivity                   (* awaits its activity, holding the lock *)
| Returned (v : Value)
| Raised (e : Exception).

(** ** Signals *)

(** [start_cluster] (lines 69-72); it has no suspension point. *)
Definition start_cluster (self : ClusterManagerWorkflow)
    : ClusterManagerWorkflow :=
  with_state self
    {| cluster_started := true;
       cluster_shutdown := cluster_shutdown (state self);
       nodes := Some (Py.all_none (map Py.str (Py.range 25)));
       max_assigned_nodes := max_assigned_nodes (state self) |}.

(** [shutdown_cluster] (lines 75-78), from its [wait_condition]. *)
Definition shutdown_from_76 (self : ClusterManagerWorkflow)
    : ClusterManagerWorkflow * Outcome :=
  if cluster_started (state self) then
    (with_state self
       {| cluster_started := cluster_started (state self);
          cluster_shutdown := true;
          nodes := nodes (state self);
          max_assigned_nodes := max_assigned_nodes (state self) |},
     Returned VNone)
  else (self, Suspended shutdown_at_76).

(** ** [allocate_n_nodes_to_job] (lines 81-118) *)

Definition shut_down_allocate : string :=
  "Cannot allocate nodes to a job: Cluster is already shut down".

(** The f-string of line 100. *)
Definition cannot_allocate (requested available : Z) : string :=
  "Cannot allocate " ++ Py.str requested ++ " nodes; have only "
    ++ Py.str available ++ " available".

(** Lines 93-104, from the acquisition of the lock to the activity call.
    An exception leaves the [async with] block, which releases the lock. *)
Definition allocate_from_93 (self : ClusterManagerWorkflow)
    (input : ClusterManagerAllocateNNodesToJobInput)
    : ClusterManagerWorkflow * Outcome :=
  if locked self then (self, Suspended (allocate_at_93 input))
  else
    match nodes_items (state self) with
    | inl e => (self, Raised e)
    | inr d =>
        let unassigned_nodes := unassigned_of d in
        if Py.len unassigned_nodes <? num_nodes input then
          (self,
           Raised (ApplicationError
                     (cannot_allocate (num_nodes input)
                                      (Py.len unassigned_nodes))))
        else
          let assigned_nodes :=
            Py.slice_to unassigned_nodes (num_nodes input) in
          (with_lock self
             (Some (allocate_at_104 assigned_nodes (alloc_task_name input))),
           InActivity)
    end.

(** Lines 84-91, then the critical section. *)
Definition allocate_from_84 (self : ClusterManagerWorkflow)
    (input : ClusterManagerAllocateNNodesToJobInput)
    : ClusterManagerWorkflow * Outcome :=
  if negb (cluster_started (state self)) then
    (self, Suspended (allocate_at_84 input))
  else if cluster_shutdown (state self) then
    (self, Raised (ApplicationError shut_down_allocate))
  else allocate_from_93 self input.

(** [_allocate_nodes_to_job] (lines 111-118), from the return of its
    activity: [execute_activity] raises when the activity failed, otherwise
    the loop of lines 117-118 runs. *)
Definition _allocate_nodes_to_job (st : ClusterManagerState)
    (assigned_nodes : list string) (task_name : string)
    (r : ActivityOutcome) : Exception + ClusterManagerState :=
  match r with
  | Failed cause => inl (ActivityError cause)
  | Completed _ => set_nodes st assigned_nodes (Some task_name)
  end.

(** Lines 104-109, from the return of the activity to the release of the
    lock. *)
Definition allocate_from_104 (self : ClusterManagerWorkflow)
    (assigned_nodes : list string) (task_name : string)
    (r : ActivityOutcome) : ClusterManagerWorkflow * Outcome :=
  match _allocate_nodes_to_job (state self) assigned_nodes task_name r with
  | inl e => (with_lock self None, Raised e)
  | inr st =>
      match nodes_items st with
      | inl e => (with_lock (with_state self st) None, Raised e)
      | inr d =>
          (with_lock
             (with_state self
                {| cluster_started := cluster_started st;
                   cluster_shutdown := cluster_shutdown st;
                   nodes := nodes st;
                   max_assigned_nodes :=
                     Z.max (max_assigned_nodes st)
                           (Py.len (not_None_of d)) |})
             None,
           Returned (VNodes assigned_nodes))
      end
  end.

(** ** [delete_job] (lines 121-143) *)

Definition shut_down_delete : string :=
  "Cannot delete a job: Cluster is already shut down".

(** Lines 129-134. *)
Definition delete_from_129 (self : ClusterManagerWorkflow)
    (input : ClusterManagerDeleteJobInput)
    : ClusterManagerWorkflow * Outcome :=
  if locked self then (self, Suspended (delete_at_129 input))
  else
    match nodes_items (state self) with
    | inl e => (self, Raised e)
    | inr d =>
        let nodes_to_free := nodes_of_job d (delete_task_name input) in
        (with_lock self
           (Some (delete_at_134 nodes_to_free (delete_task_name input))),
         InActivity)
    end.

(** Lines 122-127, then the critical section. *)
Definition delete_from_122 (self : ClusterManagerWorkflow)
    (input : ClusterManagerDeleteJobInput)
    : ClusterManagerWorkflow * Outcome :=
  if negb (cluster_started (state self)) then
    (self, Suspended (delete_at_122 input))
  else if cluster_shutdown (state self) then
    (self, Raised (ApplicationError shut_down_delete))
  else delete_from_129 self input.

(** [_deallocate_nodes_for_job] (lines 136-143), from the return of its
    activity. *)
Definition _deallocate_nodes_for_job (st : ClusterManagerState)
    (nodes_to_free : list string) (task_name : string)
    (r : ActivityOutcome) : Exception + ClusterManagerState :=
  match r with
  | Failed cause => inl (ActivityError cause)
  | Completed _ => set_nodes st nodes_to_free None
  end.

(** Line 134, from the return of the activity to the release of the
    lock. *)
Definition delete_from_134 (self : ClusterManagerWorkflow)
    (nodes_to_free : list string) (task_name : string)
    (r : ActivityOutcome) : ClusterManagerWorkflow * Outcome :=
  match _deallocate_nodes_for_job (state self) nodes_to_free task_name r with
  | inl e => (with_lock self None, Raised e)
  | inr st => (with_lock (with_state self st) None, Returned VNone)
  end.

(** ** [perform_health_checks] (lines 148-160) *)

(** Lines 149-152. *)
Definition health_from_149 (self : ClusterManagerWorkflow)
    : ClusterManagerWorkflow * Outcome :=
  if locked self then (self, Suspended health_at_149)
  else
    match get_assigned_nodes self with
    | inl e => (self, Raised e)
    | inr assigned_nodes =>
        (with_lock self (Some (health_at_152 assigned_nodes)), InActivity)
    end.

(** Lines 152-160: the call has [maximum_attempts=1], and nothing catches
    the exception it raises. *)
Definition health_from_152 (self : ClusterManagerWorkflow)
    (r : ActivityOutcome) : ClusterManagerWorkflow * Outcome :=
  match r with
  | Failed cause => (with_lock self None, Raised (ActivityError cause))
  | Completed bad_nodes =>
      match set_nodes (state self) bad_nodes (Some BAD) with
      | inl e => (with_lock self None, Raised e)
      | inr st => (with_lock (with_state self st) None, Returned VNone)
      end
  end.

(** ** Resuming a coroutine *)

Definition resume (self : ClusterManagerWorkflow) (co : Coroutine)
    : ClusterManagerWorkflow * Outcome :=
  match co with
  | shutdown_at_76 => shutdown_from_76 self
  | allocate_at_84 input => allocate_from_84 self input
  | allocate_at_93 input => allocate_from_93 self input
  | delete_at_122 input => delete_from_122 self input
  | delete_at_129 input => delete_from_129 self input
  | health_at_149 => health_from_149 self
  end.

Definition resume_holder (self : ClusterManagerWorkflow) (h : Holder)
    (r : ActivityOutcome) : ClusterManagerWorkflow * Outcome :=
  match h with
  | allocate_at_104 assigned_nodes task_name =>
      allocate_from_104 self assigned_nodes task_name r
  | delete_at_134 nodes_to_free task_name =>
      delete_from_134 self nodes_to_free task_name r
  | health_at_152 _ => health_from_152 self r
  end.

(** A segment that ends in its activity call goes on when the activity is
    over. *)
Definition then_activity (p : ClusterManagerWorkflow * Outcome)
    (r : ActivityOutcome) : ClusterManagerWorkflow * Outcome :=
  match p with
  | (self, InActivity) =>
      match nodes_lock self with
      | Some h => resume_holder self h r
      | None => (self, InActivity)
      end
  | _ => p
  end.

(** The handlers run from their first line, with no other coroutine
    scheduled while they are suspended; [r] is the outcome of the activity,
    if the handler gets that far. *)
Definition allocate_n_nodes_to_job (self : ClusterManagerWorkflow)
    (input : ClusterManagerAllocateNNodesToJobInput) (r : ActivityOutcome)
    : ClusterManagerWorkflow * Outcome :=
  then_activity (allocate_from_84 self input) r.

Definition delete_job (self : ClusterManagerWorkflow)
    (input : ClusterManagerDeleteJobInput) (r : ActivityOutcome)
    : ClusterManagerWorkflow * Outcome :=
  then_activity (delete_from_122 self input) r.

Definition perform_health_checks (self : ClusterManagerWorkflow)
    (r : ActivityOutcome) : ClusterManagerWorkflow * Outcome :=
  then_activity (health_from_149 self) r.

(** [shutdown_cluster] has no activity; run from its first line it sets
    the flag, or stays suspended while the cluster is not started. *)
Definition shutdown_cluster (self : ClusterManagerWorkflow)
    : ClusterManagerWorkflow * Outcome :=
  shutdown_from_76 self.

(** ** The checkpoint decision and [run] (lines 174-218) *)

(** [should_continue_as_new] (lines 174-186).  [self.max_history_length and
    ...] is false for [None] and for [0]. *)
Definition should_continue_as_new (self : ClusterManagerWorkflow)
    (info : Info) : bool :=
  if locked self then false
  else if is_continue_as_new_suggested info then true
  else if match max_history_length self with
          | None => false
          | Some m =>
              negb (m =? 0) && (get_current_history_length info >? m)
          end
  then true
  else false.

(** Where [run] is: suspended at line 192 ([wait_condition]), inside the
    call of line 196 ([perform_health_checks], itself at line 149 or 152),
    at line 198 (the bounded [wait_condition]), or over. *)
Inductive RunPos : Type :=
| run_at_192
| run_at_196
| run_at_198
| run_returned (result : ClusterManagerResult)
| run_continued_as_new (next : ClusterManagerInput)
| run_failed (e : Exception).

(** Line 196: nothing in [run] catches what [perform_health_checks]
    raises (the [try] of lines 197-204 covers the [wait_condition] only), so
    an exception ends the run. *)
Definition run_from_196 (p : ClusterManagerWorkflow * Outcome)
    : ClusterManagerWorkflow * RunPos :=
  match p with
  | (self, Suspended _) => (self, run_at_196)
  | (self, InActivity) => (self, run_at_196)
  | (self, Returned _) => (self, run_at_198)
  | (self, Raised e) => (self, run_failed e)
  end.

(** Lines 192-196. *)
Definition run_from_192 (self : ClusterManagerWorkflow)
    : ClusterManagerWorkflow * RunPos :=
  if cluster_started (state self) then run_from_196 (health_from_149 self)
  else (self, run_at_192).

(** Lines 216-218. *)
Definition run_result (self : ClusterManagerWorkflow) : RunPos :=
  match get_assigned_nodes self with
  | inl e => run_failed e
  | inr assigned =>
      run_returned
        {| result_max_assigned_nodes := max_assigned_nodes (state self);
           num_currently_assigned_nodes := Py.len assigned |}
  end.

(** Lines 205-214, after the [wait_condition] of line 198 is over (its
    [TimeoutError] is caught and dropped). *)
Definition run_from_205 (self : ClusterManagerWorkflow)
    (input : ClusterManagerInput) (info : Info)
    : ClusterManagerWorkflow * RunPos :=
  if cluster_shutdown (state self) then (self, run_result self)
  else if should_continue_as_new self info then
    (self,
     run_continued_as_new
       {| input_state := Some (state self);
          test_continue_as_new := test_continue_as_new input |})
  else run_from_196 (health_from_149 self).

(** Line 198: the wait ends when its condition holds or its timeout
    expires. *)
Definition run_from_198 (self : ClusterManagerWorkflow)
    (input : ClusterManagerInput) (info : Info) (timed_out : bool)
    : ClusterManagerWorkflow * RunPos :=
  if cluster_shutdown (state self) || should_continue_as_new self info
     || timed_out
  then run_from_205 self input info
  else (self, run_at_198).

(** ** The workflow under its scheduler *)

Record Config : Type := {
  self : ClusterManagerWorkflow;
  input : ClusterManagerInput;        (* the argument of [run] *)
  main : RunPos;
  handlers : list Coroutine           (* suspended handlers *)
}.

Inductive Message : Type :=
| signal_start_cluster
| signal_shutdown_cluster
| update_allocate_n_nodes_to_job
    (input : ClusterManagerAllocateNNodesToJobInput)
| update_delete_job (input : ClusterManagerDeleteJobInput).

(** What the environment does: the runtime delivers a signal or an update,
    the scheduler resumes a suspended handler or [run] (with the current
    [workflow.info()], and whether the timeout of line 201 has expired), or
    the activity awaited by the holder of the lock is over. *)
Inductive Event : Type :=
| Deliver (m : Message)
| Wake (n : nat)
| WakeRun (info : Info) (timed_out : bool)
| ActivityDone (r : ActivityOutcome).

(** What the caller of an update receives. *)
Inductive Reply : Type :=
| Result (v : Value)
| Failure (e : Exception).

Definition finished (c : Config) : bool :=
  match main c with
  | run_returned _ | run_continued_as_new _ | run_failed _ => true
  | _ => false
  end.

Definition with_self (c : Config) (s : ClusterManagerWorkflow) : Config :=
  {| self := s; input := input c; main := main c; handlers := handlers c |}.

Definition with_main (c : Config) (s : ClusterManagerWorkflow) (p : RunPos)
    : Config :=
  {| self := s; input := input c; main := p; handlers := handlers c |}.

Definition with_handlers (c : Config) (s : ClusterManagerWorkflow)
    (l : list Coroutine) : Config :=
  {| self := s; input := input c; main := main c; handlers := l |}.

(** The workflow right after [__init__] and the call of [run], which runs
    [init] and suspends at line 192. *)
Definition initial (input : ClusterManagerInput) : Config :=
  {| self := init new_workflow input; input := input;
     main := run_at_192; handlers := [] |}.

(** [start_cluster] runs to its end on delivery; every other handler
    begins with a [wait_condition] and is suspended there. *)
Definition deliver (c : Config) (m : Message) : Config :=
  match m with
  | signal_start_cluster => with_self c (start_cluster (self c))
  | signal_shutdown_cluster =>
      with_handlers c (self c) (handlers c ++ [shutdown_at_76])
  | update_allocate_n_nodes_to_job i =>
      with_handlers c (self c) (handlers c ++ [allocate_at_84 i])
  | update_delete_job i =>
      with_handlers c (self c) (handlers c ++ [delete_at_122 i])
  end.

Definition is_signal (co : Coroutine) : bool :=
  match co with shutdown_at_76 => true | _ => false end.

Definition reply_of (out : Outcome) : option Reply :=
  match out with
  | Returned v => Some (Result v)
  | Raised e => Some (Failure e)
  | _ => None
  end.

Definition wake (c : Config) (n : nat) : Config * option Reply :=
  match nth_error (handlers c) n with
  | None => (c, None)
  | Some co =>
      let before := firstn n (handlers c) in
      let after := skipn (S n) (handlers c) in
      match resume (self c) co with
      | (s, Suspended co') =>
          (with_handlers c s (before ++ co' :: after), None)
      | (s, out) =>
          (with_handlers c s (before ++ after),
           if is_signal co then None else reply_of out)
      end
  end.

Definition wake_run (c : Config) (info : Info) (timed_out : bool) : Config :=
  match main c with
  | run_at_192 =>
      let (s, p) := run_from_192 (self c) in with_main c s p
  | run_at_196 =>
      let (s, p) := run_from_196 (health_from_149 (self c)) in with_main c s p
  | run_at_198 =>
      let (s, p) := run_from_198 (self c) (input c) info timed_out in
      with_main c s p
  | _ => c
  end.

Definition activity_done (c : Config) (r : ActivityOutcome)
    : Config * option Reply :=
  match nodes_lock (self c) with
  | None => (c, None)
  | Some (health_at_152 l) =>
      let (s, p) := run_from_196 (resume_holder (self c) (health_at_152 l) r) in
      (with_main c s p, None)
  | Some h =>
      let (s, out) := resume_holder (self c) h r in
      (with_self c s, reply_of out)
  end.

(** Once [run] is over the workflow is closed and takes no further event. *)
Definition step (c : Config) (ev : Event) : Config * option Reply :=
  if finished c then (c, None)
  else
    match ev with
    | Deliver m => (deliver c m, None)
    | Wake n => wake c n
    | WakeRun info timed_out => (wake_run c info timed_out, None)
    | ActivityDone r => activity_done c r
    end.

(** A run of the workflow: the final configuration and the replies, in the
    order in which they were sent. *)
Fixpoint run_events (c : Config) (evs : list Event)
    : Config * list Reply :=
  match evs with
  | [] => (c, [])
  | ev :: evs' =>
      let (c', o) := step c ev in
      let (c'', os) := run_events c' evs' in
      (c'', match o with Some x => x :: os | None => os end)
  end.

(** Every configuration the run goes through, the first one included. *)
Fixpoint history (c : Config) (evs : list Event) : list Config :=
  match evs with
  | [] => [c]
  | ev :: evs' => c :: history (fst (step c ev)) evs'
  end.

(** The identities [start_cluster] gives the nodes, lowest first. *)
Definition node_ids : list string := map Py.str (Py.range 25).

(** A node is free, or marked bad, in a table. *)
Definition is_free (d : Py.Dict) (k : string) : bool :=
  match Py.get d k with Some None => true | _ => false end.

Definition is_bad (d : Py.Dict) (k : string) : bool :=
  match Py.get d k with Some (Some j) => String.eqb j BAD | _ => false end.

(** The workflow an allocation leaves when its activity completes: the
    selected nodes carry the job, line 105 has run, the lock is free. *)
Definition allocated (s : ClusterManagerWorkflow) (d : Py.Dict)
    (selected : list string) (task_name : string)
    : ClusterManagerWorkflow :=
  let d' := set_each d selected (Some task_name) in
  with_lock
    (with_state s
       {| cluster_started := cluster_started (state s);
          cluster_shutdown := cluster_shutdown (state s);
          nodes := Some d';
          max_assigned_nodes :=
            Z.max (max_assigned_nodes (state s))
                  (Py.len (not_None_of d')) |})
    None.

(** Whether the strings of a list are pairwise distinct. *)
Fixpoint distinct (l : list string) : bool :=
  match l with
  | [] => true
  | x :: l' => negb (Py.contains l' x) && distinct l'
  end.

(** ** Runs used as examples *)

(** The input of a workflow started without a seed state. *)
Definition fresh_input (test : bool) : ClusterManagerInput :=
  {| input_state := None; test_continue_as_new := test |}.

Definition fresh : ClusterManagerInput := fresh_input false.

Definition quiet : Info :=
  {| is_continue_as_new_suggested := false;
     get_current_history_length := 0 |}.

(** A workflow whose cluster has just been started. *)
Definition started_workflow : ClusterManagerWorkflow :=
  start_cluster new_workflow.

(** The same after the shutdown signal. *)
Definition shut_down_workflow : ClusterManagerWorkflow :=
  fst (shutdown_cluster started_workflow).

(** The run loop has started its first health check. *)
Definition checking_health : Config :=
  fst (run_events (initial fresh)
         [Deliver signal_start_cluster; WakeRun quiet false]).

(** ** The health-check activity *)

(** A conversion that agrees with Python's [int] on the strings [str]
    produces for integers, the form of the node identities ([None] stands
    for [ValueError]).  Python's [int] accepts more strings (a plus sign,
    surrounding spaces, underscores, other digits); nothing below takes this
    function for [int] on those: the activity is stated for any [int]. *)
Definition int_of_decimal (s : string) : option Z :=
  option_map Z.of_int (NilZero.int_of_string s).

(** [set(l)].  A set is held as a list without duplicates; Python leaves
    the order in which a set is iterated unspecified, and nothing below
    depends on the order of this list, only on its members. *)
Definition set_of (l : list string) : list string :=
  nodup string_dec l.

Section Activities.

(** Python's [int] on strings. *)
Variable int : string -> option Z.

(** The comprehension of [find_bad_nodes]
    ([safe_message_handlers/activities.py], line 40):
    [[n for n in input.nodes_to_check if int(n) % 5 == 0]]; it raises as
    soon as [int] does. *)
Fixpoint bad_among (nodes_to_check : list string) : option (list string) :=
  match nodes_to_check with
  | [] => Some []
  | n :: rest =>
      match int n with
      | None => None
      | Some z =>
          match bad_among rest with
          | None => None
          | Some bad => Some (if z mod 5 =? 0 then n :: bad else bad)
          end
      end
  end.

(** [find_bad_nodes] (lines 37-45), as the workflow sees it: the set of the
    bad nodes (line 40 wraps the comprehension in [set]), or a failed
    activity. *)
Definition find_bad_nodes (nodes_to_check : list string) : ActivityOutcome :=
  match bad_among nodes_to_check with
  | Some bad_nodes => Completed (set_of bad_nodes)
  | None => Failed "ValueError"
  end.

End Activities.

(** ** Predicates on runs *)

(** The nodes the holder of the lock carries across its activity call. *)
Definition held_nodes (h : Holder) : list string :=
  match h with
  | allocate_at_104 l _ => l
  | delete_at_134 l _ => l
  | health_at_152 l => l
  end.

(** The health check is answered with nodes among those it asked about
    ([nodes_to_check], line 154), as [find_bad_nodes] does. *)
Definition answers_within (c : Config) (ev : Event) : bool :=
  match ev, nodes_lock (self c) with
  | ActivityDone (Completed bad_nodes), Some (health_at_152 checked) =>
      forallb (Py.contains checked) bad_nodes
  | _, _ => true
  end.

Fixpoint health_answers_within (c : Config) (evs : list Event) : bool :=
  match evs with
  | [] => true
  | ev :: evs' =>
      answers_within c ev && health_answers_within (fst (step c ev)) evs'
  end.

(** The lifecycle of [starter.py], cut to two jobs, with one health check
    of the run loop that finds node 0 bad. *)
Definition lifecycle : list Event :=
  [ Deliver signal_start_cluster;
    Deliver (update_allocate_n_nodes_to_job
               {| num_nodes := 2; alloc_task_name := "task-0" |});
    Deliver (update_allocate_n_nodes_to_job
               {| num_nodes := 2; alloc_task_name := "task-1" |});
    Wake 0; Wake 0; ActivityDone (Completed []);
    Wake 0; ActivityDone (Completed []);
    WakeRun quiet false; ActivityDone (Completed ["0"]);
    Deliver (update_delete_job {| delete_task_name := "task-0" |});
    Deliver (update_delete_job {| delete_task_name := "task-1" |});
    Wake 1; ActivityDone (Completed []);
    Wake 0; ActivityDone (Completed []);
    Deliver signal_shutdown_cluster; Wake 0;
    WakeRun quiet false ].

(** The table has the keys [start_cluster] gave it, in that order. *)
Definition keys_ok (st : ClusterManagerState) : Prop :=
  forall d, nodes st = Some d -> Py.keys d = node_ids.

(** The holder of the lock carries nodes of the cluster. *)
Definition held_ok (s : ClusterManagerWorkflow) : Prop :=
  forall h, nodes_lock s = Some h -> incl (held_nodes h) node_ids.

Definition table_ok (s : ClusterManagerWorkflow) : Prop :=
  keys_ok (state s) /\ held_ok s.

(** The events that deliver the start signal, or an update that deletes
    the job whose name is the marker of bad nodes. *)
Definition delivers_start (ev : Event) : bool :=
  match ev with
  | Deliver signal_start_cluster => true
  | _ => false
  end.

Definition deletes_marker (ev : Event) : bool :=
  match ev with
  | Deliver (update_delete_job i) => String.eqb (delete_task_name i) BAD
  | _ => false
  end.

Definition handler_deletes_marker (co : Coroutine) : bool :=
  match co with
  | delete_at_122 i | delete_at_129 i => String.eqb (delete_task_name i) BAD
  | _ => false
  end.

(** The node is marked bad in the table of the workflow. *)
Definition unhealthy (s : ClusterManagerWorkflow) (k : string) : bool :=
  match nodes (state s) with
  | Some d => is_bad d k
  | None => false
  end.

(** A reply that is not an allocation containing the node. *)
Definition reply_avoids (k : string) (o : Reply) : Prop :=
  match o with
  | Result (VNodes l) => ~ In k l
  | _ => True
  end.

(** The table has distinct keys, and the holder of the lock is not about
    to overwrite a bad node. *)
Definition held_clean (s : ClusterManagerWorkflow) : Prop :=
  forall h, nodes_lock s = Some h ->
    match h with
    | allocate_at_104 l _ => forall k, In k l -> unhealthy s k = false
    | delete_at_134 l t =>
        String.eqb t BAD = false
        /\ forall k, In k l -> unhealthy s k = false
    | health_at_152 _ => True
    end.

Definition clean (s : ClusterManagerWorkflow) : Prop :=
  (forall d, nodes (state s) = Some d -> NoDup (Py.keys d)) /\ held_clean s.

Definition handlers_clean (c : Config) : Prop :=
  Forall (fun co => handler_deletes_marker co = false) (handlers c).

(** The number of nodes assigned to a job, as [get_assigned_nodes] counts
    them (line 217); no node is assigned before the cluster is started. *)
Definition assigned_count (c : Config) : Z :=
  match get_assigned_nodes (self c) with
  | inr l => Py.len l
  | inl _ => 0
  end.

(** The largest [assigned_count] among configurations. *)
Definition peak_assigned (cs : list Config) : Z :=
  fold_right (fun c m => Z.max (assigned_count c) m) 0 cs.

(** Two nodes go to a job, the health check finds node 0 bad. *)
Definition marking_node_0 : list Event :=
  [ Deliver signal_start_cluster;
    WakeRun quiet false; ActivityDone (Completed []);
    Deliver (update_allocate_n_nodes_to_job
               {| num_nodes := 2; alloc_task_name := "task-0" |});
    Wake 0; ActivityDone (Completed []);
    WakeRun quiet true; ActivityDone (Completed ["0"]) ].

Definition node_0_marked : Config :=
  fst (run_events (initial fresh) marking_node_0).

(** One more node goes to a second job. *)
Definition one_more_node : list Event :=
  [ Deliver (update_allocate_n_nodes_to_job
               {| num_nodes := 1; alloc_task_name := "task-1" |});
    Wake 0; ActivityDone (Completed []) ].

(** The start signal comes a second time, then a job asks for a node. *)
Definition second_start : list Event :=
  [ Deliver signal_start_cluster;
    Deliver (update_allocate_n_nodes_to_job
               {| num_nodes := 1; alloc_task_name := "task-1" |});
    Wake 0; ActivityDone (Completed []) ].

(** Case analysis on the tests and matches of a segment. *)
Ltac break_match :=
  repeat match goal with
    | |- context [if ?b then _ else _] => destruct b eqn:?
    | |- context [match ?x with _ => _ end] => destruct x eqn:?
    end.

(** The node carries the job [task_name] in a table. *)
Definition carries (d : Py.Dict) (k : string) (task_name : string) : bool :=
  match Py.get d k with
  | Some (Some j) => String.eqb j task_name
  | _ => false
  end.

(** The workflow a deletion leaves when its activity completes: the nodes
    of the job are free, the lock is free. *)
Definition deleted (s : ClusterManagerWorkflow) (d : Py.Dict)
    (task_name : string) : ClusterManagerWorkflow :=
  with_lock
    (with_state s
       (with_nodes (state s)
          (set_each d (nodes_of_job d task_name) None)))
    None.

(** ** Invariants of runs *)

(** A handler that has not passed its [wait_condition(cluster_started)]. *)
Definition at_entry (co : Coroutine) : bool :=
  match co with
  | shutdown_at_76 | allocate_at_84 _ | delete_at_122 _ => true
  | _ => false
  end.

(** The settings [init] derives from the input of [run]. *)
Definition settings_ok (c : Config) : Prop :=
  max_history_length (self c) =
    (if test_continue_as_new (input c) then Some 120 else None)
  /\ sleep_interval_seconds (self c) =
       (if test_continue_as_new (input c) then 1 else 600).

(** The flags and the table go together: no table and no shutdown before
    the start, a table after it. *)
Definition lifecycle_ok (st : ClusterManagerState) : Prop :=
  (nodes st = None <-> cluster_started st = false)
  /\ (cluster_shutdown st = true -> cluster_started st = true).

(** [max_assigned_nodes] is at least the number of nodes assigned now. *)
Definition counts_ok (st : ClusterManagerState) : Prop :=
  0 <= max_assigned_nodes st
  /\ forall d, nodes st = Some d ->
       Py.len (assigned_of d) <= max_assigned_nodes st.

(** The nodes an allocation holds across its activity are free, and those
    a deletion holds carry its job or are free. *)
Definition held_free (s : ClusterManagerWorkflow) : Prop :=
  forall d, nodes (state s) = Some d ->
    match nodes_lock s with
    | Some (allocate_at_104 l _) => forall k, In k l -> is_free d k = true
    | Some (delete_at_134 l t) =>
        forall k, In k l -> carries d k t = true \/ is_free d k = true
    | _ => True
    end.

(** What [run] returned or handed over is what the workflow holds. *)
Definition outcome_ok (c : Config) : Prop :=
  match main c with
  | run_returned r =>
      r = {| result_max_assigned_nodes := max_assigned_nodes (state (self c));
             num_currently_assigned_nodes := assigned_count c |}
      /\ cluster_shutdown (state (self c)) = true
  | run_continued_as_new next =>
      next = {| input_state := Some (state (self c));
                test_continue_as_new := test_continue_as_new (input c) |}
      /\ nodes_lock (self c) = None
      /\ cluster_shutdown (state (self c)) = false
  | _ => True
  end.

(** An allocation is waiting for its activity. *)
Definition allocation_in_flight : Config :=
  fst (run_events (initial fresh)
         [ Deliver signal_start_cluster;
           Deliver (update_allocate_n_nodes_to_job
                      {| num_nodes := 2; alloc_task_name := "task-0" |});
           Wake 0 ]).

(** [run] hands over to a new run: the runtime has suggested to continue
    as new while no handler holds the lock. *)
Definition handing_over : list Event :=
  [ Deliver signal_start_cluster;
    WakeRun quiet false; ActivityDone (Completed []);
    Deliver (update_allocate_n_nodes_to_job
               {| num_nodes := 2; alloc_task_name := "task-0" |});
    Wake 0; ActivityDone (Completed []);
    WakeRun {| is_continue_as_new_suggested := true;
               get_current_history_length := 40 |} false ].

(** [run] is past its first wait, and the lock is held, only in a started
    cluster, and [run] fails only with the error of an activity. *)
Definition run_ok (c : Config) : Prop :=
  lifecycle_ok (state (self c))
  /\ (forall h, nodes_lock (self c) = Some h ->
        cluster_started (state (self c)) = true)
  /\ match main c with
     | run_at_192 => True
     | run_failed e => exists cause, e = ActivityError cause
     | _ => cluster_started (state (self c)) = true
     end.

(** ** The workflow across its runs *)

(** The cluster manager outlives a run.  When [run] has continued as new
    (line 210) the runtime closes the run and starts the next one on the
    input handed over, with a workflow object of its own ([__init__], then
    [init] at line 190).  The handlers still suspended in the closed run
    belong to that run: the next one starts without them. *)
Inductive EntityEvent : Type :=
| InRun (ev : Event)
| NextRun.

Definition entity_step (c : Config) (e : EntityEvent)
    : Config * option Reply :=
  match e with
  | InRun ev => step c ev
  | NextRun =>
      match main c with
      | run_continued_as_new next => (initial next, None)
      | _ => (c, None)
      end
  end.

(** The runs of the workflow one after the other: the final configuration
    and the replies, in the order in which they were sent. *)
Fixpoint run_entity (c : Config) (es : list EntityEvent)
    : Config * list Reply :=
  match es with
  | [] => (c, [])
  | e :: es' =>
      let (c', o) := entity_step c e in
      let (c'', os) := run_entity c' es' in
      (c'', match o with Some x => x :: os | None => os end)
  end.

(** An event of a run that satisfies [p]. *)
Definition in_run (p : Event -> bool) (e : EntityEvent) : bool :=
  match e with
  | InRun ev => p ev
  | NextRun => false
  end.

(** Every health check of the runs is answered with nodes among those it
    asked about. *)
Fixpoint entity_answers_within (c : Config) (es : list EntityEvent) : bool :=
  match es with
  | [] => true
  | e :: es' =>
      match e with
      | InRun ev => answers_within c ev
      | NextRun => true
      end
      && entity_answers_within (fst (entity_step c e)) es'
  end.

(** The keys of a Python dict are distinct; this says so of the table of a
    seed state, which the model holds as a list of items. *)
Definition seed_is_dict (input : ClusterManagerInput) : Prop :=
  forall st d, input_state input = Some st -> nodes st = Some d ->
    NoDup (Py.keys d).

(** The table of the seed state, when there is one, is the table of a
    cluster built by [start_cluster]: it has its 25 keys. *)
Definition seed_of_cluster (input : ClusterManagerInput) : Prop :=
  forall st d, input_state input = Some st -> nodes st = Some d ->
    Py.keys d = node_ids.

Definition suggesting : Info :=
  {| is_continue_as_new_suggested := true;
     get_current_history_length := 40 |}.

(** After node 0 was marked bad, [run] continues as new, and a job asks the
    next run for a node. *)
Definition next_run_allocates : list EntityEvent :=
  [ InRun (WakeRun suggesting false); NextRun;
    InRun (Deliver (update_allocate_n_nodes_to_job
                      {| num_nodes := 1; alloc_task_name := "task-1" |}));
    InRun (Wake 0); InRun (ActivityDone (Completed [])) ].

(** Two runs: the first one allocates two nodes and hands over; in the
    second one an allocation has selected three nodes and waits for its
    activity. *)
Definition second_run_allocating : list EntityEvent :=
  (map InRun handing_over
   ++ [ NextRun;
        InRun (Deliver (update_allocate_n_nodes_to_job
                          {| num_nodes := 3; alloc_task_name := "task-1" |}));
        InRun (Wake 0) ])%list.


(** * Facts about dicts *)

Module PyFacts.
Import Py.

Lemma contains_In (l : list string) (k : string) :
  contains l k = true <-> In k l.
Proof.
  unfold contains. rewrite existsb_exists. split.
  - intros [x [Hx He]]. apply String.eqb_eq in He. now subst.
  - intros H. exists k. split; [assumption | apply String.eqb_refl].
Qed.

Lemma contains_false (l : list string) (k : string) :
  contains l k = false <-> ~ In k l.
Proof.
  rewrite <- contains_In. destruct (contains l k); split; congruence.
Qed.

Lemma get_setitem_same (d : Dict) k v : get (setitem d k v) k = Some v.
Proof.
  induction d as [|[k' v'] d IH]; simpl.
  - now rewrite String.eqb_refl.
  - destruct (String.eqb k' k) eqn:E; simpl; rewrite E; auto.
Qed.

Lemma get_setitem_other (d : Dict) k k' v :
  k <> k' -> get (setitem d k' v) k = get d k.
Proof.
  intros Hne. induction d as [|[k0 v0] d IH]; simpl.
  - destruct (String.eqb_spec k' k); congruence.
  - destruct (String.eqb_spec k0 k'); simpl.
    + subst. destruct (String.eqb_spec k' k); congruence.
    + now rewrite IH.
Qed.

Lemma get_set_each (l : list string) : forall (d : Dict) k v,
  get (set_each d l v) k = if contains l k then Some v else get d k.
Proof.
  induction l as [|x l IH]; intros d k v; simpl; [reflexivity|].
  unfold set_each in *. simpl. rewrite IH.
  destruct (contains l k) eqn:Hc.
  - now rewrite orb_true_r.
  - rewrite orb_false_r. destruct (String.eqb_spec k x).
    + subst. apply get_setitem_same.
    + now apply get_setitem_other.
Qed.

Lemma get_In_keys (d : Dict) k : get d k <> None <-> In k (keys d).
Proof.
  induction d as [|[k' v'] d IH]; simpl; [tauto|].
  destruct (String.eqb_spec k' k).
  - split; [auto | congruence].
  - rewrite IH. tauto.
Qed.

Lemma keys_setitem (d : Dict) k v :
  In k (keys d) -> keys (setitem d k v) = keys d.
Proof.
  induction d as [|[k' v'] d IH]; simpl; [tauto|].
  intros H. destruct (String.eqb_spec k' k); simpl; [reflexivity|].
  f_equal. apply IH. tauto.
Qed.

Lemma keys_set_each (l : list string) : forall (d : Dict) v,
  incl l (keys d) -> keys (set_each d l v) = keys d.
Proof.
  induction l as [|x l IH]; intros d v Hin; [reflexivity|].
  unfold set_each in *. simpl.
  assert (Hx : keys (setitem d x v) = keys d)
    by (apply keys_setitem, Hin; now left).
  rewrite IH; [assumption|]. rewrite Hx.
  intros y Hy. apply Hin. now right.
Qed.

(** A comprehension over the items yields keys of the dict, in the order
    of the dict. *)
Lemma comprehension_incl (p : string * option string -> bool) (d : Dict) :
  incl (map fst (filter p (items d))) (keys d).
Proof.
  intros k Hk. apply in_map_iff in Hk as [kv [<- Hkv]].
  apply filter_In in Hkv as [Hkv _]. unfold keys. now apply in_map.
Qed.

Lemma firstn_incl {A : Type} (n : nat) (l : list A) : incl (firstn n l) l.
Proof.
  intros x Hx. rewrite <- (firstn_skipn n l). apply in_or_app. now left.
Qed.

Lemma slice_to_incl {A : Type} (l : list A) n : incl (slice_to l n) l.
Proof.
  unfold slice_to. destruct (n <? 0); apply firstn_incl.
Qed.

Lemma slice_to_nonneg {A : Type} (l : list A) n :
  0 <= n -> slice_to l n = firstn (Z.to_nat n) l.
Proof.
  intros Hn. unfold slice_to.
  destruct (Z.ltb_spec n 0); [lia | reflexivity].
Qed.


Lemma len_nonneg {A : Type} (l : list A) : 0 <= len l.
Proof. unfold len. lia. Qed.

Lemma len_filter_le {A : Type} (p : A -> bool) (l : list A) :
  len (filter p l) <= len l.
Proof.
  unfold len. apply inj_le. induction l as [|a l IH]; simpl; [lia|].
  destruct (p a); simpl; lia.
Qed.

(** With distinct keys, the items determine the value of a key. *)
Lemma get_In_item (d : Dict) k v :
  NoDup (keys d) -> In (k, v) d -> get d k = Some v.
Proof.
  induction d as [|[k' v'] d IH]; simpl; [tauto|].
  intros Hnd [Heq | Hin].
  - inversion Heq; subst. now rewrite String.eqb_refl.
  - inversion Hnd as [|? ? Hnotin Hnd']; subst.
    destruct (String.eqb_spec k' k).
    + subst. exfalso. apply Hnotin.
      change k with (fst (k, v)). now apply in_map.
    + now apply IH.
Qed.

End PyFacts.

(** * The handlers, one call at a time *)

Lemma with_lock_unlocked (s : ClusterManagerWorkflow) :
  nodes_lock s = None -> with_lock s None = s.
Proof. destruct s; simpl; intros ->; reflexivity. Qed.

Lemma with_lock_twice (s : ClusterManagerWorkflow) (h h' : option Holder) :
  with_lock (with_lock s h) h' = with_lock s h'.
Proof. reflexivity. Qed.

Lemma locked_false (s : ClusterManagerWorkflow) :
  nodes_lock s = None -> locked s = false.
Proof. unfold locked. now intros ->. Qed.

Lemma locked_true (s : ClusterManagerWorkflow) :
  locked s = true -> exists h, nodes_lock s = Some h.
Proof. unfold locked. destruct (nodes_lock s); [eauto | discriminate]. Qed.

Lemma set_nodes_Some (st : ClusterManagerState) (d : Py.Dict)
    (l : list string) (v : option string) :
  nodes st = Some d ->
  set_nodes st l v = inr (with_nodes st (set_each d l v)).
Proof.
  intros Hd. destruct l as [|x l]; simpl.
  - destruct st; simpl in *; subst; reflexivity.
  - now rewrite Hd.
Qed.

Lemma set_nodes_state (st st' : ClusterManagerState) l v :
  set_nodes st l v = inr st' ->
  cluster_started st' = cluster_started st
  /\ cluster_shutdown st' = cluster_shutdown st
  /\ max_assigned_nodes st' = max_assigned_nodes st.
Proof.
  destruct l; simpl.
  - intros [= <-]. auto.
  - destruct (nodes st); [|discriminate]. intros [= <-]. auto.
Qed.

Section Handlers.

Variable s : ClusterManagerWorkflow.
Variable d : Py.Dict.
Hypothesis Hstarted : cluster_started (state s) = true.
Hypothesis Hnodes : nodes (state s) = Some d.

(** After the shutdown signal, the entry check of both handlers raises, whoever
    holds the lock. *)
Lemma allocate_shut_down input :
  cluster_shutdown (state s) = true ->
  allocate_from_84 s input = (s, Raised (ApplicationError shut_down_allocate)).
Proof. intros Hsd. unfold allocate_from_84. now rewrite Hstarted, Hsd. Qed.

Lemma delete_shut_down input :
  cluster_shutdown (state s) = true ->
  delete_from_122 s input = (s, Raised (ApplicationError shut_down_delete)).
Proof. intros Hsd. unfold delete_from_122. now rewrite Hstarted, Hsd. Qed.

Hypothesis Hrunning : cluster_shutdown (state s) = false.
Hypothesis Hunlocked : nodes_lock s = None.

Lemma allocate_entry input : allocate_from_84 s input = allocate_from_93 s input.
Proof. unfold allocate_from_84. now rewrite Hstarted, Hrunning. Qed.

Lemma allocate_too_many input :
  Py.len (unassigned_of d) < num_nodes input ->
  allocate_from_93 s input =
    (s, Raised (ApplicationError
                  (cannot_allocate (num_nodes input)
                                   (Py.len (unassigned_of d))))).
Proof.
  intros Hlt. unfold allocate_from_93, nodes_items.
  rewrite (locked_false _ Hunlocked), Hnodes.
  destruct (Z.ltb_spec (Py.len (unassigned_of d)) (num_nodes input));
    [reflexivity | lia].
Qed.

Lemma allocate_enters input :
  num_nodes input <= Py.len (unassigned_of d) ->
  allocate_from_93 s input =
    (with_lock s
       (Some (allocate_at_104
                (Py.slice_to (unassigned_of d) (num_nodes input))
                (alloc_task_name input))),
     InActivity).
Proof.
  intros Hle. unfold allocate_from_93, nodes_items.
  rewrite (locked_false _ Hunlocked), Hnodes.
  destruct (Z.ltb_spec (Py.len (unassigned_of d)) (num_nodes input));
    [lia | reflexivity].
Qed.

Lemma allocate_completes input ret :
  num_nodes input <= Py.len (unassigned_of d) ->
  let selected := Py.slice_to (unassigned_of d) (num_nodes input) in
  allocate_n_nodes_to_job s input (Completed ret) =
    (allocated s d selected (alloc_task_name input),
     Returned (VNodes selected)).
Proof.
  intros Hle selected. unfold allocate_n_nodes_to_job.
  rewrite allocate_entry, (allocate_enters _ Hle).
  unfold then_activity. cbn [nodes_lock with_lock resume_holder].
  unfold allocate_from_104, _allocate_nodes_to_job. cbn [state with_lock].
  rewrite (set_nodes_Some _ d _ _ Hnodes).
  reflexivity.
Qed.

Lemma allocate_fails input cause :
  num_nodes input <= Py.len (unassigned_of d) ->
  allocate_n_nodes_to_job s input (Failed cause) =
    (s, Raised (ActivityError cause)).
Proof.
  intros Hle. unfold allocate_n_nodes_to_job.
  rewrite allocate_entry, (allocate_enters _ Hle).
  unfold then_activity. cbn [nodes_lock with_lock resume_holder].
  unfold allocate_from_104, _allocate_nodes_to_job. rewrite with_lock_twice.
  now rewrite (with_lock_unlocked _ Hunlocked).
Qed.

Lemma health_check_fails cause :
  perform_health_checks s (Failed cause) = (s, Raised (ActivityError cause)).
Proof.
  unfold perform_health_checks, health_from_149, get_assigned_nodes,
    nodes_items.
  rewrite (locked_false _ Hunlocked), Hnodes.
  unfold then_activity. cbn [nodes_lock with_lock resume_holder].
  unfold health_from_152. rewrite with_lock_twice.
  now rewrite (with_lock_unlocked _ Hunlocked).
Qed.

End Handlers.

(** * Properties of a single call *)

(** C5.  When the handler reaches its capacity check (the cluster is
    started and not shut down, the lock is free) and fewer nodes are free
    than requested, [allocate_n_nodes_to_job] raises the [ApplicationError]
    of line 99, whose message carries the requested and the available
    counts; the whole workflow object, allocation table and
    [max_assigned_nodes] included, is as before the call, and the lock is
    free again.  The same holds for a call that had to wait for the lock
    (resumed at line 93). *)
Theorem insufficient_capacity_leaves_state :
  forall (s : ClusterManagerWorkflow) (d : Py.Dict)
         (input : ClusterManagerAllocateNNodesToJobInput)
         (r : ActivityOutcome),
    cluster_started (state s) = true ->
    cluster_shutdown (state s) = false ->
    nodes_lock s = None ->
    nodes (state s) = Some d ->
    Py.len (unassigned_of d) < num_nodes input ->
    let failure :=
      Raised (ApplicationError
                (cannot_allocate (num_nodes input)
                                 (Py.len (unassigned_of d)))) in
    allocate_n_nodes_to_job s input r = (s, failure)
    /\ resume s (allocate_at_93 input) = (s, failure)
    /\ locked (fst (allocate_n_nodes_to_job s input r)) = false.
Proof.
  intros s d input r Hst Hrun Hlock Hd Hlt failure.
  assert (H93 : allocate_from_93 s input = (s, failure))
    by (eapply allocate_too_many; eassumption).
  assert (Hcall : allocate_n_nodes_to_job s input r = (s, failure)).
  { unfold allocate_n_nodes_to_job.
    rewrite (allocate_entry s Hst Hrun), H93. reflexivity. }
  repeat split.
  - exact Hcall.
  - exact H93.
  - rewrite Hcall. now apply locked_false.
Qed.

Lemma insufficient_capacity_leaves_state_witness :
  allocate_n_nodes_to_job started_workflow
      {| num_nodes := 26; alloc_task_name := "job" |} (Completed []) =
    (started_workflow,
     Raised (ApplicationError
               "Cannot allocate 26 nodes; have only 25 available")).
Proof.
  refine (proj1 (insufficient_capacity_leaves_state started_workflow
            (Py.all_none node_ids) _ (Completed []) _ _ _ _ _));
    vm_compute; reflexivity.
Defined.

(** C6.  In a started cluster whose shutdown flag is set, both update
    handlers raise their [ApplicationError] at once, without waiting for the
    lock or calling an activity, and leave the workflow object unchanged;
    the scheduler sends that failure to the caller of the update. *)
Theorem rejected_after_shutdown :
  forall (s : ClusterManagerWorkflow)
         (ai : ClusterManagerAllocateNNodesToJobInput)
         (di : ClusterManagerDeleteJobInput) (r : ActivityOutcome),
    cluster_started (state s) = true ->
    cluster_shutdown (state s) = true ->
    allocate_n_nodes_to_job s ai r =
      (s, Raised (ApplicationError shut_down_allocate))
    /\ delete_job s di r = (s, Raised (ApplicationError shut_down_delete))
    /\ (forall c n, self c = s -> finished c = false ->
          nth_error (handlers c) n = Some (allocate_at_84 ai) ->
          self (fst (step c (Wake n))) = s
          /\ snd (step c (Wake n)) =
               Some (Failure (ApplicationError shut_down_allocate)))
    /\ (forall c n, self c = s -> finished c = false ->
          nth_error (handlers c) n = Some (delete_at_122 di) ->
          self (fst (step c (Wake n))) = s
          /\ snd (step c (Wake n)) =
               Some (Failure (ApplicationError shut_down_delete))).
Proof.
  intros s ai di r Hst Hsd.
  pose proof (allocate_shut_down s Hst ai Hsd) as Ha.
  pose proof (delete_shut_down s Hst di Hsd) as Hd.
  split; [unfold allocate_n_nodes_to_job; now rewrite Ha|].
  split; [unfold delete_job; now rewrite Hd|].
  split; intros c n Hs Hfin Hnth; subst s;
    unfold step, wake; rewrite Hfin, Hnth; cbn [resume].
  - rewrite Ha. now split.
  - rewrite Hd. now split.
Qed.

Lemma rejected_after_shutdown_witness :
  allocate_n_nodes_to_job shut_down_workflow
      {| num_nodes := 1; alloc_task_name := "job" |} (Completed []) =
    (shut_down_workflow, Raised (ApplicationError shut_down_allocate)).
Proof.
  refine (proj1 (rejected_after_shutdown shut_down_workflow _
                   {| delete_task_name := "job" |} _ _ _)); reflexivity.
Defined.

(** C7.  When the handler gets to its activity call and the activity
    fails, [allocate_n_nodes_to_job] raises the [ActivityError] of the
    failure and the workflow object is as before the call: no node was
    marked, [max_assigned_nodes] is unchanged, the lock is free.  The segment
    resumed by the failure (line 104) changes nothing but the lock, whatever
    the signals did while the activity ran. *)
Theorem allocate_activity_failure_leaves_state :
  forall (s : ClusterManagerWorkflow) (d : Py.Dict)
         (input : ClusterManagerAllocateNNodesToJobInput) (cause : string),
    cluster_started (state s) = true ->
    cluster_shutdown (state s) = false ->
    nodes_lock s = None ->
    nodes (state s) = Some d ->
    num_nodes input <= Py.len (unassigned_of d) ->
    allocate_n_nodes_to_job s input (Failed cause) =
      (s, Raised (ActivityError cause))
    /\ state (fst (allocate_from_93 s input)) = state s
    /\ (forall s' l t,
          allocate_from_104 s' l t (Failed cause) =
            (with_lock s' None, Raised (ActivityError cause))).
Proof.
  intros s d input cause Hst Hrun Hlock Hd Hle. repeat split.
  - eapply allocate_fails; eassumption.
  - now rewrite (allocate_enters s d Hd Hlock input Hle).
Qed.

Lemma allocate_activity_failure_leaves_state_witness :
  allocate_n_nodes_to_job started_workflow
      {| num_nodes := 3; alloc_task_name := "job" |} (Failed "unreachable") =
    (started_workflow, Raised (ActivityError "unreachable")).
Proof.
  refine (proj1 (allocate_activity_failure_leaves_state started_workflow
            (Py.all_none node_ids) _ _ _ _ _ _ _));
    vm_compute; solve [reflexivity | discriminate].
Defined.

(** * The order of the table *)

Lemma distinct_NoDup (l : list string) : distinct l = true -> NoDup l.
Proof.
  induction l as [|x l IH]; simpl; intros H; constructor.
  - apply andb_prop in H as [H _]. apply negb_true_iff in H.
    now apply PyFacts.contains_false.
  - apply IH. now apply andb_prop in H as [_ H].
Qed.

Lemma node_ids_NoDup : NoDup node_ids.
Proof. apply distinct_NoDup. vm_compute. reflexivity. Qed.

Lemma node_ids_length : List.length node_ids = 25%nat.
Proof. reflexivity. Qed.

Lemma start_cluster_keys (s : ClusterManagerWorkflow) :
  nodes (state (start_cluster s)) = Some (Py.all_none node_ids)
  /\ Py.keys (Py.all_none node_ids) = node_ids.
Proof. split; reflexivity. Qed.

Lemma is_free_head (k : string) (v : option string) (d : Py.Dict) :
  is_free ((k, v) :: d) k = is_None v.
Proof.
  unfold is_free. simpl. rewrite String.eqb_refl. now destruct v.
Qed.

Lemma is_free_tail (k k' : string) (v : option string) (d : Py.Dict) :
  k <> k' -> is_free ((k, v) :: d) k' = is_free d k'.
Proof.
  intros Hne. unfold is_free. simpl.
  destruct (String.eqb_spec k k'); [contradiction | reflexivity].
Qed.

(** Line 94 lists the free nodes in the order of the keys. *)
Lemma unassigned_of_keys (d : Py.Dict) :
  NoDup (Py.keys d) -> unassigned_of d = filter (is_free d) (Py.keys d).
Proof.
  unfold unassigned_of, Py.items.
  induction d as [|[k v] d IH]; intros Hnd; [reflexivity|].
  inversion Hnd as [|? ? Hnotin Hnd']; subst.
  cbn [filter map snd fst Py.keys]. rewrite is_free_head.
  assert (Htail : filter (is_free ((k, v) :: d)) (map fst d)
                  = filter (is_free d) (map fst d)).
  { apply filter_ext_in. intros k' Hk'. apply is_free_tail.
    intros ->. contradiction. }
  rewrite Htail. fold (Py.keys d). rewrite <- (IH Hnd').
  now destruct (is_None v).
Qed.



Lemma unassigned_of_incl (d : Py.Dict) : incl (unassigned_of d) (Py.keys d).
Proof. apply PyFacts.comprehension_incl. Qed.

Lemma nodes_of_job_incl (d : Py.Dict) t : incl (nodes_of_job d t) (Py.keys d).
Proof. apply PyFacts.comprehension_incl. Qed.

Lemma assigned_of_incl (d : Py.Dict) : incl (assigned_of d) (Py.keys d).
Proof. apply PyFacts.comprehension_incl. Qed.

Lemma selected_incl (d : Py.Dict) (n : Z) :
  incl (Py.slice_to (unassigned_of d) n) (Py.keys d).
Proof.
  eapply incl_tran; [apply PyFacts.slice_to_incl | apply unassigned_of_incl].
Qed.





(** * The run loop *)

Lemma should_continue_as_new_locked (s : ClusterManagerWorkflow) (info : Info) :
  locked s = true -> should_continue_as_new s info = false.
Proof. unfold should_continue_as_new. now intros ->. Qed.

Lemma health_from_149_locked (s : ClusterManagerWorkflow) :
  locked s = true -> health_from_149 s = (s, Suspended health_at_149).
Proof. unfold health_from_149. now intros ->. Qed.

Lemma run_result_not_continued (s : ClusterManagerWorkflow) next :
  run_result s <> run_continued_as_new next.
Proof. unfold run_result. destruct (get_assigned_nodes s); discriminate. Qed.

Lemma health_from_152_not_continued (s : ClusterManagerWorkflow) r next :
  snd (run_from_196 (health_from_152 s r)) <> run_continued_as_new next.
Proof.
  unfold health_from_152. destruct r as [bad | cause]; [|discriminate].
  destruct (set_nodes (state s) bad (Some BAD)); discriminate.
Qed.

(** C9.  Whenever [nodes_lock] is held, [should_continue_as_new] is false,
    whatever [workflow.info()] reports, and no step of the workflow taken
    from such a configuration makes [run] continue as new. *)
Theorem no_checkpoint_while_locked :
  forall (c : Config) (info : Info),
    locked (self c) = true ->
    should_continue_as_new (self c) info = false
    /\ (forall ev next,
          main (fst (step c ev)) = run_continued_as_new next ->
          main c = run_continued_as_new next).
Proof.
  intros c info Hlocked. split; [now apply should_continue_as_new_locked|].
  intros ev next. unfold step.
  destruct (finished c) eqn:Hfin; [trivial|].
  destruct ev as [m | n | i timed_out | r]; cbn [fst].
  - destruct m; trivial.
  - unfold wake. destruct (nth_error (handlers c) n); [|trivial].
    destruct (resume (self c) c0) as [s' []]; trivial.
  - unfold wake_run. destruct (main c) eqn:Hmain; try (now rewrite Hmain).
    + unfold run_from_192.
      rewrite (health_from_149_locked _ Hlocked).
      destruct (cluster_started (state (self c))); cbn; discriminate.
    + rewrite (health_from_149_locked _ Hlocked). cbn. discriminate.
    + unfold run_from_198, run_from_205.
      rewrite (should_continue_as_new_locked _ i Hlocked).
      rewrite (health_from_149_locked _ Hlocked).
      destruct (cluster_shutdown (state (self c))); cbn.
      * intros H. now apply run_result_not_continued in H.
      * destruct timed_out; cbn; discriminate.
  - unfold activity_done.
    destruct (nodes_lock (self c)) as [[l t | l t | l]|] eqn:Hh; trivial.
    + destruct (resume_holder (self c) (allocate_at_104 l t) r); trivial.
    + destruct (resume_holder (self c) (delete_at_134 l t) r); trivial.
    + cbn [resume_holder].
      pose proof (health_from_152_not_continued (self c) r next) as Hne.
      destruct (run_from_196 (health_from_152 (self c) r)) as [s' p].
      cbn in *. intros H. contradiction.
Qed.

Lemma no_checkpoint_while_locked_witness :
  should_continue_as_new (self checking_health)
    {| is_continue_as_new_suggested := true;
       get_current_history_length := 500 |} = false.
Proof.
  refine (proj1 (no_checkpoint_while_locked checking_health _ _)).
  reflexivity.
Defined.

(** C2.  What the code does when the activity of the health check fails:
    [perform_health_checks] raises the [ActivityError] to [run], which does
    not catch it, so the run of the workflow fails.  The allocation table,
    the flags and [max_assigned_nodes] are as before, the lock is released,
    and the activity was attempted once. *)
Theorem health_check_failure_ends_run :
  forall cause : string,
    perform_health_checks started_workflow (Failed cause) =
      (started_workflow, Raised (ActivityError cause))
    /\ run_events (initial fresh)
         [Deliver signal_start_cluster; WakeRun quiet false;
          ActivityDone (Failed cause)] =
       ({| self := started_workflow; input := fresh;
           main := run_failed (ActivityError cause); handlers := [] |}, []).
Proof. intros cause. split; reflexivity. Qed.

(** * The keys of the table never change *)

Lemma nodes_items_inr (st : ClusterManagerState) (d : Py.Dict) :
  nodes_items st = inr d -> nodes st = Some d.
Proof.
  unfold nodes_items. destruct (nodes st); [now intros [= ->] | discriminate].
Qed.

Lemma get_assigned_nodes_inr (s : ClusterManagerWorkflow) l :
  get_assigned_nodes s = inr l ->
  exists d, nodes (state s) = Some d /\ l = assigned_of d.
Proof.
  unfold get_assigned_nodes. destruct (nodes_items (state s)) eqn:E;
    [discriminate|].
  intros [= <-]. apply nodes_items_inr in E. eauto.
Qed.

Lemma table_ok_with_lock_None (s : ClusterManagerWorkflow) :
  keys_ok (state s) -> table_ok (with_lock s None).
Proof. intros H. split; [exact H | intros h; discriminate]. Qed.

Lemma table_ok_with_lock_Some (s : ClusterManagerWorkflow) (h : Holder) :
  keys_ok (state s) -> incl (held_nodes h) node_ids ->
  table_ok (with_lock s (Some h)).
Proof.
  intros Hk Hh. split; [exact Hk|]. intros h' [= <-]. exact Hh.
Qed.

Lemma keys_ok_flags (st : ClusterManagerState) (a b : bool) (m : Z) :
  keys_ok st ->
  keys_ok {| cluster_started := a; cluster_shutdown := b;
             nodes := nodes st; max_assigned_nodes := m |}.
Proof. intros H d Hd. apply H. exact Hd. Qed.

Lemma set_nodes_keys_ok (st st' : ClusterManagerState) l v :
  keys_ok st -> incl l node_ids -> set_nodes st l v = inr st' -> keys_ok st'.
Proof.
  intros Hk Hl. destruct l as [|x l]; unfold set_nodes.
  - now intros [= <-].
  - destruct (nodes st) as [d|] eqn:Hd; [|discriminate].
    pose proof (Hk d Hd) as Hkeys.
    assert (Hgoal : Py.keys (set_each d (x :: l) v) = node_ids).
    { rewrite PyFacts.keys_set_each; [exact Hkeys|].
      rewrite Hkeys. exact Hl. }
    intros [= <-] d' [= <-]. exact Hgoal.
Qed.

Lemma keys_ok_start (s : ClusterManagerWorkflow) :
  table_ok s -> table_ok (start_cluster s).
Proof.
  intros [_ Hh]. split; [|exact Hh].
  intros d [= <-]. reflexivity.
Qed.

Lemma incl_keys_ok (st : ClusterManagerState) (d : Py.Dict) l :
  keys_ok st -> nodes_items st = inr d -> incl l (Py.keys d) ->
  incl l node_ids.
Proof.
  intros Hk Hd Hl. apply nodes_items_inr in Hd. now rewrite <- (Hk d Hd).
Qed.

Lemma resume_table_ok (s : ClusterManagerWorkflow) (co : Coroutine) :
  table_ok s -> table_ok (fst (resume s co)).
Proof.
  intros [Hk Hh].
  destruct co; cbn [resume];
    unfold shutdown_from_76, allocate_from_84, allocate_from_93,
      delete_from_122, delete_from_129, health_from_149;
    break_match; cbn [fst]; try (split; assumption);
    (apply table_ok_with_lock_Some; [assumption|]); cbn [held_nodes].
  - eapply incl_keys_ok; eauto using selected_incl.
  - eapply incl_keys_ok; eauto using selected_incl.
  - eapply incl_keys_ok; eauto using nodes_of_job_incl.
  - eapply incl_keys_ok; eauto using nodes_of_job_incl.
  - match goal with
    | H : get_assigned_nodes _ = inr _ |- _ =>
        apply get_assigned_nodes_inr in H as [d [Hd ->]]
    end.
    rewrite <- (Hk d Hd). apply assigned_of_incl.
Qed.

Lemma resume_holder_table_ok (s : ClusterManagerWorkflow) (h : Holder)
    (r : ActivityOutcome) :
  table_ok s -> nodes_lock s = Some h ->
  (forall checked bad, h = health_at_152 checked -> r = Completed bad ->
     incl bad checked) ->
  table_ok (fst (resume_holder s h r)).
Proof.
  intros [Hk Hh] Hlock Hbad. specialize (Hh h Hlock).
  destruct h as [l t | l t | l]; cbn [resume_holder held_nodes] in *;
    unfold allocate_from_104, _allocate_nodes_to_job, delete_from_134,
      _deallocate_nodes_for_job, health_from_152;
    destruct r as [ret | cause]; cbn [fst];
    try (now apply table_ok_with_lock_None).
  - destruct (set_nodes (state s) l (Some t)) as [e | st] eqn:Hset;
      [now apply table_ok_with_lock_None|].
    pose proof (set_nodes_keys_ok _ _ _ _ Hk Hh Hset) as Hk'.
    destruct (nodes_items st); cbn [fst];
      apply table_ok_with_lock_None; exact Hk'.
  - destruct (set_nodes (state s) l None) as [e | st] eqn:Hset; cbn [fst];
      apply table_ok_with_lock_None; auto.
    exact (set_nodes_keys_ok _ _ _ _ Hk Hh Hset).
  - destruct (set_nodes (state s) ret (Some BAD)) as [e | st] eqn:Hset;
      cbn [fst]; apply table_ok_with_lock_None; auto.
    refine (set_nodes_keys_ok _ _ _ _ Hk _ Hset).
    eapply incl_tran; [|exact Hh]. now apply (Hbad l ret).
Qed.

(** What one step does to the workflow object: nothing, [start_cluster], a
    segment of a suspended coroutine, or the segment of the holder of the
    lock. *)
Lemma run_from_196_self (p : ClusterManagerWorkflow * Outcome) :
  fst (run_from_196 p) = fst p.
Proof. destruct p as [s []]; reflexivity. Qed.

Lemma step_cases (c : Config) (ev : Event) :
  self (fst (step c ev)) = self c
  \/ (ev = Deliver signal_start_cluster
      /\ self (fst (step c ev)) = start_cluster (self c))
  \/ (exists co, (In co (handlers c) \/ co = health_at_149)
                 /\ self (fst (step c ev)) = fst (resume (self c) co))
  \/ (exists h r, ev = ActivityDone r /\ nodes_lock (self c) = Some h
                  /\ self (fst (step c ev)) = fst (resume_holder (self c) h r)).
Proof.
  unfold step. destruct (finished c); [now left|].
  destruct ev as [m | n | info timed_out | r]; cbn [fst].
  - destruct m; cbn [deliver]; auto.
  - unfold wake. destruct (nth_error (handlers c) n) as [co|] eqn:Hn;
      [|now left].
    right; right; left. exists co. split; [left; eapply nth_error_In; eauto|].
    destruct (resume (self c) co) as [s' []]; reflexivity.
  - unfold wake_run. destruct (main c); auto.
    + unfold run_from_192.
      destruct (cluster_started (state (self c))); [|now left].
      right; right; left. exists health_at_149. split; [now right|].
      pose proof (run_from_196_self (health_from_149 (self c))) as H.
      destruct (run_from_196 (health_from_149 (self c))). exact H.
    + right; right; left. exists health_at_149. split; [now right|].
      pose proof (run_from_196_self (health_from_149 (self c))) as H.
      destruct (run_from_196 (health_from_149 (self c))). exact H.
    + unfold run_from_198, run_from_205.
      destruct (cluster_shutdown (state (self c)) ||
                should_continue_as_new (self c) info || timed_out);
        [|now left].
      destruct (cluster_shutdown (state (self c))); [now left|].
      destruct (should_continue_as_new (self c) info); [now left|].
      right; right; left. exists health_at_149. split; [now right|].
      pose proof (run_from_196_self (health_from_149 (self c))) as H.
      destruct (run_from_196 (health_from_149 (self c))). exact H.
  - unfold activity_done.
    destruct (nodes_lock (self c)) as [h|] eqn:Hh; [|now left].
    right; right; right. exists h, r. repeat split.
    destruct h as [l t | l t | l].
    + destruct (resume_holder (self c) (allocate_at_104 l t) r); reflexivity.
    + destruct (resume_holder (self c) (delete_at_134 l t) r); reflexivity.
    + pose proof (run_from_196_self
                    (resume_holder (self c) (health_at_152 l) r)) as H.
      destruct (run_from_196 (resume_holder (self c) (health_at_152 l) r)).
      exact H.
Qed.

Lemma answers_within_incl (c : Config) (r : ActivityOutcome) (h : Holder) :
  answers_within c (ActivityDone r) = true ->
  nodes_lock (self c) = Some h ->
  forall checked bad, h = health_at_152 checked -> r = Completed bad ->
    incl bad checked.
Proof.
  intros Hw Hh checked bad -> ->. unfold answers_within in Hw.
  rewrite Hh in Hw. rewrite forallb_forall in Hw.
  intros k Hk. apply PyFacts.contains_In. now apply Hw.
Qed.

(** The activity of the sibling package answers within the nodes it is
    given, whatever [int] does. *)
Lemma bad_among_incl (int : string -> option Z) (l : list string) :
  forall bad, bad_among int l = Some bad -> incl bad l.
Proof.
  induction l as [|n l IH]; simpl; intros bad.
  - intros [= <-]. apply incl_refl.
  - destruct (int n) as [z|]; [|discriminate].
    destruct (bad_among int l) as [bad'|]; [|discriminate].
    specialize (IH bad' eq_refl). intros [= <-].
    destruct (z mod 5 =? 0).
    + intros x [<- | Hx]; [now left | right; now apply IH].
    + now apply incl_tl.
Qed.

Lemma find_bad_nodes_answers_within (int : string -> option Z) (c : Config)
    (checked : list string) :
  nodes_lock (self c) = Some (health_at_152 checked) ->
  answers_within c (ActivityDone (find_bad_nodes int checked)) = true.
Proof.
  intros Hlock. unfold answers_within, find_bad_nodes.
  destruct (bad_among int checked) as [bad|] eqn:Hbad; [|reflexivity].
  rewrite Hlock. apply forallb_forall. intros k Hk.
  apply PyFacts.contains_In. apply (bad_among_incl int checked bad Hbad).
  unfold set_of in Hk. now apply nodup_In in Hk.
Qed.

Lemma find_bad_nodes_of_first_two :
  find_bad_nodes int_of_decimal ["0"; "1"] = Completed ["0"].
Proof. reflexivity. Qed.

Lemma step_table_ok (c : Config) (ev : Event) :
  table_ok (self c) -> answers_within c ev = true ->
  table_ok (self (fst (step c ev))).
Proof.
  intros Hok Hw.
  destruct (step_cases c ev)
    as [-> | [[_ ->] | [[co [_ ->]] | [h [r [-> [Hh ->]]]]]]].
  - exact Hok.
  - now apply keys_ok_start.
  - now apply resume_table_ok.
  - apply resume_holder_table_ok; [assumption .. |].
    eapply answers_within_incl; eassumption.
Qed.

Lemma initial_table_ok (test : bool) :
  table_ok (self (initial (fresh_input test))).
Proof. destruct test; split; intros x; discriminate. Qed.

Lemma run_events_table_ok (evs : list Event) : forall c,
  table_ok (self c) -> health_answers_within c evs = true ->
  table_ok (self (fst (run_events c evs))).
Proof.
  induction evs as [|ev evs IH]; intros c Hok Hw; [exact Hok|].
  cbn [health_answers_within] in Hw. apply andb_prop in Hw as [Hw1 Hw2].
  cbn [run_events].
  pose proof (step_table_ok c ev Hok Hw1) as Hok'.
  destruct (step c ev) as [c' o]. cbn [fst] in *.
  specialize (IH c' Hok' Hw2).
  destruct (run_events c' evs) as [c'' os]. exact IH.
Qed.

(** * Bad nodes stay bad *)

Lemma keys_setitem_In (d : Py.Dict) k v x :
  In x (Py.keys (Py.setitem d k v)) -> x = k \/ In x (Py.keys d).
Proof.
  induction d as [|[k' v'] d IH]; simpl.
  - intros [<- | []]. now left.
  - destruct (String.eqb_spec k' k); simpl; [tauto|].
    intros [<- | H]; [tauto|]. apply IH in H. tauto.
Qed.

Lemma setitem_NoDup (d : Py.Dict) k v :
  NoDup (Py.keys d) -> NoDup (Py.keys (Py.setitem d k v)).
Proof.
  induction d as [|[k' v'] d IH]; simpl; intros Hnd.
  - constructor; [intros [] | constructor].
  - inversion Hnd as [|? ? Hnotin Hnd']; subst.
    destruct (String.eqb_spec k' k); simpl; constructor; auto.
    intros Hin. apply keys_setitem_In in Hin as [-> | Hin]; contradiction.
Qed.

Lemma set_each_NoDup (l : list string) : forall (d : Py.Dict) v,
  NoDup (Py.keys d) -> NoDup (Py.keys (set_each d l v)).
Proof.
  induction l as [|x l IH]; intros d v Hnd; [exact Hnd|].
  unfold set_each in *. simpl. apply IH. now apply setitem_NoDup.
Qed.

Lemma set_nodes_NoDup (st st' : ClusterManagerState) l v :
  (forall d, nodes st = Some d -> NoDup (Py.keys d)) ->
  set_nodes st l v = inr st' ->
  forall d, nodes st' = Some d -> NoDup (Py.keys d).
Proof.
  intros Hnd. destruct l as [|x l]; unfold set_nodes.
  - now intros [= <-].
  - destruct (nodes st) as [d|] eqn:Hd; [|discriminate].
    pose proof (set_each_NoDup (x :: l) d v (Hnd d eq_refl)) as Hgoal.
    intros [= <-] d' [= <-]. exact Hgoal.
Qed.

Lemma set_nodes_nodes (st st' : ClusterManagerState) l v :
  set_nodes st l v = inr st' ->
  nodes st' = match nodes st with
              | Some d => Some (set_each d l v)
              | None => None
              end.
Proof.
  destruct l as [|x l]; unfold set_nodes.
  - intros [= <-]. now destruct (nodes st).
  - destruct (nodes st) as [d|]; [|discriminate]. now intros [= <-].
Qed.

(** A comprehension yields a key together with an item that passes its
    test. *)
Lemma comprehension_item (p : string * option string -> bool) (d : Py.Dict) k :
  In k (map fst (filter p (Py.items d))) ->
  exists v, In (k, v) d /\ p (k, v) = true.
Proof.
  intros Hk. apply in_map_iff in Hk as [[k' v] [Hfst Hin]].
  apply filter_In in Hin as [Hin Hp]. simpl in Hfst. subst k'. eauto.
Qed.

Lemma unassigned_not_bad (d : Py.Dict) k :
  NoDup (Py.keys d) -> In k (unassigned_of d) -> is_bad d k = false.
Proof.
  intros Hnd Hk. apply comprehension_item in Hk as [v [Hin Hp]].
  unfold is_bad. rewrite (PyFacts.get_In_item d k v Hnd Hin).
  now destruct v.
Qed.

Lemma nodes_of_job_not_bad (d : Py.Dict) t k :
  NoDup (Py.keys d) -> String.eqb t BAD = false ->
  In k (nodes_of_job d t) -> is_bad d k = false.
Proof.
  intros Hnd Ht Hk. apply comprehension_item in Hk as [v [Hin Hp]].
  unfold is_bad. rewrite (PyFacts.get_In_item d k v Hnd Hin).
  destruct v as [j|]; [|reflexivity]. simpl in Hp.
  apply String.eqb_eq in Hp. now subst.
Qed.

Lemma assigned_not_bad (d : Py.Dict) k :
  NoDup (Py.keys d) -> In k (assigned_of d) -> is_bad d k = false.
Proof.
  intros Hnd Hk. apply comprehension_item in Hk as [v [Hin Hp]].
  unfold is_bad. rewrite (PyFacts.get_In_item d k v Hnd Hin).
  destruct v as [j|]; [|reflexivity]. simpl in Hp.
  now apply negb_true_iff in Hp.
Qed.

Lemma is_bad_set_each (d : Py.Dict) l v k :
  is_bad (set_each d l v) k =
    if Py.contains l k
    then match v with Some j => String.eqb j BAD | None => false end
    else is_bad d k.
Proof.
  unfold is_bad. rewrite PyFacts.get_set_each.
  now destruct (Py.contains l k).
Qed.

Lemma start_cluster_not_bad (s : ClusterManagerWorkflow) k :
  unhealthy (start_cluster s) k = false.
Proof.
  unfold unhealthy, start_cluster. cbn [state with_state nodes].
  unfold Py.all_none. fold (set_each [] (map Py.str (Py.range 25)) None).
  rewrite is_bad_set_each.
  now destruct (Py.contains (map Py.str (Py.range 25)) k).
Qed.

(** The segments of suspended coroutines leave the table alone. *)
Lemma resume_nodes (s : ClusterManagerWorkflow) (co : Coroutine) :
  nodes (state (fst (resume s co))) = nodes (state s).
Proof.
  destruct co; cbn [resume];
    unfold shutdown_from_76, allocate_from_84, allocate_from_93,
      delete_from_122, delete_from_129, health_from_149;
    break_match; reflexivity.
Qed.

Lemma unhealthy_ext (s s' : ClusterManagerWorkflow) k :
  nodes (state s') = nodes (state s) -> unhealthy s' k = unhealthy s k.
Proof. unfold unhealthy. now intros ->. Qed.

Lemma clean_ext (s s' : ClusterManagerWorkflow) :
  nodes (state s') = nodes (state s) -> nodes_lock s' = nodes_lock s ->
  clean s -> clean s'.
Proof.
  intros Hn Hl [Hnd Hh]. split.
  - intros d Hd. apply Hnd. congruence.
  - intros h Hlock. rewrite Hl in Hlock. specialize (Hh h Hlock).
    destruct h; [| |exact I].
    + intros k Hk. rewrite (unhealthy_ext s s' k Hn). auto.
    + destruct Hh as [Ht Hh]. split; [exact Ht|].
      intros k Hk. rewrite (unhealthy_ext s s' k Hn). auto.
Qed.

Lemma clean_start (s : ClusterManagerWorkflow) :
  clean s -> clean (start_cluster s).
Proof.
  intros [_ Hh]. split.
  - intros d [= <-]. apply node_ids_NoDup.
  - intros h Hlock. specialize (Hh h Hlock). destruct h; [| |exact I].
    + intros k _. apply start_cluster_not_bad.
    + split; [apply Hh|]. intros k _. apply start_cluster_not_bad.
Qed.

Lemma clean_unlocked (s : ClusterManagerWorkflow) :
  (forall d, nodes (state s) = Some d -> NoDup (Py.keys d)) ->
  clean (with_lock s None).
Proof. intros H. split; [exact H | intros h; discriminate]. Qed.

Lemma resume_clean (s : ClusterManagerWorkflow) (co : Coroutine) :
  clean s -> handler_deletes_marker co = false -> clean (fst (resume s co)).
Proof.
  intros Hc Hco. pose proof Hc as [Hnd Hh].
  destruct co; cbn [resume handler_deletes_marker] in *;
    unfold shutdown_from_76, allocate_from_84, allocate_from_93,
      delete_from_122, delete_from_129, health_from_149, get_assigned_nodes;
    break_match; cbn [fst]; try exact Hc;
    try (eapply clean_ext; [| |exact Hc]; reflexivity);
    (split; [exact Hnd|]); intros h [= <-];
    repeat match goal with
      | H : nodes_items _ = inr _ |- _ => apply nodes_items_inr in H
      end;
    try exact I.
  all: try split; try assumption; intros k Hk; unfold unhealthy;
    cbn [state with_lock];
    match goal with H : nodes (state _) = Some _ |- _ => rewrite H end.
  - eapply unassigned_not_bad; eauto. eapply PyFacts.slice_to_incl; eauto.
  - eapply unassigned_not_bad; eauto. eapply PyFacts.slice_to_incl; eauto.
  - eapply nodes_of_job_not_bad; eauto.
  - eapply nodes_of_job_not_bad; eauto.
Qed.

(** The segment of the holder of the lock releases the lock and writes one
    value into the nodes it carries (into the answer of the activity, for
    the health check), or into none. *)
Lemma resume_holder_effect (s : ClusterManagerWorkflow) (h : Holder)
    (r : ActivityOutcome) :
  nodes_lock (fst (resume_holder s h r)) = None
  /\ exists l v,
       nodes (state (fst (resume_holder s h r))) =
         match nodes (state s) with
         | Some d => Some (set_each d l v)
         | None => None
         end
       /\ (l = []
           \/ (exists t, h = allocate_at_104 l t /\ v = Some t)
           \/ (exists t, h = delete_at_134 l t /\ v = None)
           \/ v = Some BAD).
Proof.
  assert (Hsame : forall v : option string,
             nodes (state s) =
             match nodes (state s) with
             | Some d => Some (set_each d [] v)
             | None => None
             end) by (intros v; now destruct (nodes (state s))).
  destruct h as [l t | l t | l]; cbn [resume_holder];
    unfold allocate_from_104, _allocate_nodes_to_job, delete_from_134,
      _deallocate_nodes_for_job, health_from_152;
    destruct r as [ret | cause]; cbn [fst];
    try (split; [reflexivity|]; exists [], None;
         split; [apply Hsame | now left]).
  - destruct (set_nodes (state s) l (Some t)) as [e | st] eqn:Hset.
    + split; [reflexivity|]. exists [], None. split; [apply Hsame | now left].
    + apply set_nodes_nodes in Hset.
      destruct (nodes_items st); cbn [fst];
        (split; [reflexivity|]); exists l, (Some t);
        (split; [exact Hset | right; left; eauto]).
  - destruct (set_nodes (state s) l None) as [e | st] eqn:Hset; cbn [fst].
    + split; [reflexivity|]. exists [], None. split; [apply Hsame | now left].
    + apply set_nodes_nodes in Hset. split; [reflexivity|].
      exists l, None. split; [exact Hset | right; right; left; eauto].
  - destruct (set_nodes (state s) ret (Some BAD)) as [e | st] eqn:Hset;
      cbn [fst].
    + split; [reflexivity|]. exists [], None. split; [apply Hsame | now left].
    + apply set_nodes_nodes in Hset. split; [reflexivity|].
      exists ret, (Some BAD). split; [exact Hset | now right; right; right].
Qed.

Lemma resume_holder_clean (s : ClusterManagerWorkflow) (h : Holder)
    (r : ActivityOutcome) :
  clean s -> clean (fst (resume_holder s h r)).
Proof.
  intros [Hnd _].
  destruct (resume_holder_effect s h r) as [Hlock [l [v [Hn _]]]].
  split.
  - intros d' Hd'. rewrite Hn in Hd'.
    destruct (nodes (state s)) as [d|]; [|discriminate].
    injection Hd' as <-. apply set_each_NoDup. now apply Hnd.
  - intros h'. rewrite Hlock. discriminate.
Qed.

Lemma resume_holder_unhealthy (s : ClusterManagerWorkflow) (h : Holder)
    (r : ActivityOutcome) (k : string) :
  clean s -> nodes_lock s = Some h -> unhealthy s k = true ->
  unhealthy (fst (resume_holder s h r)) k = true.
Proof.
  intros [_ Hh] Hlock Hbad. specialize (Hh h Hlock).
  destruct (resume_holder_effect s h r) as [_ [l [v [Hn Hcase]]]].
  unfold unhealthy in *. rewrite Hn.
  destruct (nodes (state s)) as [d|] eqn:Hd; [|discriminate].
  rewrite is_bad_set_each.
  destruct (Py.contains l k) eqn:Hc; [|exact Hbad].
  apply PyFacts.contains_In in Hc.
  destruct Hcase as [-> | [[t [-> ->]] | [[t [-> ->]] | ->]]].
  - destruct Hc.
  - specialize (Hh k Hc). congruence.
  - destruct Hh as [_ Hh]. specialize (Hh k Hc). congruence.
  - reflexivity.
Qed.

Lemma step_clean (c : Config) (ev : Event) :
  clean (self c) -> handlers_clean c -> clean (self (fst (step c ev))).
Proof.
  intros Hc Hhs.
  destruct (step_cases c ev)
    as [-> | [[_ ->] | [[co [Hco ->]] | [h [r [_ [_ ->]]]]]]].
  - exact Hc.
  - now apply clean_start.
  - apply resume_clean; [exact Hc|]. destruct Hco as [Hin | ->]; [|reflexivity].
    unfold handlers_clean in Hhs. rewrite Forall_forall in Hhs. now apply Hhs.
  - now apply resume_holder_clean.
Qed.

Lemma step_unhealthy (c : Config) (ev : Event) (k : string) :
  clean (self c) -> delivers_start ev = false ->
  unhealthy (self c) k = true ->
  unhealthy (self (fst (step c ev))) k = true.
Proof.
  intros Hc Hev Hbad.
  destruct (step_cases c ev)
    as [-> | [[-> _] | [[co [_ ->]] | [h [r [_ [Hh ->]]]]]]].
  - exact Hbad.
  - discriminate.
  - now rewrite (unhealthy_ext _ _ k (resume_nodes (self c) co)).
  - now apply resume_holder_unhealthy.
Qed.

(** A suspended handler keeps its input. *)
Lemma resume_suspended (s s' : ClusterManagerWorkflow) (co co' : Coroutine) :
  resume s co = (s', Suspended co') ->
  handler_deletes_marker co' = handler_deletes_marker co.
Proof.
  destruct co; cbn [resume];
    unfold shutdown_from_76, allocate_from_84, allocate_from_93,
      delete_from_122, delete_from_129, health_from_149;
    break_match; intros [= <- <-]; reflexivity.
Qed.

Lemma step_handlers_clean (c : Config) (ev : Event) :
  handlers_clean c -> deletes_marker ev = false ->
  handlers_clean (fst (step c ev)).
Proof.
  unfold handlers_clean, step. intros Hhs Hev.
  destruct (finished c); [exact Hhs|].
  destruct ev as [m | n | info timed_out | r]; cbn [fst].
  - destruct m; cbn [deliver with_self with_handlers handlers]; trivial;
      apply Forall_app; (split; [exact Hhs|]); repeat constructor.
    exact Hev.
  - unfold wake. destruct (nth_error (handlers c) n) as [co|] eqn:Hn;
      [|exact Hhs].
    assert (Hco : handler_deletes_marker co = false).
    { rewrite Forall_forall in Hhs. apply Hhs. eapply nth_error_In; eauto. }
    assert (Hbefore : Forall (fun co => handler_deletes_marker co = false)
                        (firstn n (handlers c))).
    { rewrite Forall_forall in *. intros x Hx. apply Hhs.
      eapply PyFacts.firstn_incl; eauto. }
    assert (Hafter : Forall (fun co => handler_deletes_marker co = false)
                       (skipn (S n) (handlers c))).
    { rewrite Forall_forall in *. intros x Hx. apply Hhs.
      rewrite <- (firstn_skipn (S n) (handlers c)).
      apply in_or_app. now right. }
    destruct (resume (self c) co) as [s' out] eqn:Hres.
    destruct out as [co' | | v | e]; cbn [fst with_handlers handlers];
      apply Forall_app; split; trivial.
    constructor; [|exact Hafter].
    now rewrite (resume_suspended _ _ _ _ Hres).
  - unfold wake_run. destruct (main c); trivial.
    + destruct (run_from_192 (self c)); exact Hhs.
    + destruct (run_from_196 (health_from_149 (self c))); exact Hhs.
    + destruct (run_from_198 (self c) (input c) info timed_out); exact Hhs.
  - unfold activity_done. destruct (nodes_lock (self c)) as [[l t | l t | l]|];
      trivial.
    + destruct (resume_holder (self c) (allocate_at_104 l t) r); exact Hhs.
    + destruct (resume_holder (self c) (delete_at_134 l t) r); exact Hhs.
    + destruct (run_from_196 (resume_holder (self c) (health_at_152 l) r));
        exact Hhs.
Qed.

Lemma resume_returns (s : ClusterManagerWorkflow) (co : Coroutine) v :
  snd (resume s co) = Returned v -> v = VNone.
Proof.
  destruct co; cbn [resume];
    unfold shutdown_from_76, allocate_from_84, allocate_from_93,
      delete_from_122, delete_from_129, health_from_149;
    break_match; cbn [snd]; congruence.
Qed.

(** Only the allocation that holds the lock replies with nodes, and with
    the nodes it selected. *)
Lemma step_reply (c : Config) (ev : Event) (l : list string) :
  snd (step c ev) = Some (Result (VNodes l)) ->
  exists t, nodes_lock (self c) = Some (allocate_at_104 l t).
Proof.
  unfold step. destruct (finished c); [discriminate|].
  destruct ev as [m | n | info timed_out | r]; cbn [snd]; try discriminate.
  - unfold wake. destruct (nth_error (handlers c) n) as [co|]; [|discriminate].
    pose proof (resume_returns (self c) co) as Hret.
    destruct (resume (self c) co) as [s' out].
    destruct out as [co' | | v | e]; cbn [snd reply_of] in *;
      destruct (is_signal co); try discriminate.
    intros [= ->]. specialize (Hret _ eq_refl). discriminate.
  - unfold activity_done.
    destruct (nodes_lock (self c)) as [[l' t | l' t | l']|]; cbn [snd];
      try discriminate.
    + cbn [resume_holder]. unfold allocate_from_104, _allocate_nodes_to_job.
      destruct r; [|discriminate].
      destruct (set_nodes (state (self c)) l' (Some t)); [discriminate|].
      destruct (nodes_items c0); cbn [snd reply_of]; [discriminate|].
      intros [= ->]. eauto.
    + cbn [resume_holder]. unfold delete_from_134, _deallocate_nodes_for_job.
      destruct r; [|discriminate].
      destruct (set_nodes (state (self c)) l' None); discriminate.
    + destruct (run_from_196 (resume_holder (self c) (health_at_152 l') r));
        discriminate.
Qed.

Lemma initial_clean (test : bool) :
  clean (self (initial (fresh_input test)))
  /\ handlers_clean (initial (fresh_input test)).
Proof.
  split; [|constructor].
  destruct test; split; intros x; discriminate.
Qed.

Lemma run_events_clean (evs : list Event) : forall c,
  clean (self c) -> handlers_clean c ->
  existsb deletes_marker evs = false ->
  clean (self (fst (run_events c evs)))
  /\ handlers_clean (fst (run_events c evs)).
Proof.
  induction evs as [|ev evs IH]; intros c Hc Hhs Hev; [now split|].
  cbn [existsb] in Hev. apply orb_false_elim in Hev as [Hev1 Hev2].
  cbn [run_events].
  pose proof (step_clean c ev Hc Hhs) as Hc'.
  pose proof (step_handlers_clean c ev Hhs Hev1) as Hhs'.
  destruct (step c ev) as [c' o]. cbn [fst] in *.
  specialize (IH c' Hc' Hhs' Hev2).
  destruct (run_events c' evs) as [c'' os]. exact IH.
Qed.

Lemma run_events_unhealthy (evs : list Event) : forall c k,
  clean (self c) -> handlers_clean c ->
  existsb deletes_marker evs = false ->
  existsb delivers_start evs = false ->
  unhealthy (self c) k = true ->
  unhealthy (self (fst (run_events c evs))) k = true
  /\ Forall (reply_avoids k) (snd (run_events c evs)).
Proof.
  induction evs as [|ev evs IH]; intros c k Hc Hhs Hev Hst Hbad.
  - split; [exact Hbad | constructor].
  - cbn [existsb] in Hev, Hst.
    apply orb_false_elim in Hev as [Hev1 Hev2].
    apply orb_false_elim in Hst as [Hst1 Hst2].
    cbn [run_events].
    pose proof (step_clean c ev Hc Hhs) as Hc'.
    pose proof (step_handlers_clean c ev Hhs Hev1) as Hhs'.
    pose proof (step_unhealthy c ev k Hc Hst1 Hbad) as Hbad'.
    pose proof (step_reply c ev) as Hreply.
    destruct (step c ev) as [c' o]. cbn [fst snd] in *.
    specialize (IH c' k Hc' Hhs' Hev2 Hst2 Hbad').
    destruct (run_events c' evs) as [c'' os]. cbn [fst snd] in *.
    destruct IH as [IH1 IH2]. split; [exact IH1|].
    destruct o as [[[|l] | e]|]; try (constructor; [exact I | exact IH2]);
      [|exact IH2].
    constructor; [|exact IH2]. cbn [reply_avoids]. intros Hin.
    destruct (Hreply l eq_refl) as [t Hlock].
    destruct Hc as [_ Hh]. specialize (Hh _ Hlock k Hin). congruence.
Qed.

(** * The peak *)

Lemma resume_max (s : ClusterManagerWorkflow) (co : Coroutine) :
  max_assigned_nodes (state (fst (resume s co))) = max_assigned_nodes (state s).
Proof.
  destruct co; cbn [resume];
    unfold shutdown_from_76, allocate_from_84, allocate_from_93,
      delete_from_122, delete_from_129, health_from_149;
    break_match; reflexivity.
Qed.

Lemma resume_holder_max (s : ClusterManagerWorkflow) (h : Holder)
    (r : ActivityOutcome) :
  max_assigned_nodes (state s)
    <= max_assigned_nodes (state (fst (resume_holder s h r))).
Proof.
  destruct h as [l t | l t | l]; cbn [resume_holder];
    unfold allocate_from_104, _allocate_nodes_to_job, delete_from_134,
      _deallocate_nodes_for_job, health_from_152;
    destruct r as [ret | cause]; cbn [fst state with_lock]; try lia.
  - destruct (set_nodes (state s) l (Some t)) as [e | st] eqn:Hset;
      cbn [fst state with_lock]; [lia|].
    apply set_nodes_state in Hset as [_ [_ Hmax]].
    destruct (nodes_items st);
      cbn [fst state with_lock with_state max_assigned_nodes]; lia.
  - destruct (set_nodes (state s) l None) as [e | st] eqn:Hset;
      cbn [fst state with_lock with_state]; [lia|].
    apply set_nodes_state in Hset as [_ [_ Hmax]]. lia.
  - destruct (set_nodes (state s) ret (Some BAD)) as [e | st] eqn:Hset;
      cbn [fst state with_lock with_state]; [lia|].
    apply set_nodes_state in Hset as [_ [_ Hmax]]. lia.
Qed.

(** [max_assigned_nodes] never decreases, whatever the step. *)
Lemma max_assigned_nodes_never_decreases (c : Config) (ev : Event) :
  max_assigned_nodes (state (self c))
    <= max_assigned_nodes (state (self (fst (step c ev)))).
Proof.
  destruct (step_cases c ev)
    as [-> | [[_ ->] | [[co [_ ->]] | [h [r [_ [_ ->]]]]]]].
  - lia.
  - cbn. lia.
  - rewrite resume_max. lia.
  - apply resume_holder_max.
Qed.

(** C1.  What the code computes on a run where it departs from the
    specification:
    two nodes go to a job, the health check marks node 0 bad, a third node
    goes to a second job.  At no point of the run are more than two nodes
    assigned to a job, and line 105 sets [max_assigned_nodes] to 3, since
    line 107 counts the bad node. *)
Theorem peak_counts_bad_nodes :
  map assigned_count
      (history (initial fresh) (marking_node_0 ++ one_more_node))
    = [0; 0; 0; 0; 0; 0; 2; 2; 1; 1; 1; 2]
  /\ peak_assigned
       (history (initial fresh) (marking_node_0 ++ one_more_node)) = 2
  /\ max_assigned_nodes
       (state (self (fst (run_events (initial fresh)
                            (marking_node_0 ++ one_more_node))))) = 3.
Proof. repeat split; reflexivity. Qed.

(** * More on dicts: membership of the comprehensions *)

Lemma get_Some_In (d : Py.Dict) k v : Py.get d k = Some v -> In (k, v) d.
Proof.
  induction d as [|[k' v'] d IH]; simpl; [discriminate|].
  destruct (String.eqb_spec k' k).
  - intros [= ->]. subst. now left.
  - intros H. right. now apply IH.
Qed.

Lemma comprehension_In (p : string * option string -> bool) (d : Py.Dict)
    k v :
  In (k, v) d -> p (k, v) = true -> In k (map fst (filter p (Py.items d))).
Proof.
  intros Hin Hp. apply in_map_iff. exists (k, v). split; [reflexivity|].
  apply filter_In. now split.
Qed.

Lemma in_unassigned_iff (d : Py.Dict) k :
  NoDup (Py.keys d) -> (In k (unassigned_of d) <-> Py.get d k = Some None).
Proof.
  intros Hnd. split.
  - intros Hk. apply comprehension_item in Hk as [v [Hin Hp]].
    rewrite (PyFacts.get_In_item d k v Hnd Hin). now destruct v.
  - intros Hg. apply get_Some_In in Hg.
    now apply (comprehension_In _ d k None).
Qed.

Lemma in_nodes_of_job_iff (d : Py.Dict) t k :
  NoDup (Py.keys d) ->
  (In k (nodes_of_job d t) <-> Py.get d k = Some (Some t)).
Proof.
  intros Hnd. split.
  - intros Hk. apply comprehension_item in Hk as [v [Hin Hp]].
    rewrite (PyFacts.get_In_item d k v Hnd Hin).
    destruct v as [j|]; [|discriminate]. simpl in Hp.
    apply String.eqb_eq in Hp. now subst.
  - intros Hg. apply get_Some_In in Hg.
    apply (comprehension_In _ d k (Some t)); [assumption|].
    simpl. apply String.eqb_refl.
Qed.

Lemma contains_nodes_of_job (d : Py.Dict) t k :
  NoDup (Py.keys d) -> Py.contains (nodes_of_job d t) k = carries d k t.
Proof.
  intros Hnd. unfold carries.
  destruct (Py.contains (nodes_of_job d t) k) eqn:Hc.
  - apply PyFacts.contains_In, (in_nodes_of_job_iff d t k Hnd) in Hc.
    rewrite Hc. symmetry. apply String.eqb_refl.
  - apply PyFacts.contains_false in Hc.
    destruct (Py.get d k) as [[j|]|] eqn:Hg; try reflexivity.
    destruct (String.eqb_spec j t); [|reflexivity].
    subst. exfalso. apply Hc. now apply in_nodes_of_job_iff.
Qed.

(** Two dicts with the same keys in the same order and the same values are
    equal. *)
Lemma dict_ext (d1 : Py.Dict) : forall d2 : Py.Dict,
  Py.keys d1 = Py.keys d2 -> NoDup (Py.keys d1) ->
  (forall k, In k (Py.keys d1) -> Py.get d1 k = Py.get d2 k) ->
  d1 = d2.
Proof.
  induction d1 as [|[k1 v1] d1 IH]; intros [|[k2 v2] d2] Hk Hnd Hg;
    try discriminate; [reflexivity|].
  simpl in Hk. injection Hk as -> Hk.
  inversion Hnd as [|? ? Hnotin Hnd']; subst.
  assert (Hv : v1 = v2).
  { specialize (Hg k2 (or_introl eq_refl)). simpl in Hg.
    rewrite String.eqb_refl in Hg. congruence. }
  subst. f_equal. apply IH; [assumption .. |].
  intros k Hin. specialize (Hg k (or_intror Hin)). simpl in Hg.
  destruct (String.eqb_spec k2 k); [|exact Hg].
  subst. contradiction.
Qed.

(** * [delete_job], one call at a time *)

Section Deleting.

Variable s : ClusterManagerWorkflow.
Variable d : Py.Dict.
Hypothesis Hstarted : cluster_started (state s) = true.
Hypothesis Hrunning : cluster_shutdown (state s) = false.
Hypothesis Hunlocked : nodes_lock s = None.
Hypothesis Hnodes : nodes (state s) = Some d.

Lemma delete_enters input :
  delete_from_122 s input =
    (with_lock s
       (Some (delete_at_134 (nodes_of_job d (delete_task_name input))
                (delete_task_name input))),
     InActivity).
Proof.
  unfold delete_from_122, delete_from_129, nodes_items.
  now rewrite Hstarted, Hrunning, (locked_false _ Hunlocked), Hnodes.
Qed.

Lemma delete_completes input ret :
  delete_job s input (Completed ret) =
    (deleted s d (delete_task_name input), Returned VNone).
Proof.
  unfold delete_job. rewrite delete_enters.
  unfold then_activity. cbn [nodes_lock with_lock resume_holder].
  unfold delete_from_134, _deallocate_nodes_for_job. cbn [state with_lock].
  now rewrite (set_nodes_Some _ d _ _ Hnodes).
Qed.

Lemma delete_fails input cause :
  delete_job s input (Failed cause) = (s, Raised (ActivityError cause)).
Proof.
  unfold delete_job. rewrite delete_enters.
  unfold then_activity. cbn [nodes_lock with_lock resume_holder].
  unfold delete_from_134, _deallocate_nodes_for_job.
  rewrite with_lock_twice. now rewrite (with_lock_unlocked _ Hunlocked).
Qed.

End Deleting.

Lemma with_state_same (s : ClusterManagerWorkflow) (d : Py.Dict) :
  nodes (state s) = Some d -> with_state s (with_nodes (state s) d) = s.
Proof.
  destruct s as [[a b n m] l h i]. simpl. intros ->. reflexivity.
Qed.

(** X1.  In a started cluster that is not shut down, with the lock free and
    distinct keys, a call of [delete_job] whose activity completes returns
    [None]; afterwards exactly the nodes that carried the job are free,
    every other node has the value it had, the keys and their order are as
    before, no node carries the job any more, the flags and
    [max_assigned_nodes] are unchanged and the lock is free. *)
Theorem delete_job_frees_the_job :
  forall (s : ClusterManagerWorkflow) (d : Py.Dict)
         (input : ClusterManagerDeleteJobInput) (ret : list string),
    cluster_started (state s) = true ->
    cluster_shutdown (state s) = false ->
    nodes_lock s = None ->
    nodes (state s) = Some d ->
    NoDup (Py.keys d) ->
    exists (s' : ClusterManagerWorkflow) (d' : Py.Dict),
      delete_job s input (Completed ret) = (s', Returned VNone)
      /\ nodes (state s') = Some d'
      /\ Py.keys d' = Py.keys d
      /\ (forall k, Py.get d' k =
                      if carries d k (delete_task_name input)
                      then Some None else Py.get d k)
      /\ nodes_of_job d' (delete_task_name input) = []
      /\ cluster_started (state s') = true
      /\ cluster_shutdown (state s') = false
      /\ max_assigned_nodes (state s') = max_assigned_nodes (state s)
      /\ nodes_lock s' = None.
Proof.
  intros s d input ret Hst Hrun Hlock Hd Hnd.
  set (t := delete_task_name input).
  set (d' := set_each d (nodes_of_job d t) None).
  assert (Hkeys : Py.keys d' = Py.keys d)
    by (apply PyFacts.keys_set_each, nodes_of_job_incl).
  assert (Hget : forall k, Py.get d' k =
                   if carries d k t then Some None else Py.get d k).
  { intros k. unfold d'. rewrite PyFacts.get_set_each.
    now rewrite contains_nodes_of_job. }
  exists (deleted s d t), d'.
  split; [now apply delete_completes|].
  split; [reflexivity|]. split; [exact Hkeys|]. split; [exact Hget|].
  split.
  { destruct (nodes_of_job d' t) as [|k l] eqn:Hl; [reflexivity|].
    assert (Hin : In k (nodes_of_job d' t)) by (rewrite Hl; now left).
    apply in_nodes_of_job_iff in Hin; [|now rewrite Hkeys].
    rewrite Hget in Hin. unfold carries in Hin.
    destruct (Py.get d k) as [[j|]|]; try discriminate.
    destruct (String.eqb_spec j t); congruence. }
  cbn. auto.
Qed.

Lemma delete_job_frees_the_job_witness :
  exists (s' : ClusterManagerWorkflow) (d' : Py.Dict),
    delete_job
      (allocated started_workflow (Py.all_none node_ids) ["0"; "1"] "job")
      {| delete_task_name := "job" |} (Completed []) = (s', Returned VNone)
    /\ nodes (state s') = Some d'
    /\ Py.get d' "0" = Some None.
Proof.
  destruct (delete_job_frees_the_job
              (allocated started_workflow (Py.all_none node_ids)
                 ["0"; "1"] "job")
              (set_each (Py.all_none node_ids) ["0"; "1"] (Some "job"))
              {| delete_task_name := "job" |} [])
    as [s' [d' [Hcall [Hd' [_ [Hget _]]]]]];
    try reflexivity.
  { apply distinct_NoDup. vm_compute. reflexivity. }
  exists s', d'. split; [exact Hcall|]. split; [exact Hd'|].
  rewrite Hget. reflexivity.
Defined.

(** X2.  Deleting a job that has no node is not an error and changes
    nothing: in a started cluster that is not shut down, with the lock free,
    [delete_job] for a job no node carries returns [None] when its activity
    completes and leaves the workflow object exactly as it was. *)
Theorem delete_job_without_nodes :
  forall (s : ClusterManagerWorkflow) (d : Py.Dict)
         (input : ClusterManagerDeleteJobInput) (ret : list string),
    cluster_started (state s) = true ->
    cluster_shutdown (state s) = false ->
    nodes_lock s = None ->
    nodes (state s) = Some d ->
    nodes_of_job d (delete_task_name input) = [] ->
    delete_job s input (Completed ret) = (s, Returned VNone).
Proof.
  intros s d input ret Hst Hrun Hlock Hd Hnone.
  rewrite (delete_completes s d Hst Hrun Hlock Hd). f_equal.
  unfold deleted. rewrite Hnone. cbn [set_each fold_left].
  rewrite (with_state_same s d Hd). now apply with_lock_unlocked.
Qed.

Lemma delete_job_without_nodes_witness :
  delete_job started_workflow {| delete_task_name := "nobody" |}
      (Completed []) = (started_workflow, Returned VNone).
Proof.
  apply (delete_job_without_nodes started_workflow (Py.all_none node_ids));
    reflexivity.
Defined.

(** X3.  When the deallocation activity fails, [delete_job] raises the
    [ActivityError] of the failure and frees nothing: the workflow object is
    as before the call and the lock is free. *)
Theorem delete_activity_failure_leaves_state :
  forall (s : ClusterManagerWorkflow) (d : Py.Dict)
         (input : ClusterManagerDeleteJobInput) (cause : string),
    cluster_started (state s) = true ->
    cluster_shutdown (state s) = false ->
    nodes_lock s = None ->
    nodes (state s) = Some d ->
    delete_job s input (Failed cause) = (s, Raised (ActivityError cause))
    /\ locked (fst (delete_job s input (Failed cause))) = false.
Proof.
  intros s d input cause Hst Hrun Hlock Hd.
  rewrite (delete_fails s d Hst Hrun Hlock Hd). split; [reflexivity|].
  now apply locked_false.
Qed.

Lemma delete_activity_failure_leaves_state_witness :
  delete_job
    (allocated started_workflow (Py.all_none node_ids) ["0"; "1"] "job")
    {| delete_task_name := "job" |} (Failed "unreachable") =
  (allocated started_workflow (Py.all_none node_ids) ["0"; "1"] "job",
   Raised (ActivityError "unreachable")).
Proof.
  refine (proj1 (delete_activity_failure_leaves_state _
            (set_each (Py.all_none node_ids) ["0"; "1"] (Some "job"))
            _ _ _ _ _ _)); reflexivity.
Defined.

(** * Allocations one after the other, and undone *)

Lemma filter_filter_and {A : Type} (f g : A -> bool) (l : list A) :
  filter f (filter g l) = filter (fun x => f x && g x) l.
Proof.
  induction l as [|a l IH]; simpl; [reflexivity|].
  destruct (g a); simpl; rewrite IH; [|now rewrite andb_false_r].
  rewrite andb_true_r. reflexivity.
Qed.

(** Dropping from a list of distinct strings those among its first [m]
    leaves the rest of the list. *)
Lemma filter_not_firstn (l : list string) : forall m : nat,
  NoDup l ->
  filter (fun k => negb (Py.contains (firstn m l) k)) l = skipn m l.
Proof.
  induction l as [|x l IH]; intros m Hnd; [now destruct m|].
  inversion Hnd as [|? ? Hnotin Hnd']; subst.
  destruct m as [|m].
  - cbn [firstn skipn]. apply forallb_filter_id.
    now apply forallb_forall.
  - cbn [firstn skipn filter]. unfold Py.contains at 1. cbn [existsb].
    rewrite String.eqb_refl. cbn [orb negb].
    rewrite <- (IH m Hnd'). apply filter_ext_in. intros k Hk.
    unfold Py.contains. cbn [existsb].
    destruct (String.eqb_spec k x); [subst; contradiction | reflexivity].
Qed.

Lemma unassigned_of_NoDup (d : Py.Dict) :
  NoDup (Py.keys d) -> NoDup (unassigned_of d).
Proof.
  intros Hnd. rewrite (unassigned_of_keys d Hnd). now apply NoDup_filter.
Qed.

Lemma is_free_set_each (d : Py.Dict) l t k :
  is_free (set_each d l (Some t)) k = negb (Py.contains l k) && is_free d k.
Proof.
  unfold is_free. rewrite PyFacts.get_set_each.
  now destruct (Py.contains l k).
Qed.

(** After the first [m] free nodes got a job, the free nodes are the other
    free nodes, in the same order. *)
Lemma unassigned_after_allocation (d : Py.Dict) (m : nat) (t : string) :
  NoDup (Py.keys d) ->
  unassigned_of (set_each d (firstn m (unassigned_of d)) (Some t))
    = skipn m (unassigned_of d).
Proof.
  intros Hnd. set (sel := firstn m (unassigned_of d)).
  assert (Hsel : incl sel (Py.keys d)).
  { eapply incl_tran; [apply PyFacts.firstn_incl | apply unassigned_of_incl]. }
  assert (Hkeys : Py.keys (set_each d sel (Some t)) = Py.keys d)
    by now apply PyFacts.keys_set_each.
  rewrite unassigned_of_keys by now rewrite Hkeys.
  rewrite Hkeys.
  rewrite (filter_ext _ (fun k => negb (Py.contains sel k) && is_free d k))
    by (intros k; apply is_free_set_each).
  rewrite <- filter_filter_and, <- (unassigned_of_keys d Hnd).
  apply filter_not_firstn. now apply unassigned_of_NoDup.
Qed.

Lemma len_skipn {A : Type} (l : list A) (n : Z) :
  0 <= n <= Py.len l -> Py.len (skipn (Z.to_nat n) l) = Py.len l - n.
Proof. unfold Py.len. rewrite length_skipn. lia. Qed.

(** X4.  Two allocations in a row share the free nodes without overlap: in
    a started cluster that is not shut down, with the lock free and distinct
    keys, after an allocation of [n1] nodes (a natural number, at most the
    free nodes) the free list is the old one without its first [n1] nodes; a
    second allocation of [n2] nodes returns the next [n2] free nodes when
    that many are left, and otherwise fails with the message that carries
    [n2] and the number left, changing nothing. *)
Theorem allocations_continue_in_order :
  forall (s : ClusterManagerWorkflow) (d : Py.Dict)
         (i1 i2 : ClusterManagerAllocateNNodesToJobInput)
         (r1 r2 : list string),
    cluster_started (state s) = true ->
    cluster_shutdown (state s) = false ->
    nodes_lock s = None ->
    nodes (state s) = Some d ->
    NoDup (Py.keys d) ->
    0 <= num_nodes i1 <= Py.len (unassigned_of d) ->
    let free := unassigned_of d in
    let s1 := fst (allocate_n_nodes_to_job s i1 (Completed r1)) in
    (exists d1, nodes (state s1) = Some d1
                /\ unassigned_of d1 = skipn (Z.to_nat (num_nodes i1)) free)
    /\ (0 <= num_nodes i2 <= Py.len free - num_nodes i1 ->
        snd (allocate_n_nodes_to_job s1 i2 (Completed r2)) =
          Returned (VNodes (firstn (Z.to_nat (num_nodes i2))
                              (skipn (Z.to_nat (num_nodes i1)) free))))
    /\ (Py.len free - num_nodes i1 < num_nodes i2 ->
        allocate_n_nodes_to_job s1 i2 (Completed r2) =
          (s1, Raised (ApplicationError
                         (cannot_allocate (num_nodes i2)
                            (Py.len free - num_nodes i1))))).
Proof.
  intros s d i1 i2 r1 r2 Hst Hrun Hlock Hd Hnd [Hn0 Hn1] free s1.
  pose proof (allocate_completes s d Hst Hd Hrun Hlock i1 r1 Hn1) as Hcall.
  cbv zeta in Hcall.
  rewrite PyFacts.slice_to_nonneg in Hcall by assumption.
  set (sel := firstn (Z.to_nat (num_nodes i1)) (unassigned_of d)) in *.
  set (d1 := set_each d sel (Some (alloc_task_name i1))).
  assert (Hs1 : s1 = allocated s d sel (alloc_task_name i1))
    by (unfold s1; now rewrite Hcall).
  assert (Hfree1 : unassigned_of d1 = skipn (Z.to_nat (num_nodes i1)) free)
    by now apply unassigned_after_allocation.
  assert (Hlen1 : Py.len (unassigned_of d1) = Py.len free - num_nodes i1).
  { rewrite Hfree1. apply len_skipn. split; assumption. }
  assert (Hst1 : cluster_started (state s1) = true) by now rewrite Hs1.
  assert (Hrun1 : cluster_shutdown (state s1) = false) by now rewrite Hs1.
  assert (Hlock1 : nodes_lock s1 = None) by now rewrite Hs1.
  assert (Hd1 : nodes (state s1) = Some d1) by now rewrite Hs1.
  split; [exists d1; now split|]. split.
  - intros [Hm0 Hm1].
    assert (Hle : num_nodes i2 <= Py.len (unassigned_of d1)) by lia.
    rewrite (allocate_completes s1 d1 Hst1 Hd1 Hrun1 Hlock1 i2 r2 Hle).
    cbn [snd]. rewrite PyFacts.slice_to_nonneg by assumption.
    now rewrite Hfree1.
  - intros Hgt. unfold allocate_n_nodes_to_job.
    rewrite (allocate_entry s1 Hst1 Hrun1).
    rewrite (allocate_too_many s1 d1 Hd1 Hlock1 i2) by lia.
    cbn [then_activity]. now rewrite Hlen1.
Qed.

Lemma allocations_continue_in_order_witness :
  snd (allocate_n_nodes_to_job
         (fst (allocate_n_nodes_to_job started_workflow
                 {| num_nodes := 2; alloc_task_name := "task-0" |}
                 (Completed [])))
         {| num_nodes := 3; alloc_task_name := "task-1" |} (Completed []))
    = Returned (VNodes ["2"; "3"; "4"]).
Proof.
  refine (proj1 (proj2 (allocations_continue_in_order started_workflow
            (Py.all_none node_ids)
            {| num_nodes := 2; alloc_task_name := "task-0" |}
            {| num_nodes := 3; alloc_task_name := "task-1" |} [] []
            _ _ _ _ _ _)) _);
    try reflexivity.
  - apply node_ids_NoDup.
  - vm_compute. split; discriminate.
  - vm_compute. split; discriminate.
Defined.

(** X5.  Allocating nodes to a job that has none and then deleting the job
    gives the table back: in a started cluster that is not shut down, with
    the lock free and distinct keys, when both activities complete the table
    after the two calls is the table before them, the flags are unchanged,
    the lock is free and [max_assigned_nodes] has not decreased. *)
Theorem allocate_then_delete_restores_table :
  forall (s : ClusterManagerWorkflow) (d : Py.Dict)
         (input : ClusterManagerAllocateNNodesToJobInput)
         (r1 r2 : list string),
    cluster_started (state s) = true ->
    cluster_shutdown (state s) = false ->
    nodes_lock s = None ->
    nodes (state s) = Some d ->
    NoDup (Py.keys d) ->
    nodes_of_job d (alloc_task_name input) = [] ->
    num_nodes input <= Py.len (unassigned_of d) ->
    let s1 := fst (allocate_n_nodes_to_job s input (Completed r1)) in
    let call := delete_job s1 {| delete_task_name := alloc_task_name input |}
                  (Completed r2) in
    snd call = Returned VNone
    /\ nodes (state (fst call)) = Some d
    /\ cluster_started (state (fst call)) = true
    /\ cluster_shutdown (state (fst call)) = false
    /\ nodes_lock (fst call) = None
    /\ max_assigned_nodes (state s)
         <= max_assigned_nodes (state (fst call)).
Proof.
  intros s d input r1 r2 Hst Hrun Hlock Hd Hnd Hnone Hle s1 call.
  pose proof (allocate_completes s d Hst Hd Hrun Hlock input r1 Hle) as Hcall.
  cbv zeta in Hcall.
  set (t := alloc_task_name input) in *.
  set (sel := Py.slice_to (unassigned_of d) (num_nodes input)) in *.
  set (d1 := set_each d sel (Some t)).
  assert (Hs1 : s1 = allocated s d sel t) by (unfold s1; now rewrite Hcall).
  assert (Hsel : incl sel (Py.keys d)) by apply selected_incl.
  assert (Hk1 : Py.keys d1 = Py.keys d) by now apply PyFacts.keys_set_each.
  assert (Hnd1 : NoDup (Py.keys d1)) by now rewrite Hk1.
  assert (Hdel : call = (deleted s1 d1 t, Returned VNone)).
  { unfold call. rewrite Hs1.
    now apply (delete_completes (allocated s d sel t) d1). }
  set (d2 := set_each d1 (nodes_of_job d1 t) None).
  assert (Hk2 : Py.keys d2 = Py.keys d).
  { unfold d2. rewrite PyFacts.keys_set_each; [exact Hk1|].
    apply nodes_of_job_incl. }
  assert (Hd2 : d2 = d).
  { apply dict_ext; [exact Hk2 | now rewrite Hk2 |].
    intros k _. unfold d2. rewrite PyFacts.get_set_each.
    rewrite (contains_nodes_of_job d1 t k Hnd1). unfold carries, d1.
    rewrite PyFacts.get_set_each.
    destruct (Py.contains sel k) eqn:Hc.
    - rewrite String.eqb_refl. symmetry.
      apply PyFacts.contains_In in Hc.
      apply (in_unassigned_iff d k Hnd).
      eapply PyFacts.slice_to_incl. exact Hc.
    - destruct (Py.get d k) as [[j|]|] eqn:Hg; try reflexivity.
      destruct (String.eqb_spec j t); [|reflexivity].
      subst j. apply (in_nodes_of_job_iff d t k Hnd) in Hg.
      rewrite Hnone in Hg. destruct Hg. }
  rewrite Hdel. cbn [fst snd]. split; [reflexivity|].
  split.
  { unfold deleted. cbn [state with_lock with_state with_nodes nodes].
    fold d2. now rewrite Hd2. }
  rewrite Hs1. cbn. repeat split; try assumption. lia.
Qed.

Lemma allocate_then_delete_restores_table_witness :
  nodes (state (fst (delete_job
                       (fst (allocate_n_nodes_to_job started_workflow
                               {| num_nodes := 2; alloc_task_name := "job" |}
                               (Completed [])))
                       {| delete_task_name := "job" |} (Completed []))))
    = Some (Py.all_none node_ids).
Proof.
  refine (proj1 (proj2 (allocate_then_delete_restores_table started_workflow
            (Py.all_none node_ids)
            {| num_nodes := 2; alloc_task_name := "job" |} [] []
            _ _ _ _ _ _ _)));
    try reflexivity.
  - apply node_ids_NoDup.
  - vm_compute. discriminate.
Defined.

(** * The health check *)

(** A comprehension that tests the value lists the keys whose value passes
    the test, in the order of the keys. *)
Lemma comprehension_keys (p : option string -> bool) (d : Py.Dict) :
  NoDup (Py.keys d) ->
  map fst (filter (fun kv => p (snd kv)) (Py.items d)) =
    filter (fun k => match Py.get d k with Some v => p v | None => false end)
      (Py.keys d).
Proof.
  unfold Py.items.
  induction d as [|[k v] d IH]; intros Hnd; [reflexivity|].
  inversion Hnd as [|? ? Hnotin Hnd']; subst.
  cbn [filter map snd fst Py.keys Py.get]. rewrite String.eqb_refl.
  assert (Htail :
    filter (fun k0 => match (if String.eqb k k0 then Some v else Py.get d k0)
                      with Some v0 => p v0 | None => false end) (map fst d)
    = filter (fun k0 => match Py.get d k0 with
                        | Some v0 => p v0 | None => false end) (map fst d)).
  { apply filter_ext_in. intros k' Hk'.
    destruct (String.eqb_spec k k'); [subst; contradiction | reflexivity]. }
  rewrite Htail. fold (Py.keys d). rewrite <- (IH Hnd').
  now destruct (p v).
Qed.

Lemma comprehension_after_marking (p : option string -> bool) (d : Py.Dict)
    (bad : list string) :
  NoDup (Py.keys d) -> incl bad (Py.keys d) -> p (Some BAD) = false ->
  map fst (filter (fun kv => p (snd kv))
             (Py.items (set_each d bad (Some BAD)))) =
    filter (fun k => negb (Py.contains bad k))
      (map fst (filter (fun kv => p (snd kv)) (Py.items d))).
Proof.
  intros Hnd Hbad Hp.
  assert (Hkeys : Py.keys (set_each d bad (Some BAD)) = Py.keys d)
    by now apply PyFacts.keys_set_each.
  rewrite comprehension_keys by now rewrite Hkeys.
  rewrite (comprehension_keys p d Hnd), Hkeys, filter_filter_and.
  apply filter_ext. intros k. rewrite PyFacts.get_set_each.
  destruct (Py.contains bad k); [exact Hp|].
  now destruct (Py.get d k) as [v|]; [destruct (p v)|].
Qed.

(** X6.  With the lock free and a table of distinct keys, a health check
    asks the activity about the nodes of [get_assigned_nodes] (nodes
    already marked bad are not checked again); when the activity answers
    with nodes of the table, every answered node is marked bad and every
    other node keeps its value, so the free nodes and the assigned nodes
    are the former ones without the answered nodes, in the same order.  The
    flags and [max_assigned_nodes] are unchanged and the lock is free. *)
Theorem health_check_marks_answer :
  forall (s : ClusterManagerWorkflow) (d : Py.Dict) (bad : list string),
    nodes_lock s = None ->
    nodes (state s) = Some d ->
    NoDup (Py.keys d) ->
    incl bad (Py.keys d) ->
    health_from_149 s =
      (with_lock s (Some (health_at_152 (assigned_of d))), InActivity)
    /\ exists (s' : ClusterManagerWorkflow) (d' : Py.Dict),
         perform_health_checks s (Completed bad) = (s', Returned VNone)
         /\ nodes (state s') = Some d'
         /\ Py.keys d' = Py.keys d
         /\ (forall k, Py.get d' k =
                         if Py.contains bad k then Some (Some BAD)
                         else Py.get d k)
         /\ get_assigned_nodes s' =
              inr (filter (fun k => negb (Py.contains bad k)) (assigned_of d))
         /\ unassigned_of d' =
              filter (fun k => negb (Py.contains bad k)) (unassigned_of d)
         /\ cluster_started (state s') = cluster_started (state s)
         /\ cluster_shutdown (state s') = cluster_shutdown (state s)
         /\ max_assigned_nodes (state s') = max_assigned_nodes (state s)
         /\ nodes_lock s' = None.
Proof.
  intros s d bad Hlock Hd Hnd Hbad.
  assert (H149 : health_from_149 s =
            (with_lock s (Some (health_at_152 (assigned_of d))), InActivity)).
  { unfold health_from_149, get_assigned_nodes, nodes_items.
    now rewrite (locked_false _ Hlock), Hd. }
  split; [exact H149|].
  set (d' := set_each d bad (Some BAD)).
  exists (with_lock (with_state s (with_nodes (state s) d')) None), d'.
  split.
  { unfold perform_health_checks. rewrite H149.
    unfold then_activity. cbn [nodes_lock with_lock resume_holder].
    unfold health_from_152. cbn [state with_lock].
    now rewrite (set_nodes_Some _ d _ _ Hd). }
  split; [reflexivity|].
  split; [now apply PyFacts.keys_set_each|].
  split; [intros k; apply PyFacts.get_set_each|].
  split.
  { unfold get_assigned_nodes. cbn. f_equal. unfold assigned_of.
    apply (comprehension_after_marking
             (fun v => negb (is_None v) && negb (value_eqb v BAD)));
      auto. }
  split.
  { unfold unassigned_of.
    apply (comprehension_after_marking is_None); auto. }
  cbn. auto.
Qed.

Lemma health_check_marks_answer_witness :
  exists (s' : ClusterManagerWorkflow) (d' : Py.Dict),
    perform_health_checks
      (allocated started_workflow (Py.all_none node_ids) ["0"; "1"] "job")
      (Completed ["0"]) = (s', Returned VNone)
    /\ nodes (state s') = Some d'
    /\ get_assigned_nodes s' = inr ["1"].
Proof.
  destruct (health_check_marks_answer
              (allocated started_workflow (Py.all_none node_ids)
                 ["0"; "1"] "job")
              (set_each (Py.all_none node_ids) ["0"; "1"] (Some "job"))
              ["0"])
    as [_ [s' [d' [Hcall [Hd' [_ [_ [Hassigned _]]]]]]]];
    try reflexivity.
  - apply distinct_NoDup. vm_compute. reflexivity.
  - intros k [<- | []]. vm_compute. now left.
  - exists s', d'. split; [exact Hcall|]. split; [exact Hd'|].
    rewrite Hassigned. reflexivity.
Defined.

(** * The health-check activity *)

Lemma int_of_decimal_str (z : Z) : int_of_decimal (Py.str z) = Some z.
Proof.
  unfold int_of_decimal, Py.str. rewrite NilZero.isi.
  - cbn [option_map]. now rewrite DecimalZ.of_to.
  - destruct z; cbn; try discriminate.
    intros [= H]. now apply DecimalPos.Unsigned.to_uint_nonnil in H.
  - destruct z; cbn; try discriminate.
    intros [= H]. now apply DecimalPos.Unsigned.to_uint_nonnil in H.
Qed.

(** The comprehension of line 40 completes exactly when every conversion
    does, and then holds the nodes asked about whose number is a multiple
    of 5. *)
Lemma bad_among_members (int : string -> option Z) (l : list string) :
  forall bad, bad_among int l = Some bad ->
    forall n, In n bad <->
              In n l /\ exists z, int n = Some z /\ z mod 5 = 0.
Proof.
  induction l as [|x l IH]; cbn [bad_among]; intros bad Hbad n.
  - injection Hbad as <-. split; [intros [] | intros [[] _]].
  - destruct (int x) as [zx|] eqn:Hx; [|discriminate].
    destruct (bad_among int l) as [bad'|]; [|discriminate].
    specialize (IH bad' eq_refl n). injection Hbad as <-.
    destruct (Z.eqb_spec (zx mod 5) 0) as [Hz | Hz].
    + split.
      * intros [<- | Hin]; [split; [now left | eauto]|].
        apply IH in Hin as [Hin Hn]. split; [now right | exact Hn].
      * intros [[<- | Hin] Hn]; [now left|]. right. apply IH. now split.
    + rewrite IH. split.
      * intros [Hin Hn]. split; [now right | exact Hn].
      * intros [[<- | Hin] Hn]; [|now split].
        destruct Hn as [z [Hz1 Hz2]]. congruence.
Qed.

Lemma bad_among_completes (int : string -> option Z) (l : list string) :
  (forall n, In n l -> int n <> None) ->
  exists bad, bad_among int l = Some bad.
Proof.
  induction l as [|x l IH]; cbn [bad_among]; intros Hall; [eauto|].
  destruct (int x) as [zx|] eqn:Hx;
    [|exfalso; now apply (Hall x (or_introl eq_refl))].
  destruct IH as [bad ->]; [intros n Hn; apply Hall; now right|]. eauto.
Qed.

Lemma bad_among_fails (int : string -> option Z) (l : list string) :
  bad_among int l = None <-> exists n, In n l /\ int n = None.
Proof.
  induction l as [|x l IH]; cbn [bad_among].
  - split; [discriminate | intros [n [[] _]]].
  - destruct (int x) as [zx|] eqn:Hx.
    + destruct (bad_among int l) as [bad|].
      * split; [discriminate|]. intros [n [[<- | Hin] Hnone]]; [congruence|].
        assert (H : exists n0, In n0 l /\ int n0 = None) by eauto.
        apply IH in H. discriminate.
      * split; [|reflexivity]. intros _.
        destruct (proj1 IH eq_refl) as [n [Hin Hnone]].
        exists n. split; [now right | assumption].
    + split; [|reflexivity]. intros _. exists x. split; [now left|assumption].
Qed.

Lemma set_of_In (l : list string) (n : string) : In n (set_of l) <-> In n l.
Proof. unfold set_of. apply nodup_In. Qed.

(** X7.  Asked about nodes named by integers, which [int] reads back from
    the strings [str] gives them, [find_bad_nodes] completes, and its answer
    is a set (no node twice) whose members are exactly the nodes asked about
    whose number is a multiple of 5; asked again about its own answer, it
    answers with the same members. *)
Theorem find_bad_nodes_multiples_of_5 :
  forall (int : string -> option Z) (zs : list Z),
    (forall z, In z zs -> int (Py.str z) = Some z) ->
    exists bad,
      find_bad_nodes int (map Py.str zs) = Completed bad
      /\ NoDup bad
      /\ (forall n, In n bad <->
                    exists z, In z zs /\ n = Py.str z /\ z mod 5 = 0)
      /\ exists again,
           find_bad_nodes int bad = Completed again
           /\ forall n, In n again <-> In n bad.
Proof.
  intros int zs Hint.
  assert (Hall : forall n, In n (map Py.str zs) -> int n <> None).
  { intros n Hn. apply in_map_iff in Hn as [z [<- Hz]].
    now rewrite (Hint z Hz). }
  destruct (bad_among_completes int _ Hall) as [l Hl].
  pose proof (bad_among_members int _ l Hl) as Hmem.
  assert (Hbad : forall n, In n (set_of l) <->
                   exists z, In z zs /\ n = Py.str z /\ z mod 5 = 0).
  { intros n. rewrite set_of_In, Hmem. split.
    - intros [Hin [z' [Hz' Hmod]]].
      apply in_map_iff in Hin as [z [<- Hz]].
      rewrite (Hint z Hz) in Hz'. injection Hz' as <-. eauto.
    - intros [z [Hz [-> Hmod]]]. split; [now apply in_map|].
      exists z. split; [now apply Hint | exact Hmod]. }
  exists (set_of l). unfold find_bad_nodes at 1. rewrite Hl.
  split; [reflexivity|].
  split; [apply NoDup_nodup|]. split; [exact Hbad|].
  assert (Hall' : forall n, In n (set_of l) -> int n <> None).
  { intros n Hn. apply Hbad in Hn as [z [Hz [-> _]]].
    now rewrite (Hint z Hz). }
  destruct (bad_among_completes int _ Hall') as [l' Hl'].
  exists (set_of l'). unfold find_bad_nodes. rewrite Hl'.
  split; [reflexivity|]. intros n.
  rewrite set_of_In, (bad_among_members int _ l' Hl' n). split; [tauto|].
  intros Hn. split; [exact Hn|].
  apply Hbad in Hn as [z [Hz [-> Hmod]]].
  exists z. split; [now apply Hint | exact Hmod].
Qed.

Lemma find_bad_nodes_multiples_of_5_witness :
  exists bad,
    find_bad_nodes int_of_decimal (map Py.str (Py.range 25)) = Completed bad
    /\ NoDup bad
    /\ (forall n, In n bad <->
                  exists z, In z (Py.range 25) /\ n = Py.str z
                            /\ z mod 5 = 0).
Proof.
  destruct (find_bad_nodes_multiples_of_5 int_of_decimal (Py.range 25))
    as [bad [H1 [H2 [H3 _]]]].
  - intros z _. apply int_of_decimal_str.
  - exists bad. split; [exact H1|]. split; [exact H2 | exact H3].
Defined.

(** X8.  Whatever [int] does on other strings, [find_bad_nodes] fails
    exactly when the conversion of one of the nodes fails, and otherwise
    answers with nodes it was asked about. *)
Theorem find_bad_nodes_fails_or_answers_within :
  forall (int : string -> option Z) (nodes_to_check : list string),
    ((exists cause, find_bad_nodes int nodes_to_check = Failed cause)
     <-> exists n, In n nodes_to_check /\ int n = None)
    /\ (forall bad, find_bad_nodes int nodes_to_check = Completed bad ->
          incl bad nodes_to_check
          /\ forall n, In n bad ->
               exists z, int n = Some z /\ z mod 5 = 0).
Proof.
  intros int l. unfold find_bad_nodes. split.
  - rewrite <- bad_among_fails.
    destruct (bad_among int l) as [bad|].
    + split; [intros [cause H]|intros H]; discriminate.
    + split; eauto.
  - intros bad H.
    destruct (bad_among int l) as [bad'|] eqn:Hl; [|discriminate].
    injection H as <-.
    pose proof (bad_among_members int l bad' Hl) as Hmem.
    split.
    + intros n Hn. apply set_of_In, Hmem in Hn. tauto.
    + intros n Hn. apply set_of_In, Hmem in Hn. tauto.
Qed.

(** * A cluster that has just been started *)

Lemma firstn_seq_le (n m a : nat) :
  (n <= m)%nat -> firstn n (seq a m) = seq a n.
Proof.
  revert m a. induction n as [|n IH]; intros m a Hle; [reflexivity|].
  destruct m as [|m]; [lia|]. cbn [seq firstn]. f_equal. apply IH. lia.
Qed.

Lemma firstn_node_ids (n : nat) :
  (n <= 25)%nat -> firstn n node_ids = map Py.str (Py.range n).
Proof.
  intros Hle. unfold node_ids, Py.range.
  now rewrite !firstn_map, firstn_seq_le.
Qed.

(** X9.  Right after [start_cluster], whatever the table held before, a
    cluster that is not shut down serves a request for [n] nodes, [0 <= n <=
    25], with nodes 0 to [n - 1], and refuses a request for more than 25
    nodes with the message that carries [n] and 25, changing nothing. *)
Theorem started_cluster_serves_first_nodes :
  forall (s : ClusterManagerWorkflow)
         (input : ClusterManagerAllocateNNodesToJobInput)
         (ret : list string),
    cluster_shutdown (state s) = false ->
    nodes_lock s = None ->
    (0 <= num_nodes input <= 25 ->
     snd (allocate_n_nodes_to_job (start_cluster s) input (Completed ret)) =
       Returned (VNodes (map Py.str (Py.range (Z.to_nat (num_nodes input))))))
    /\ (25 < num_nodes input ->
        allocate_n_nodes_to_job (start_cluster s) input (Completed ret) =
          (start_cluster s,
           Raised (ApplicationError (cannot_allocate (num_nodes input) 25)))).
Proof.
  intros s input ret Hrun Hlock.
  assert (Hst : cluster_started (state (start_cluster s)) = true)
    by reflexivity.
  assert (Hd : nodes (state (start_cluster s)) = Some (Py.all_none node_ids))
    by reflexivity.
  assert (Hfree : unassigned_of (Py.all_none node_ids) = node_ids)
    by reflexivity.
  split.
  - intros [Hn0 Hn].
    rewrite (allocate_completes (start_cluster s) _ Hst Hd Hrun Hlock input
               ret)
      by (rewrite Hfree; exact Hn).
    cbn [snd]. rewrite Hfree, PyFacts.slice_to_nonneg by assumption.
    rewrite firstn_node_ids by lia. reflexivity.
  - intros Hgt. unfold allocate_n_nodes_to_job.
    rewrite (allocate_entry _ Hst Hrun).
    rewrite (allocate_too_many _ _ Hd Hlock input)
      by (rewrite Hfree; exact Hgt).
    now rewrite Hfree.
Qed.

Lemma started_cluster_serves_first_nodes_witness :
  snd (allocate_n_nodes_to_job (start_cluster started_workflow)
         {| num_nodes := 3; alloc_task_name := "job" |} (Completed [])) =
    Returned (VNodes ["0"; "1"; "2"]).
Proof.
  refine (proj1 (started_cluster_serves_first_nodes started_workflow
            {| num_nodes := 3; alloc_task_name := "job" |} [] _ _) _).
  - reflexivity.
  - reflexivity.
  - vm_compute. split; discriminate.
Defined.

(** * The flags and the settings over a run *)

Lemma fst_run_events_cons (c : Config) (ev : Event) (evs : list Event) :
  fst (run_events c (ev :: evs)) = fst (run_events (fst (step c ev)) evs).
Proof.
  cbn [run_events]. destruct (step c ev) as [c' o]. cbn [fst].
  now destruct (run_events c' evs).
Qed.

Lemma fst_run_events_app (evs more : list Event) : forall c,
  fst (run_events c (evs ++ more)) =
    fst (run_events (fst (run_events c evs)) more).
Proof.
  induction evs as [|ev evs IH]; intros c; [reflexivity|].
  rewrite <- app_comm_cons, !fst_run_events_cons. apply IH.
Qed.

(** An invariant of the steps is an invariant of the runs. *)
Lemma run_events_invariant (P : Config -> Prop) :
  (forall c ev, P c -> P (fst (step c ev))) ->
  forall evs c, P c -> P (fst (run_events c evs)).
Proof.
  intros Hstep. induction evs as [|ev evs IH]; intros c Hc; [exact Hc|].
  rewrite fst_run_events_cons. apply IH, Hstep, Hc.
Qed.

Lemma resume_flags (s : ClusterManagerWorkflow) (co : Coroutine) :
  cluster_started (state (fst (resume s co))) = cluster_started (state s)
  /\ (cluster_shutdown (state (fst (resume s co)))
        = cluster_shutdown (state s)
      \/ (cluster_started (state s) = true
          /\ cluster_shutdown (state (fst (resume s co))) = true)).
Proof.
  destruct co; cbn [resume];
    unfold shutdown_from_76, allocate_from_84, allocate_from_93,
      delete_from_122, delete_from_129, health_from_149;
    break_match; cbn; auto.
Qed.

Lemma resume_settings (s : ClusterManagerWorkflow) (co : Coroutine) :
  max_history_length (fst (resume s co)) = max_history_length s
  /\ sleep_interval_seconds (fst (resume s co)) = sleep_interval_seconds s.
Proof.
  destruct co; cbn [resume];
    unfold shutdown_from_76, allocate_from_84, allocate_from_93,
      delete_from_122, delete_from_129, health_from_149;
    break_match; cbn; auto.
Qed.

Lemma resume_holder_flags (s : ClusterManagerWorkflow) (h : Holder)
    (r : ActivityOutcome) :
  cluster_started (state (fst (resume_holder s h r)))
    = cluster_started (state s)
  /\ cluster_shutdown (state (fst (resume_holder s h r)))
       = cluster_shutdown (state s)
  /\ max_history_length (fst (resume_holder s h r)) = max_history_length s
  /\ sleep_interval_seconds (fst (resume_holder s h r))
       = sleep_interval_seconds s.
Proof.
  destruct h as [l t | l t | l]; cbn [resume_holder];
    unfold allocate_from_104, _allocate_nodes_to_job, delete_from_134,
      _deallocate_nodes_for_job, health_from_152;
    destruct r as [ret | cause]; cbn; auto.
  - destruct (set_nodes (state s) l (Some t)) as [e | st] eqn:Hset; cbn; auto.
    apply set_nodes_state in Hset as [H1 [H2 _]].
    destruct (nodes_items st); cbn; auto.
  - destruct (set_nodes (state s) l None) as [e | st] eqn:Hset; cbn; auto.
    apply set_nodes_state in Hset as [H1 [H2 _]]. auto.
  - destruct (set_nodes (state s) ret (Some BAD)) as [e | st] eqn:Hset;
      cbn; auto.
    apply set_nodes_state in Hset as [H1 [H2 _]]. auto.
Qed.

Lemma step_flags (c : Config) (ev : Event) :
  (cluster_started (state (self c)) = true ->
   cluster_started (state (self (fst (step c ev)))) = true)
  /\ (cluster_shutdown (state (self c)) = true ->
      cluster_shutdown (state (self (fst (step c ev)))) = true).
Proof.
  destruct (step_cases c ev)
    as [-> | [[_ ->] | [[co [_ ->]] | [h [r [_ [_ ->]]]]]]].
  - auto.
  - cbn. auto.
  - destruct (resume_flags (self c) co) as [-> [-> | [_ ->]]]; auto.
  - destruct (resume_holder_flags (self c) h r) as [-> [-> _]]. auto.
Qed.

Lemma step_lifecycle_ok (c : Config) (ev : Event) :
  lifecycle_ok (state (self c)) ->
  lifecycle_ok (state (self (fst (step c ev)))).
Proof.
  intros [Hn Hs].
  destruct (step_cases c ev)
    as [-> | [[_ ->] | [[co [_ ->]] | [h [r [_ [_ ->]]]]]]].
  - now split.
  - split; cbn; [split; discriminate | reflexivity].
  - unfold lifecycle_ok. rewrite resume_nodes.
    destruct (resume_flags (self c) co) as [-> [-> | [Hst ->]]]; auto.
  - unfold lifecycle_ok.
    destruct (resume_holder_flags (self c) h r) as [-> [-> _]].
    destruct (resume_holder_effect (self c) h r) as [_ [l [v [-> _]]]].
    split; [|exact Hs]. rewrite <- Hn.
    destruct (nodes (state (self c))); split; congruence.
Qed.

Lemma initial_lifecycle_ok (test : bool) :
  lifecycle_ok (state (self (initial (fresh_input test)))).
Proof. destruct test; repeat split; discriminate. Qed.

(** X10.  In every run of a workflow started without a seed state, the
    table exists exactly when the cluster is started, the shutdown flag is
    only ever set on a started cluster, and the two flags, once set, stay
    set whatever happens next. *)
Theorem flags_are_set_once :
  forall (test : bool) (evs more : list Event),
    let c := fst (run_events (initial (fresh_input test)) evs) in
    let c' := fst (run_events c more) in
    (nodes (state (self c)) = None <-> cluster_started (state (self c)) = false)
    /\ (cluster_shutdown (state (self c)) = true ->
        cluster_started (state (self c)) = true)
    /\ (cluster_started (state (self c)) = true ->
        cluster_started (state (self c')) = true)
    /\ (cluster_shutdown (state (self c)) = true ->
        cluster_shutdown (state (self c')) = true).
Proof.
  intros test evs more c c'.
  pose proof (run_events_invariant (fun c => lifecycle_ok (state (self c)))
                step_lifecycle_ok evs _ (initial_lifecycle_ok test))
    as [Hn Hs].
  split; [exact Hn|]. split; [exact Hs|]. split; intros H.
  - apply (run_events_invariant
             (fun c => cluster_started (state (self c)) = true)); [|exact H].
    intros c0 ev. apply step_flags.
  - apply (run_events_invariant
             (fun c => cluster_shutdown (state (self c)) = true)); [|exact H].
    intros c0 ev. apply step_flags.
Qed.

(** * Before the start signal *)

Lemma resume_not_started (s : ClusterManagerWorkflow) (co : Coroutine) :
  cluster_started (state s) = false -> at_entry co = true ->
  resume s co = (s, Suspended co).
Proof.
  intros Hst Hco. destruct co; try discriminate; cbn [resume];
    unfold shutdown_from_76, allocate_from_84, delete_from_122;
    now rewrite Hst.
Qed.

Lemma step_not_started (c : Config) (ev : Event) :
  cluster_started (state (self c)) = false ->
  nodes_lock (self c) = None ->
  main c = run_at_192 ->
  Forall (fun co => at_entry co = true) (handlers c) ->
  delivers_start ev = false ->
  self (fst (step c ev)) = self c
  /\ main (fst (step c ev)) = run_at_192
  /\ Forall (fun co => at_entry co = true) (handlers (fst (step c ev)))
  /\ snd (step c ev) = None.
Proof.
  intros Hst Hlock Hmain Hhs Hev. unfold step, finished. rewrite Hmain.
  destruct ev as [m | n | info timed_out | r]; cbn [fst snd].
  - destruct m; try discriminate; cbn; repeat split; auto;
      (apply Forall_app; split; [exact Hhs | repeat constructor]).
  - unfold wake. destruct (nth_error (handlers c) n) as [co|] eqn:Hn;
      [|now repeat split].
    assert (Hco : at_entry co = true).
    { rewrite Forall_forall in Hhs. apply Hhs. eapply nth_error_In; eauto. }
    rewrite (resume_not_started _ co Hst Hco). cbn. repeat split; auto.
    apply Forall_app. split.
    + rewrite Forall_forall in *. intros x Hx. apply Hhs.
      eapply PyFacts.firstn_incl; eauto.
    + constructor; [exact Hco|].
      rewrite Forall_forall in *. intros x Hx. apply Hhs.
      rewrite <- (firstn_skipn (S n) (handlers c)).
      apply in_or_app. now right.
  - unfold wake_run. rewrite Hmain. unfold run_from_192. rewrite Hst.
    cbn. auto.
  - unfold activity_done. rewrite Hlock. auto.
Qed.

Lemma run_not_started (evs : list Event) : forall c,
  cluster_started (state (self c)) = false ->
  nodes_lock (self c) = None ->
  main c = run_at_192 ->
  Forall (fun co => at_entry co = true) (handlers c) ->
  existsb delivers_start evs = false ->
  self (fst (run_events c evs)) = self c
  /\ main (fst (run_events c evs)) = run_at_192
  /\ snd (run_events c evs) = [].
Proof.
  induction evs as [|ev evs IH]; intros c Hst Hlock Hmain Hhs Hev;
    [now repeat split|].
  cbn [existsb] in Hev. apply orb_false_elim in Hev as [Hev1 Hev2].
  destruct (step_not_started c ev Hst Hlock Hmain Hhs Hev1)
    as [Hself [Hmain' [Hhs' Hreply]]].
  cbn [run_events]. destruct (step c ev) as [c' o]. cbn [fst snd] in *.
  subst o. rewrite <- Hself in Hst, Hlock.
  specialize (IH c' Hst Hlock Hmain' Hhs' Hev2).
  destruct (run_events c' evs) as [c'' os]. cbn [fst snd] in *.
  destruct IH as [IH1 [IH2 IH3]]. repeat split; congruence.
Qed.

(** X11.  Nothing takes effect before the start signal: in a run of a
    workflow started without a seed state in which no start signal is
    delivered, whatever updates and shutdown signals arrive and however
    they are scheduled, the workflow object stays as [init] left it, no
    update is answered, and [run] keeps waiting at line 192. *)
Theorem nothing_happens_before_start :
  forall (test : bool) (evs : list Event),
    existsb delivers_start evs = false ->
    self (fst (run_events (initial (fresh_input test)) evs))
      = init new_workflow (fresh_input test)
    /\ main (fst (run_events (initial (fresh_input test)) evs)) = run_at_192
    /\ snd (run_events (initial (fresh_input test)) evs) = [].
Proof.
  intros test evs Hev.
  apply (run_not_started evs (initial (fresh_input test)));
    try assumption; now destruct test.
Qed.

Lemma nothing_happens_before_start_witness :
  snd (run_events (initial (fresh_input false))
         [Deliver (update_allocate_n_nodes_to_job
                     {| num_nodes := 2; alloc_task_name := "job" |});
          Deliver signal_shutdown_cluster; Wake 0; Wake 1;
          WakeRun quiet true; ActivityDone (Completed [])]) = [].
Proof.
  refine (proj2 (proj2 (nothing_happens_before_start false _ _))).
  reflexivity.
Defined.

(** * Who writes the table *)

Lemma set_nodes_writes (st st' : ClusterManagerState) (d d' : Py.Dict)
    l v k :
  set_nodes st l v = inr st' -> nodes st = Some d -> nodes st' = Some d' ->
  Py.get d' k <> Py.get d k -> In k l.
Proof.
  intros Hset Hd Hd' Hne. apply set_nodes_nodes in Hset.
  rewrite Hd, Hd' in Hset. injection Hset as ->.
  rewrite PyFacts.get_set_each in Hne.
  destruct (Py.contains l k) eqn:Hc; [|contradiction].
  now apply PyFacts.contains_In.
Qed.

Lemma resume_holder_writes (s : ClusterManagerWorkflow) (h : Holder)
    (r : ActivityOutcome) (d d' : Py.Dict) (k : string) :
  nodes (state s) = Some d ->
  nodes (state (fst (resume_holder s h r))) = Some d' ->
  Py.get d' k <> Py.get d k ->
  match h with
  | health_at_152 _ => exists bad, r = Completed bad /\ In k bad
  | _ => In k (held_nodes h) /\ exists ret, r = Completed ret
  end.
Proof.
  intros Hd. destruct h as [l t | l t | l]; cbn [resume_holder held_nodes];
    unfold allocate_from_104, _allocate_nodes_to_job, delete_from_134,
      _deallocate_nodes_for_job, health_from_152;
    destruct r as [ret | cause]; cbn [fst state with_lock];
    try (intros Hd' Hne; congruence).
  - destruct (set_nodes (state s) l (Some t)) as [e | st] eqn:Hset;
      cbn [fst state with_lock]; [intros Hd' Hne; congruence|].
    destruct (nodes_items st); cbn [fst state with_lock with_state nodes];
      intros Hd' Hne; (split; [|eauto]);
      eapply set_nodes_writes; eauto.
  - destruct (set_nodes (state s) l None) as [e | st] eqn:Hset;
      cbn [fst state with_lock with_state]; intros Hd' Hne;
      [congruence|]. split; [|eauto]. eapply set_nodes_writes; eauto.
  - destruct (set_nodes (state s) ret (Some BAD)) as [e | st] eqn:Hset;
      cbn [fst state with_lock with_state]; intros Hd' Hne;
      [congruence|]. exists ret. split; [reflexivity|].
    eapply set_nodes_writes; eauto.
Qed.

(** X12.  The value of a node changes in two ways only: by the start
    signal, or when the activity awaited by the holder of [nodes_lock]
    completes, and then only for a node the holder selected under the lock
    (allocation, deletion) or the activity named (health check).  No
    handler that starts or resumes elsewhere, and no failed activity,
    writes the table. *)
Theorem table_written_under_lock :
  forall (c : Config) (ev : Event) (d d' : Py.Dict) (k : string),
    nodes (state (self c)) = Some d ->
    nodes (state (self (fst (step c ev)))) = Some d' ->
    Py.get d' k <> Py.get d k ->
    ev = Deliver signal_start_cluster
    \/ exists r h,
         ev = ActivityDone r /\ nodes_lock (self c) = Some h
         /\ match h with
            | health_at_152 _ => exists bad, r = Completed bad /\ In k bad
            | _ => In k (held_nodes h) /\ exists ret, r = Completed ret
            end.
Proof.
  intros c ev d d' k Hd Hd' Hne.
  destruct (step_cases c ev)
    as [Hs | [[Hev _] | [[co [_ Hs]] | [h [r [Hev [Hh Hs]]]]]]].
  - rewrite Hs in Hd'. congruence.
  - now left.
  - rewrite Hs, resume_nodes in Hd'. congruence.
  - right. exists r, h. split; [exact Hev|]. split; [exact Hh|].
    rewrite Hs in Hd'.
    exact (resume_holder_writes (self c) h r d d' k Hd Hd' Hne).
Qed.

Lemma table_written_under_lock_witness :
  exists r h,
    ActivityDone (Completed []) = ActivityDone r
    /\ nodes_lock (self allocation_in_flight) = Some h
    /\ match h with
       | health_at_152 _ => exists bad, r = Completed bad /\ In "0" bad
       | _ => In "0" (held_nodes h) /\ exists ret, r = Completed ret
       end.
Proof.
  destruct (table_written_under_lock allocation_in_flight
              (ActivityDone (Completed []))
              (Py.all_none node_ids)
              (set_each (Py.all_none node_ids) ["0"; "1"] (Some "task-0"))
              "0")
    as [Hev | H]; try reflexivity.
  - vm_compute. discriminate.
  - discriminate Hev.
  - exact H.
Defined.

(** * What the holder of the lock carries *)

Lemma all_none_free (k : string) :
  In k node_ids -> is_free (Py.all_none node_ids) k = true.
Proof.
  intros Hk. unfold is_free, Py.all_none.
  fold (set_each [] node_ids None). rewrite PyFacts.get_set_each.
  apply PyFacts.contains_In in Hk. now rewrite Hk.
Qed.

(** A segment of a suspended coroutine leaves the lock as it is, or takes
    the free lock with nodes it reads off the table. *)
Lemma resume_lock (s : ClusterManagerWorkflow) (co : Coroutine) :
  nodes_lock (fst (resume s co)) = nodes_lock s
  \/ exists d,
       nodes (state s) = Some d
       /\ ((exists n t,
              nodes_lock (fst (resume s co)) =
                Some (allocate_at_104 (Py.slice_to (unassigned_of d) n) t))
           \/ (exists t,
                 nodes_lock (fst (resume s co)) =
                   Some (delete_at_134 (nodes_of_job d t) t))
           \/ nodes_lock (fst (resume s co)) =
                Some (health_at_152 (assigned_of d))).
Proof.
  destruct co; cbn [resume];
    unfold shutdown_from_76, allocate_from_84, allocate_from_93,
      delete_from_122, delete_from_129, health_from_149;
    break_match; cbn [fst nodes_lock with_lock with_state]; auto;
    right;
    match goal with
    | H : nodes_items _ = inr ?d |- _ =>
        exists d; split; [now apply nodes_items_inr|]
    | H : get_assigned_nodes _ = inr _ |- _ =>
        apply get_assigned_nodes_inr in H as [d [Hd ->]];
        exists d; split; [exact Hd|]
    end; eauto.
Qed.

Lemma held_free_ext (s s' : ClusterManagerWorkflow) :
  nodes (state s') = nodes (state s) -> nodes_lock s' = nodes_lock s ->
  held_free s -> held_free s'.
Proof. unfold held_free. intros -> ->. auto. Qed.

Lemma resume_held_free (s : ClusterManagerWorkflow) (co : Coroutine) :
  table_ok s -> held_free s -> held_free (fst (resume s co)).
Proof.
  intros [Hk _] Hf.
  destruct (resume_lock s co) as [Hl | [d [Hd Hl]]].
  - eapply held_free_ext; eauto using resume_nodes.
  - pose proof (Hk d Hd) as Hkeys.
    assert (Hnd : NoDup (Py.keys d)) by (rewrite Hkeys; apply node_ids_NoDup).
    intros d' Hd'. rewrite resume_nodes, Hd in Hd'. injection Hd' as <-.
    destruct Hl as [[n [t ->]] | [[t ->] | ->]]; [| |exact I].
    + intros k Hin. apply PyFacts.slice_to_incl in Hin.
      apply (in_unassigned_iff d k Hnd) in Hin.
      unfold is_free. now rewrite Hin.
    + intros k Hin. left. apply (in_nodes_of_job_iff d t k Hnd) in Hin.
      unfold carries. rewrite Hin. apply String.eqb_refl.
Qed.

Lemma start_held_free (s : ClusterManagerWorkflow) :
  table_ok s -> held_free (start_cluster s).
Proof.
  intros [_ Hh] d [= <-]. cbn [nodes_lock start_cluster with_state].
  destruct (nodes_lock s) as [[l t | l t | l]|] eqn:Hl; try exact I;
    specialize (Hh _ Hl); cbn [held_nodes] in Hh; intros k Hin;
    [|right]; apply all_none_free; auto.
Qed.

Lemma resume_holder_held_free (s : ClusterManagerWorkflow) (h : Holder)
    (r : ActivityOutcome) :
  held_free (fst (resume_holder s h r)).
Proof.
  intros d _.
  destruct (resume_holder_effect s h r) as [-> _]. exact I.
Qed.

Lemma step_held_free (c : Config) (ev : Event) :
  table_ok (self c) -> held_free (self c) ->
  held_free (self (fst (step c ev))).
Proof.
  intros Hok Hf.
  destruct (step_cases c ev)
    as [-> | [[_ ->] | [[co [_ ->]] | [h [r [_ [_ ->]]]]]]].
  - exact Hf.
  - now apply start_held_free.
  - now apply resume_held_free.
  - apply resume_holder_held_free.
Qed.

Lemma run_events_held_free (evs : list Event) : forall c,
  table_ok (self c) -> held_free (self c) ->
  health_answers_within c evs = true ->
  held_free (self (fst (run_events c evs))).
Proof.
  induction evs as [|ev evs IH]; intros c Hok Hf Hw; [exact Hf|].
  cbn [health_answers_within] in Hw. apply andb_prop in Hw as [Hw1 Hw2].
  rewrite fst_run_events_cons.
  apply IH; [now apply step_table_ok | now apply step_held_free | exact Hw2].
Qed.

(** X13.  The lock keeps what a handler selected: in every run of a
    workflow started without a seed state (the health check answering with
    nodes it was asked about), the nodes an allocation selected are still
    free in the table for as long as it waits for its activity, and the
    nodes a deletion selected still carry its job, or are free after a
    start signal.  So an allocation that completes takes no node away from
    a job. *)
Theorem held_nodes_stay_as_selected :
  forall (test : bool) (evs : list Event) (d : Py.Dict),
    health_answers_within (initial (fresh_input test)) evs = true ->
    nodes (state (self (fst (run_events (initial (fresh_input test)) evs))))
      = Some d ->
    (forall l t,
       nodes_lock (self (fst (run_events (initial (fresh_input test)) evs)))
         = Some (allocate_at_104 l t) ->
       forall k, In k l -> Py.get d k = Some None)
    /\ (forall l t,
          nodes_lock (self (fst (run_events (initial (fresh_input test)) evs)))
            = Some (delete_at_134 l t) ->
          forall k, In k l ->
            Py.get d k = Some (Some t) \/ Py.get d k = Some None).
Proof.
  intros test evs d Hw Hd.
  assert (Hf0 : held_free (self (initial (fresh_input test))))
    by (destruct test; intros d0; discriminate).
  pose proof (run_events_held_free evs _ (initial_table_ok test) Hf0 Hw) as Hf.
  specialize (Hf d Hd).
  assert (Hfree : forall k, is_free d k = true -> Py.get d k = Some None).
  { intros k. unfold is_free.
    destruct (Py.get d k) as [[j|]|]; congruence. }
  split; intros l t Hl k Hin; rewrite Hl in Hf.
  - apply Hfree. now apply Hf.
  - destruct (Hf k Hin) as [Hc | Hc]; [left | right; now apply Hfree].
    unfold carries in Hc. destruct (Py.get d k) as [[j|]|]; try discriminate.
    apply String.eqb_eq in Hc. now subst.
Qed.

Lemma held_nodes_stay_as_selected_witness :
  Py.get (Py.all_none node_ids) "1" = Some None.
Proof.
  refine (proj1 (held_nodes_stay_as_selected false
            [ Deliver signal_start_cluster;
              Deliver (update_allocate_n_nodes_to_job
                         {| num_nodes := 2; alloc_task_name := "task-0" |});
              Wake 0; Deliver signal_start_cluster ]
            (Py.all_none node_ids) _ _) ["0"; "1"] "task-0" _ "1" _);
    try reflexivity.
  right. now left.
Defined.

(** * [max_assigned_nodes] and the nodes assigned *)

Lemma filter_length_impl {A : Type} (f g : A -> bool) (l : list A) :
  (forall a, f a = true -> g a = true) ->
  (List.length (filter f l) <= List.length (filter g l))%nat.
Proof.
  intros Himp. induction l as [|a l IH]; simpl; [lia|].
  destruct (f a) eqn:Hf.
  - rewrite (Himp a Hf). simpl. lia.
  - destruct (g a); simpl; lia.
Qed.

Lemma assigned_le_not_None (d : Py.Dict) :
  Py.len (assigned_of d) <= Py.len (not_None_of d).
Proof.
  unfold assigned_of, not_None_of, Py.len. rewrite !length_map.
  apply inj_le, filter_length_impl. intros a H.
  now apply andb_prop in H as [H _].
Qed.

(** Writing [None] or the marker of bad nodes never adds an assigned
    node. *)
Lemma assigned_setitem_le (d : Py.Dict) k v :
  v = None \/ v = Some BAD ->
  Py.len (assigned_of (Py.setitem d k v)) <= Py.len (assigned_of d).
Proof.
  intros Hv. unfold assigned_of, Py.items, Py.len. rewrite !length_map.
  apply inj_le.
  assert (Hnot : negb (is_None v) && negb (value_eqb v BAD) = false)
    by (destruct Hv as [-> | ->]; reflexivity).
  induction d as [|[k' v'] d IH]; cbn [Py.setitem filter snd].
  - rewrite Hnot. simpl. lia.
  - destruct (String.eqb k' k); cbn [filter snd].
    + rewrite Hnot.
      destruct (negb (is_None v') && negb (value_eqb v' BAD)); simpl; lia.
    + destruct (negb (is_None v') && negb (value_eqb v' BAD)); simpl; lia.
Qed.

Lemma assigned_set_each_le (l : list string) : forall (d : Py.Dict) v,
  v = None \/ v = Some BAD ->
  Py.len (assigned_of (set_each d l v)) <= Py.len (assigned_of d).
Proof.
  induction l as [|x l IH]; intros d v Hv; [apply Z.le_refl|].
  unfold set_each in *. cbn [fold_left].
  specialize (IH (Py.setitem d x v) v Hv).
  pose proof (assigned_setitem_le d x v Hv). lia.
Qed.

Lemma set_nodes_counts_ok (st st' : ClusterManagerState) l v :
  v = None \/ v = Some BAD ->
  counts_ok st -> set_nodes st l v = inr st' -> counts_ok st'.
Proof.
  intros Hv [H0 Hc] Hset.
  pose proof (set_nodes_nodes _ _ _ _ Hset) as Hn.
  apply set_nodes_state in Hset as [_ [_ Hmax]].
  split; rewrite Hmax; [exact H0|].
  intros d' Hd'. rewrite Hd' in Hn.
  destruct (nodes st) as [d|]; [|discriminate]. injection Hn as ->.
  specialize (Hc d eq_refl).
  pose proof (assigned_set_each_le l d v Hv). lia.
Qed.

Lemma resume_holder_counts_ok (s : ClusterManagerWorkflow) (h : Holder)
    (r : ActivityOutcome) :
  counts_ok (state s) -> counts_ok (state (fst (resume_holder s h r))).
Proof.
  intros Hc.
  destruct h as [l t | l t | l]; cbn [resume_holder];
    unfold allocate_from_104, _allocate_nodes_to_job, delete_from_134,
      _deallocate_nodes_for_job, health_from_152;
    destruct r as [ret | cause]; cbn [fst state with_lock]; try exact Hc.
  - destruct (set_nodes (state s) l (Some t)) as [e | st] eqn:Hset;
      cbn [fst state with_lock]; [exact Hc|].
    apply set_nodes_state in Hset as [_ [_ Hmax]]. destruct Hc as [H0 _].
    destruct (nodes_items st) as [e | d] eqn:Hitems;
      cbn [fst state with_lock with_state].
    + split; [lia|]. intros d Hd. unfold nodes_items in Hitems.
      rewrite Hd in Hitems. discriminate.
    + apply nodes_items_inr in Hitems. split; cbn; [lia|].
      intros d' Hd'. rewrite Hitems in Hd'. injection Hd' as <-.
      pose proof (assigned_le_not_None d). lia.
  - destruct (set_nodes (state s) l None) as [e | st] eqn:Hset;
      cbn [fst state with_lock with_state]; [exact Hc|].
    exact (set_nodes_counts_ok _ _ _ _ (or_introl eq_refl) Hc Hset).
  - destruct (set_nodes (state s) ret (Some BAD)) as [e | st] eqn:Hset;
      cbn [fst state with_lock with_state]; [exact Hc|].
    exact (set_nodes_counts_ok _ _ _ _ (or_intror eq_refl) Hc Hset).
Qed.

Lemma step_counts_ok (c : Config) (ev : Event) :
  counts_ok (state (self c)) -> counts_ok (state (self (fst (step c ev)))).
Proof.
  intros Hc.
  destruct (step_cases c ev)
    as [-> | [[_ ->] | [[co [_ ->]] | [h [r [_ [_ ->]]]]]]].
  - exact Hc.
  - destruct Hc as [H0 _]. split; [exact H0|].
    intros d [= <-]. exact H0.
  - destruct Hc as [H0 Hc]. unfold counts_ok.
    rewrite resume_max, resume_nodes. now split.
  - now apply resume_holder_counts_ok.
Qed.

Lemma initial_counts_ok (test : bool) :
  counts_ok (state (self (initial (fresh_input test)))).
Proof. destruct test; split; cbn; try lia; intros d; discriminate. Qed.

Lemma assigned_count_le (c : Config) :
  counts_ok (state (self c)) ->
  0 <= assigned_count c <= max_assigned_nodes (state (self c)).
Proof.
  intros [H0 Hc]. unfold assigned_count, get_assigned_nodes, nodes_items.
  destruct (nodes (state (self c))) as [d|]; [|lia].
  specialize (Hc d eq_refl). pose proof (PyFacts.len_nonneg (assigned_of d)).
  lia.
Qed.

Lemma run_events_max (evs : list Event) : forall c,
  max_assigned_nodes (state (self c))
    <= max_assigned_nodes (state (self (fst (run_events c evs)))).
Proof.
  induction evs as [|ev evs IH]; intros c; [cbn; lia|].
  rewrite fst_run_events_cons.
  pose proof (max_assigned_nodes_never_decreases c ev).
  specialize (IH (fst (step c ev))). lia.
Qed.

Lemma peak_le_max (evs : list Event) : forall c,
  counts_ok (state (self c)) ->
  peak_assigned (history c evs)
    <= max_assigned_nodes (state (self (fst (run_events c evs)))).
Proof.
  induction evs as [|ev evs IH]; intros c Hc;
    pose proof (assigned_count_le c Hc) as Hle.
  - cbn. lia.
  - cbn [history peak_assigned fold_right]. fold (peak_assigned
      (history (fst (step c ev)) evs)).
    rewrite fst_run_events_cons.
    specialize (IH _ (step_counts_ok c ev Hc)).
    pose proof (max_assigned_nodes_never_decreases c ev).
    pose proof (run_events_max evs (fst (step c ev))). lia.
Qed.

Lemma step_input (c : Config) (ev : Event) :
  input (fst (step c ev)) = input c.
Proof.
  unfold step. destruct (finished c); [reflexivity|].
  destruct ev as [m | n | info timed_out | r]; cbn [fst].
  - now destruct m.
  - unfold wake. destruct (nth_error (handlers c) n); [|reflexivity].
    now destruct (resume (self c) c0) as [s' []].
  - unfold wake_run. destruct (main c); try reflexivity.
    + now destruct (run_from_192 (self c)).
    + now destruct (run_from_196 (health_from_149 (self c))).
    + now destruct (run_from_198 (self c) (input c) info timed_out).
  - unfold activity_done.
    destruct (nodes_lock (self c)) as [[l t | l t | l]|]; try reflexivity.
    + now destruct (resume_holder (self c) (allocate_at_104 l t) r).
    + now destruct (resume_holder (self c) (delete_at_134 l t) r).
    + now destruct (run_from_196 (resume_holder (self c) (health_at_152 l) r)).
Qed.

Lemma run_from_196_outcome (p : ClusterManagerWorkflow * Outcome) :
  match snd (run_from_196 p) with
  | run_returned _ | run_continued_as_new _ => False
  | _ => True
  end.
Proof. now destruct p as [s []]. Qed.

Lemma run_result_outcome (c : Config) (s : ClusterManagerWorkflow) :
  s = self c -> cluster_shutdown (state s) = true ->
  outcome_ok (with_main c s (run_result s)).
Proof.
  intros -> Hsd. unfold outcome_ok, run_result, assigned_count.
  cbn [main with_main self].
  destruct (get_assigned_nodes (self c)); [exact I | now split].
Qed.

(** What [run] returned, or handed over, describes the workflow: the
    workflow takes no step after that. *)
Lemma step_outcome_ok (c : Config) (ev : Event) :
  outcome_ok c -> outcome_ok (fst (step c ev)).
Proof.
  intros Hok. unfold step. destruct (finished c) eqn:Hfin; [exact Hok|].
  assert (Hopen : forall c', main c' = main c -> outcome_ok c').
  { intros c' Hm. unfold outcome_ok. rewrite Hm.
    unfold finished in Hfin. now destruct (main c). }
  destruct ev as [m | n | info timed_out | r]; cbn [fst].
  - apply Hopen. now destruct m.
  - apply Hopen. unfold wake.
    destruct (nth_error (handlers c) n); [|reflexivity].
    now destruct (resume (self c) c0) as [s' []].
  - unfold wake_run. destruct (main c) eqn:Hmain; try exact Hok.
    + unfold run_from_192.
      destruct (cluster_started (state (self c))); [|now apply Hopen].
      pose proof (run_from_196_outcome (health_from_149 (self c))) as H.
      destruct (run_from_196 (health_from_149 (self c))) as [s p].
      unfold outcome_ok. cbn in *. now destruct p.
    + pose proof (run_from_196_outcome (health_from_149 (self c))) as H.
      destruct (run_from_196 (health_from_149 (self c))) as [s p].
      unfold outcome_ok. cbn in *. now destruct p.
    + unfold run_from_198, run_from_205.
      destruct (cluster_shutdown (state (self c))) eqn:Hsd; cbn [orb].
      * now apply run_result_outcome.
      * destruct (should_continue_as_new (self c) info) eqn:Hcont;
          cbn [orb].
        -- unfold outcome_ok. cbn. repeat split; [|exact Hsd].
           unfold should_continue_as_new, locked in Hcont.
           destruct (nodes_lock (self c)); [discriminate | reflexivity].
        -- destruct timed_out; [|now apply Hopen].
           pose proof (run_from_196_outcome (health_from_149 (self c))) as H.
           destruct (run_from_196 (health_from_149 (self c))) as [s p].
           unfold outcome_ok. cbn in *. now destruct p.
  - unfold activity_done.
    destruct (nodes_lock (self c)) as [[l t | l t | l]|]; try exact Hok.
    + apply Hopen.
      now destruct (resume_holder (self c) (allocate_at_104 l t) r).
    + apply Hopen.
      now destruct (resume_holder (self c) (delete_at_134 l t) r).
    + pose proof (run_from_196_outcome
                    (resume_holder (self c) (health_at_152 l) r)) as H.
      destruct (run_from_196 (resume_holder (self c) (health_at_152 l) r))
        as [s p].
      unfold outcome_ok. cbn in *. now destruct p.
Qed.

(** X14.  In every run of a workflow started without a seed state,
    [max_assigned_nodes] is at least the number of nodes assigned to a job
    at every point of the run, so it is at least their peak; and when
    [run] returns, after the shutdown signal, its result holds the
    [max_assigned_nodes] and the number of assigned nodes of that moment,
    with [0 <= num_currently_assigned_nodes <= max_assigned_nodes]. *)
Theorem max_assigned_nodes_covers_peak :
  forall (test : bool) (evs : list Event),
    let c := fst (run_events (initial (fresh_input test)) evs) in
    0 <= assigned_count c <= max_assigned_nodes (state (self c))
    /\ peak_assigned (history (initial (fresh_input test)) evs)
         <= max_assigned_nodes (state (self c))
    /\ (forall r, main c = run_returned r ->
          cluster_shutdown (state (self c)) = true
          /\ result_max_assigned_nodes r = max_assigned_nodes (state (self c))
          /\ num_currently_assigned_nodes r = assigned_count c
          /\ 0 <= num_currently_assigned_nodes r
               <= result_max_assigned_nodes r).
Proof.
  intros test evs c.
  pose proof (run_events_invariant (fun c => counts_ok (state (self c)))
                step_counts_ok evs _ (initial_counts_ok test)) as Hc.
  pose proof (assigned_count_le c Hc) as Hle.
  split; [exact Hle|].
  split; [apply peak_le_max, initial_counts_ok|].
  intros r Hr.
  pose proof (run_events_invariant outcome_ok step_outcome_ok evs
                (initial (fresh_input test)) I) as Hout.
  fold c in Hout. unfold outcome_ok in Hout. rewrite Hr in Hout.
  destruct Hout as [-> Hsd]. cbn. auto.
Qed.

Lemma not_None_le_len (d : Py.Dict) : Py.len (not_None_of d) <= Py.len d.
Proof.
  unfold not_None_of, Py.len. rewrite length_map.
  apply PyFacts.len_filter_le.
Qed.

Lemma resume_holder_max_eq (s : ClusterManagerWorkflow) (h : Holder)
    (r : ActivityOutcome) :
  max_assigned_nodes (state (fst (resume_holder s h r)))
    = max_assigned_nodes (state s)
  \/ exists d',
       nodes (state (fst (resume_holder s h r))) = Some d'
       /\ max_assigned_nodes (state (fst (resume_holder s h r)))
          = Z.max (max_assigned_nodes (state s)) (Py.len (not_None_of d')).
Proof.
  destruct h as [l t | l t | l]; cbn [resume_holder];
    unfold allocate_from_104, _allocate_nodes_to_job, delete_from_134,
      _deallocate_nodes_for_job, health_from_152;
    destruct r as [ret | cause]; cbn [fst state with_lock]; auto.
  - destruct (set_nodes (state s) l (Some t)) as [e | st] eqn:Hset;
      cbn [fst state with_lock]; auto.
    apply set_nodes_state in Hset as [_ [_ Hmax]].
    destruct (nodes_items st) as [e | d] eqn:Hitems;
      cbn [fst state with_lock with_state]; auto.
    right. exists d. apply nodes_items_inr in Hitems. cbn.
    now rewrite Hmax.
  - destruct (set_nodes (state s) l None) as [e | st] eqn:Hset;
      cbn [fst state with_lock with_state]; auto.
    apply set_nodes_state in Hset as [_ [_ Hmax]]. auto.
  - destruct (set_nodes (state s) ret (Some BAD)) as [e | st] eqn:Hset;
      cbn [fst state with_lock with_state]; auto.
    apply set_nodes_state in Hset as [_ [_ Hmax]]. auto.
Qed.

Lemma step_max_within_pool (c : Config) (ev : Event) :
  table_ok (self c) -> answers_within c ev = true ->
  max_assigned_nodes (state (self c)) <= 25 ->
  max_assigned_nodes (state (self (fst (step c ev)))) <= 25.
Proof.
  intros Hok Hw Hle.
  pose proof (step_table_ok c ev Hok Hw) as [Hk' _].
  destruct (step_cases c ev)
    as [-> | [[_ ->] | [[co [_ ->]] | [h [r [_ [_ Hs]]]]]]].
  - exact Hle.
  - exact Hle.
  - now rewrite resume_max.
  - rewrite Hs in *.
    destruct (resume_holder_max_eq (self c) h r) as [-> | [d' [Hd' ->]]];
      [exact Hle|].
    pose proof (not_None_le_len d') as Hlen.
    assert (Py.len d' = 25).
    { unfold Py.len. rewrite <- (length_map fst). fold (Py.keys d').
      now rewrite (Hk' d' Hd'). }
    lia.
Qed.

Lemma run_events_max_within_pool (evs : list Event) : forall c,
  table_ok (self c) -> health_answers_within c evs = true ->
  max_assigned_nodes (state (self c)) <= 25 ->
  max_assigned_nodes (state (self (fst (run_events c evs)))) <= 25.
Proof.
  induction evs as [|ev evs IH]; intros c Hok Hw Hle; [exact Hle|].
  cbn [health_answers_within] in Hw. apply andb_prop in Hw as [Hw1 Hw2].
  rewrite fst_run_events_cons.
  apply IH; [now apply step_table_ok | exact Hw2 |].
  now apply step_max_within_pool.
Qed.

(** X15.  In every run of a workflow started without a seed state (the
    health check answering with nodes it was asked about),
    [max_assigned_nodes] never exceeds the 25 nodes of the cluster, and
    neither does the peak that [run] returns. *)
Theorem max_assigned_nodes_within_pool :
  forall (test : bool) (evs : list Event),
    health_answers_within (initial (fresh_input test)) evs = true ->
    let c := fst (run_events (initial (fresh_input test)) evs) in
    0 <= max_assigned_nodes (state (self c)) <= 25
    /\ (forall r, main c = run_returned r ->
          0 <= num_currently_assigned_nodes r
            <= result_max_assigned_nodes r
          /\ result_max_assigned_nodes r <= 25).
Proof.
  intros test evs Hw c.
  pose proof (run_events_invariant (fun c => counts_ok (state (self c)))
                step_counts_ok evs _ (initial_counts_ok test)) as Hc.
  pose proof (assigned_count_le c Hc) as Hle.
  assert (Hmax : max_assigned_nodes (state (self c)) <= 25).
  { apply run_events_max_within_pool;
      [apply initial_table_ok | exact Hw | now destruct test]. }
  split; [lia|]. intros r Hr.
  pose proof (run_events_invariant outcome_ok step_outcome_ok evs
                (initial (fresh_input test)) I) as Hout.
  fold c in Hout. unfold outcome_ok in Hout. rewrite Hr in Hout.
  destruct Hout as [-> _]. cbn. lia.
Qed.

Lemma max_assigned_nodes_within_pool_witness :
  0 <= max_assigned_nodes
         (state (self (fst (run_events (initial (fresh_input false))
                              lifecycle)))) <= 25.
Proof.
  refine (proj1 (max_assigned_nodes_within_pool false lifecycle _)).
  reflexivity.
Defined.

(** * The settings and the handover *)

Lemma step_settings_ok (c : Config) (ev : Event) :
  settings_ok c -> settings_ok (fst (step c ev)).
Proof.
  unfold settings_ok. rewrite step_input. intros [H1 H2].
  destruct (step_cases c ev)
    as [-> | [[_ ->] | [[co [_ ->]] | [h [r [_ [_ ->]]]]]]].
  - now split.
  - now split.
  - destruct (resume_settings (self c) co) as [-> ->]. now split.
  - destruct (resume_holder_flags (self c) h r) as [_ [_ [-> ->]]].
    now split.
Qed.

Lemma initial_settings_ok (input0 : ClusterManagerInput) :
  settings_ok (initial input0).
Proof.
  unfold settings_ok, initial, init. cbn.
  now destruct (test_continue_as_new input0).
Qed.

Lemma run_events_input (evs : list Event) : forall c,
  input (fst (run_events c evs)) = input c.
Proof.
  induction evs as [|ev evs IH]; intros c; [reflexivity|].
  now rewrite fst_run_events_cons, IH, step_input.
Qed.

(** X16.  At every point of every run, seeded or not,
    [should_continue_as_new] is true exactly when [nodes_lock] is free and
    either the runtime suggests to continue as new or the workflow was
    started in test mode and its history is longer than 120 events; outside
    test mode the length of the history plays no part. *)
Theorem should_continue_as_new_decision :
  forall (input0 : ClusterManagerInput) (evs : list Event) (info : Info),
    let c := fst (run_events (initial input0) evs) in
    should_continue_as_new (self c) info =
      negb (locked (self c))
      && (is_continue_as_new_suggested info
          || (test_continue_as_new input0
              && (get_current_history_length info >? 120))).
Proof.
  intros input0 evs info c.
  pose proof (run_events_invariant settings_ok step_settings_ok evs _
                (initial_settings_ok input0)) as [Hm _].
  fold c in Hm. unfold c in Hm at 2. rewrite run_events_input in Hm.
  cbn [input initial] in Hm.
  unfold should_continue_as_new. rewrite Hm.
  destruct (locked (self c)); [reflexivity|].
  destruct (is_continue_as_new_suggested info); [reflexivity|].
  destruct (test_continue_as_new input0); cbn;
    now destruct (get_current_history_length info >? 120).
Qed.


(** * Updates that passed the entry check before the shutdown *)

(** X18.  The shutdown flag is read once, before the lock is taken: in a
    started cluster that is shut down, a new call of
    [allocate_n_nodes_to_job] is rejected, but an update that was waiting
    for [nodes_lock] when the shutdown signal came is not.  Resumed with the
    lock free, an allocation selects its nodes, and a deletion the nodes of
    its job, and both complete as they would before the shutdown. *)
Theorem lock_waiters_survive_shutdown :
  forall (s : ClusterManagerWorkflow) (d : Py.Dict)
         (ai : ClusterManagerAllocateNNodesToJobInput)
         (di : ClusterManagerDeleteJobInput) (ret : list string),
    cluster_started (state s) = true ->
    cluster_shutdown (state s) = true ->
    nodes_lock s = None ->
    nodes (state s) = Some d ->
    num_nodes ai <= Py.len (unassigned_of d) ->
    allocate_n_nodes_to_job s ai (Completed ret) =
      (s, Raised (ApplicationError shut_down_allocate))
    /\ then_activity (resume s (allocate_at_93 ai)) (Completed ret) =
         (allocated s d (Py.slice_to (unassigned_of d) (num_nodes ai))
            (alloc_task_name ai),
          Returned (VNodes (Py.slice_to (unassigned_of d) (num_nodes ai))))
    /\ then_activity (resume s (delete_at_129 di)) (Completed ret) =
         (deleted s d (delete_task_name di), Returned VNone).
Proof.
  intros s d ai di ret Hst Hsd Hlock Hd Hle. cbn [resume]. split; [|split].
  - unfold allocate_n_nodes_to_job.
    now rewrite (allocate_shut_down s Hst ai Hsd).
  - unfold allocate_from_93, nodes_items.
    rewrite (locked_false _ Hlock), Hd.
    destruct (Z.ltb_spec (Py.len (unassigned_of d)) (num_nodes ai)); [lia|].
    unfold then_activity. cbn [nodes_lock with_lock resume_holder].
    unfold allocate_from_104, _allocate_nodes_to_job. cbn [state with_lock].
    now rewrite (set_nodes_Some _ d _ _ Hd).
  - unfold delete_from_129, nodes_items.
    rewrite (locked_false _ Hlock), Hd.
    unfold then_activity. cbn [nodes_lock with_lock resume_holder].
    unfold delete_from_134, _deallocate_nodes_for_job. cbn [state with_lock].
    now rewrite (set_nodes_Some _ d _ _ Hd).
Qed.

Lemma lock_waiters_survive_shutdown_witness :
  snd (then_activity
         (resume shut_down_workflow
            (allocate_at_93 {| num_nodes := 2; alloc_task_name := "job" |}))
         (Completed [])) = Returned (VNodes ["0"; "1"]).
Proof.
  rewrite (proj1 (proj2 (lock_waiters_survive_shutdown shut_down_workflow
             (Py.all_none node_ids)
             {| num_nodes := 2; alloc_task_name := "job" |}
             {| delete_task_name := "job" |} []
             eq_refl eq_refl eq_refl eq_refl
             ltac:(vm_compute; discriminate)))).
  reflexivity.
Defined.

(** * How [run] can fail *)

Lemma started_items (st : ClusterManagerState) :
  lifecycle_ok st -> cluster_started st = true ->
  exists d, nodes st = Some d.
Proof.
  intros [Hn _] Hst. destruct (nodes st) as [d|]; [eauto|].
  pose proof (proj1 Hn eq_refl). congruence.
Qed.

Lemma step_lock_started (c : Config) (ev : Event) :
  lifecycle_ok (state (self c)) ->
  (forall h, nodes_lock (self c) = Some h ->
     cluster_started (state (self c)) = true) ->
  forall h, nodes_lock (self (fst (step c ev))) = Some h ->
    cluster_started (state (self (fst (step c ev)))) = true.
Proof.
  intros [Hn _] Hlock h.
  destruct (step_cases c ev)
    as [-> | [[_ ->] | [[co [_ ->]] | [h' [r [_ [_ ->]]]]]]].
  - apply Hlock.
  - reflexivity.
  - destruct (resume_flags (self c) co) as [-> _].
    destruct (resume_lock (self c) co) as [-> | [d [Hd _]]]; [apply Hlock|].
    intros _. pose proof (proj2 Hn) as Hnone.
    destruct (cluster_started (state (self c))); [reflexivity|].
    specialize (Hnone eq_refl). congruence.
  - destruct (resume_holder_effect (self c) h' r) as [-> _]. discriminate.
Qed.

Lemma health_from_149_main (c : Config) :
  lifecycle_ok (state (self c)) ->
  cluster_started (state (self c)) = true ->
  match snd (run_from_196 (health_from_149 (self c))) with
  | run_at_192 => True
  | run_failed e => exists cause, e = ActivityError cause
  | _ => cluster_started
           (state (fst (run_from_196 (health_from_149 (self c))))) = true
  end.
Proof.
  intros Hl Hst. destruct (started_items _ Hl Hst) as [d Hd].
  unfold health_from_149, get_assigned_nodes, nodes_items. rewrite Hd.
  destruct (locked (self c)); cbn; assumption.
Qed.

Lemma run_result_main (s : ClusterManagerWorkflow) :
  lifecycle_ok (state s) -> cluster_started (state s) = true ->
  match run_result s with
  | run_at_192 => True
  | run_failed e => exists cause, e = ActivityError cause
  | _ => cluster_started (state s) = true
  end.
Proof.
  intros Hl Hst. destruct (started_items _ Hl Hst) as [d Hd].
  unfold run_result, get_assigned_nodes, nodes_items. now rewrite Hd.
Qed.

Lemma step_run_ok (c : Config) (ev : Event) :
  run_ok c -> run_ok (fst (step c ev)).
Proof.
  intros Hok. pose proof Hok as [Hl [Hlk Hm]].
  split; [now apply step_lifecycle_ok|].
  split; [now apply step_lock_started|].
  pose proof (proj1 (step_flags c ev)) as Hmono.
  unfold step in *. destruct (finished c) eqn:Hfin; [exact Hm|].
  unfold finished in Hfin.
  assert (Hst : main c = run_at_192
                \/ cluster_started (state (self c)) = true).
  { destruct (main c); auto; discriminate. }
  assert (Hopen : forall c',
             main c' = main c ->
             (cluster_started (state (self c)) = true ->
              cluster_started (state (self c')) = true) ->
             match main c' with
             | run_at_192 => True
             | run_failed e => exists cause, e = ActivityError cause
             | _ => cluster_started (state (self c')) = true
             end).
  { intros c' Hmain Hst'. rewrite Hmain.
    destruct (main c); auto; discriminate. }
  destruct ev as [m | n | info timed_out | r]; cbn [fst] in *.
  - apply Hopen; auto. now destruct m.
  - apply Hopen; auto. unfold wake.
    destruct (nth_error (handlers c) n); [|reflexivity].
    now destruct (resume (self c) c0) as [s' []].
  - unfold wake_run in *. destruct (main c) eqn:Hmain; try discriminate.
    + unfold run_from_192 in *.
      destruct (cluster_started (state (self c))) eqn:Hstarted;
        [|now cbn].
      pose proof (health_from_149_main c Hl Hstarted) as H.
      now destruct (run_from_196 (health_from_149 (self c))).
    + pose proof (health_from_149_main c Hl Hm) as H.
      now destruct (run_from_196 (health_from_149 (self c))).
    + unfold run_from_198, run_from_205 in *.
      destruct (cluster_shutdown (state (self c))) eqn:Hsd; cbn [orb] in *.
      * cbn. now apply run_result_main.
      * destruct (should_continue_as_new (self c) info); cbn [orb] in *.
        -- exact Hm.
        -- destruct timed_out; [|now cbn].
           pose proof (health_from_149_main c Hl Hm) as H.
           now destruct (run_from_196 (health_from_149 (self c))).
  - unfold activity_done in *.
    destruct (nodes_lock (self c)) as [[l t | l t | l]|] eqn:Hlock;
      try exact Hm.
    + apply Hopen; auto.
      now destruct (resume_holder (self c) (allocate_at_104 l t) r).
    + apply Hopen; auto.
      now destruct (resume_holder (self c) (delete_at_134 l t) r).
    + specialize (Hlk _ eq_refl).
      destruct (started_items _ Hl Hlk) as [d Hd].
      cbn [resume_holder] in *. unfold health_from_152 in *.
      destruct r as [bad | cause]; [|cbn; eauto].
      rewrite (set_nodes_Some _ d _ _ Hd) in *. cbn in *. exact Hlk.
Qed.

Lemma initial_run_ok (test : bool) : run_ok (initial (fresh_input test)).
Proof.
  split; [apply initial_lifecycle_ok|].
  split; [|exact I]. destruct test; intros h; discriminate.
Qed.

(** X19.  In every run of a workflow started without a seed state, [run]
    fails in one way only: with the [ActivityError] of a failed activity,
    which the health check lets through.  No handler, signal or scheduling
    makes [run] fail otherwise, and [run] never reads or writes a table
    that is not there: it is past its first wait, and the lock is held, only
    once the cluster is started. *)
Theorem run_fails_only_with_activity_error :
  forall (test : bool) (evs : list Event),
    let c := fst (run_events (initial (fresh_input test)) evs) in
    (forall e, main c = run_failed e -> exists cause, e = ActivityError cause)
    /\ (main c <> run_at_192 ->
        (forall e, main c <> run_failed e) ->
        cluster_started (state (self c)) = true)
    /\ (locked (self c) = true -> cluster_started (state (self c)) = true).
Proof.
  intros test evs c.
  pose proof (run_events_invariant run_ok step_run_ok evs _
                (initial_run_ok test)) as [_ [Hlk Hm]].
  fold c in Hlk, Hm. split; [|split].
  - intros e He. now rewrite He in Hm.
  - intros H192 Hfail. destruct (main c); try assumption;
      [contradiction | exfalso; now apply (Hfail e)].
  - intros Hlocked. apply locked_true in Hlocked as [h Hh]. eauto.
Qed.

(** * The workflow across its runs *)

Lemma fst_run_entity_cons (c : Config) (e : EntityEvent)
    (es : list EntityEvent) :
  fst (run_entity c (e :: es)) = fst (run_entity (fst (entity_step c e)) es).
Proof.
  cbn [run_entity]. destruct (entity_step c e) as [c' o]. cbn [fst].
  now destruct (run_entity c' es).
Qed.

Lemma snd_run_entity_cons (c : Config) (e : EntityEvent)
    (es : list EntityEvent) :
  snd (run_entity c (e :: es)) =
    match snd (entity_step c e) with
    | Some x => x :: snd (run_entity (fst (entity_step c e)) es)
    | None => snd (run_entity (fst (entity_step c e)) es)
    end.
Proof.
  cbn [run_entity]. destruct (entity_step c e) as [c' o]. cbn [fst snd].
  now destruct (run_entity c' es).
Qed.

(** A single run is a run of the entity. *)
Lemma run_entity_in_run (evs : list Event) : forall c,
  run_entity c (map InRun evs) = run_events c evs.
Proof.
  induction evs as [|ev evs IH]; intros c; [reflexivity|].
  cbn [map run_entity run_events entity_step].
  destruct (step c ev) as [c' o]. now rewrite IH.
Qed.

(** [init] takes the state of the seed, or keeps the one of [__init__]. *)
Lemma initial_self (input0 : ClusterManagerInput) :
  state (self (initial input0)) =
    match input_state input0 with
    | Some st => st
    | None => ClusterManagerState_default
    end
  /\ nodes_lock (self (initial input0)) = None.
Proof.
  unfold initial, init. cbn [self].
  destruct (test_continue_as_new input0); split; reflexivity.
Qed.

(** The next run starts from the state the closed run held. *)
Lemma next_run_starts (c : Config) (next : ClusterManagerInput) :
  outcome_ok c -> main c = run_continued_as_new next ->
  state (self (initial next)) = state (self c)
  /\ nodes_lock (self (initial next)) = nodes_lock (self c)
  /\ test_continue_as_new next = test_continue_as_new (input c).
Proof.
  unfold outcome_ok. intros Hok Hm. rewrite Hm in Hok.
  destruct Hok as [-> [Hl _]].
  destruct (initial_self
              {| input_state := Some (state (self c));
                 test_continue_as_new := test_continue_as_new (input c) |})
    as [Hs Hl'].
  cbn [input_state] in Hs. rewrite Hs, Hl', Hl. repeat split.
Qed.

Lemma entity_step_cases (c : Config) (e : EntityEvent) :
  (exists ev, e = InRun ev /\ entity_step c e = step c ev)
  \/ (e = NextRun /\ entity_step c e = (c, None))
  \/ (exists next, e = NextRun /\ main c = run_continued_as_new next
                   /\ entity_step c e = (initial next, None)).
Proof.
  destruct e as [ev|]; [left; eauto|]. right. cbn [entity_step].
  destruct (main c) as [| | | r | next | ex] eqn:Hm;
    try (left; split; reflexivity).
  right. exists next. repeat split.
Qed.

Lemma entity_step_outcome_ok (c : Config) (e : EntityEvent) :
  outcome_ok c -> outcome_ok (fst (entity_step c e)).
Proof.
  intros Hok.
  destruct (entity_step_cases c e)
    as [[ev [_ ->]] | [[_ ->] | [next [_ [_ ->]]]]]; cbn [fst].
  - now apply step_outcome_ok.
  - exact Hok.
  - exact I.
Qed.

Lemma entity_step_reply (c : Config) (e : EntityEvent) (l : list string) :
  snd (entity_step c e) = Some (Result (VNodes l)) ->
  exists ev, e = InRun ev /\ snd (step c ev) = Some (Result (VNodes l)).
Proof.
  destruct (entity_step_cases c e)
    as [[ev [-> ->]] | [[_ ->] | [next [_ [_ ->]]]]]; cbn [snd];
    [eauto | discriminate | discriminate].
Qed.

(** ** Bad nodes across runs *)

Lemma initial_seed_clean (input0 : ClusterManagerInput) :
  seed_is_dict input0 ->
  clean (self (initial input0)) /\ handlers_clean (initial input0)
  /\ outcome_ok (initial input0).
Proof.
  intros Hseed. destruct (initial_self input0) as [Hs Hl].
  split; [|split; [constructor | exact I]].
  split.
  - intros d Hd. rewrite Hs in Hd.
    destruct (input_state input0) as [st|] eqn:Hst; [|discriminate].
    exact (Hseed st d Hst Hd).
  - intros h Hh. rewrite Hl in Hh. discriminate.
Qed.

Lemma entity_step_clean (c : Config) (e : EntityEvent) :
  clean (self c) -> handlers_clean c -> outcome_ok c ->
  in_run deletes_marker e = false ->
  clean (self (fst (entity_step c e)))
  /\ handlers_clean (fst (entity_step c e)).
Proof.
  intros Hc Hhs Hok He.
  destruct (entity_step_cases c e)
    as [[ev [-> ->]] | [[_ ->] | [next [_ [Hm ->]]]]]; cbn [fst].
  - split; [now apply step_clean | now apply step_handlers_clean].
  - now split.
  - destruct (next_run_starts c next Hok Hm) as [Hs [Hl _]].
    split; [|constructor].
    apply (clean_ext (self c)); [now rewrite Hs | exact Hl | exact Hc].
Qed.

Lemma entity_step_unhealthy (c : Config) (e : EntityEvent) (k : string) :
  clean (self c) -> outcome_ok c -> in_run delivers_start e = false ->
  unhealthy (self c) k = true ->
  unhealthy (self (fst (entity_step c e))) k = true.
Proof.
  intros Hc Hok He Hbad.
  destruct (entity_step_cases c e)
    as [[ev [-> ->]] | [[_ ->] | [next [_ [Hm ->]]]]]; cbn [fst].
  - now apply step_unhealthy.
  - exact Hbad.
  - destruct (next_run_starts c next Hok Hm) as [Hs _].
    rewrite (unhealthy_ext (self c) _ k); [exact Hbad | now rewrite Hs].
Qed.

Lemma run_entity_clean (es : list EntityEvent) : forall c,
  clean (self c) -> handlers_clean c -> outcome_ok c ->
  existsb (in_run deletes_marker) es = false ->
  clean (self (fst (run_entity c es)))
  /\ handlers_clean (fst (run_entity c es))
  /\ outcome_ok (fst (run_entity c es)).
Proof.
  induction es as [|e es IH]; intros c Hc Hhs Hok Hdel;
    [split; [|split]; assumption|].
  cbn [existsb] in Hdel. apply orb_false_elim in Hdel as [Hdel1 Hdel2].
  rewrite fst_run_entity_cons.
  destruct (entity_step_clean c e Hc Hhs Hok Hdel1) as [Hc' Hhs'].
  apply IH; [assumption | assumption | | assumption].
  now apply entity_step_outcome_ok.
Qed.

Lemma run_entity_unhealthy (es : list EntityEvent) : forall c k,
  clean (self c) -> handlers_clean c -> outcome_ok c ->
  existsb (in_run deletes_marker) es = false ->
  existsb (in_run delivers_start) es = false ->
  unhealthy (self c) k = true ->
  unhealthy (self (fst (run_entity c es))) k = true
  /\ Forall (reply_avoids k) (snd (run_entity c es)).
Proof.
  induction es as [|e es IH]; intros c k Hc Hhs Hok Hdel Hst Hbad.
  - split; [exact Hbad | constructor].
  - cbn [existsb] in Hdel, Hst.
    apply orb_false_elim in Hdel as [Hdel1 Hdel2].
    apply orb_false_elim in Hst as [Hst1 Hst2].
    rewrite fst_run_entity_cons, snd_run_entity_cons.
    destruct (entity_step_clean c e Hc Hhs Hok Hdel1) as [Hc' Hhs'].
    pose proof (entity_step_outcome_ok c e Hok) as Hok'.
    pose proof (entity_step_unhealthy c e k Hc Hok Hst1 Hbad) as Hbad'.
    destruct (IH _ k Hc' Hhs' Hok' Hdel2 Hst2 Hbad') as [IH1 IH2].
    split; [exact IH1|].
    destruct (snd (entity_step c e)) as [o|] eqn:Ho; [|exact IH2].
    constructor; [|exact IH2].
    destruct o as [[|l] | ex]; cbn [reply_avoids]; try exact I.
    intros Hin. destruct (entity_step_reply c e l Ho) as [ev [_ Hev]].
    destruct (step_reply c ev l Hev) as [t Hlock].
    destruct Hc as [_ Hh]. specialize (Hh _ Hlock k Hin). congruence.
Qed.

(** C3, as the code has it.  Take the runs of a workflow, started with or
    without a seed state and continued as new any number of times, in which
    no update deletes the job named by the marker of bad nodes, and a node
    that is marked bad at some point.  As long as no start signal is
    delivered afterwards, whatever else happens (allocations, deletions,
    health checks, the shutdown signal, continue-as-new, in any
    interleaving), the node stays marked bad, no allocation replies with it
    or holds it, and it is neither in the list of free nodes nor in
    [get_assigned_nodes].  The start signal, for its part, sets the table to
    25 free nodes. *)
Theorem unhealthy_stays_without_restart :
  forall (input0 : ClusterManagerInput) (before after : list EntityEvent)
         (k : string),
    seed_is_dict input0 ->
    existsb (in_run deletes_marker) (before ++ after) = false ->
    existsb (in_run delivers_start) after = false ->
    unhealthy (self (fst (run_entity (initial input0) before))) k = true ->
    let c1 := fst (run_entity (initial input0) before) in
    let c2 := fst (run_entity c1 after) in
    unhealthy (self c2) k = true
    /\ Forall (reply_avoids k) (snd (run_entity c1 after))
    /\ (forall l t,
          nodes_lock (self c2) = Some (allocate_at_104 l t) -> ~ In k l)
    /\ (forall d, nodes (state (self c2)) = Some d ->
          ~ In k (unassigned_of d) /\ ~ In k (assigned_of d))
    /\ (forall s,
          nodes (state (start_cluster s)) = Some (Py.all_none node_ids)
          /\ unassigned_of (Py.all_none node_ids) = node_ids).
Proof.
  intros input0 before after k Hseed Hdel Hst Hbad c1 c2.
  rewrite existsb_app in Hdel. apply orb_false_elim in Hdel as [Hdel1 Hdel2].
  destruct (initial_seed_clean input0 Hseed) as [Hc0 [Hhs0 Hok0]].
  destruct (run_entity_clean before _ Hc0 Hhs0 Hok0 Hdel1)
    as [Hc1 [Hhs1 Hok1]].
  fold c1 in Hc1, Hhs1, Hok1, Hbad.
  destruct (run_entity_clean after c1 Hc1 Hhs1 Hok1 Hdel2) as [Hc2 _].
  destruct (run_entity_unhealthy after c1 k Hc1 Hhs1 Hok1 Hdel2 Hst Hbad)
    as [Hbad2 Hreplies].
  fold c2 in Hc2, Hbad2.
  split; [exact Hbad2|]. split; [exact Hreplies|].
  split; [|split].
  - intros l t Hlock Hin. destruct Hc2 as [_ Hh].
    specialize (Hh _ Hlock k Hin). congruence.
  - intros d Hd. destruct Hc2 as [Hnd _]. specialize (Hnd d Hd).
    unfold unhealthy in Hbad2. rewrite Hd in Hbad2.
    split; intros Hin.
    + apply (unassigned_not_bad d k Hnd) in Hin. congruence.
    + apply (assigned_not_bad d k Hnd) in Hin. congruence.
  - intros s. split; reflexivity.
Qed.

Lemma unhealthy_stays_without_restart_witness :
  unhealthy (self (fst (run_entity node_0_marked next_run_allocates))) "0"
    = true
  /\ Forall (reply_avoids "0")
       (snd (run_entity node_0_marked next_run_allocates)).
Proof.
  destruct (unhealthy_stays_without_restart fresh (map InRun marking_node_0)
              next_run_allocates "0") as [H1 [H2 _]].
  - intros st d Hst. discriminate Hst.
  - reflexivity.
  - reflexivity.
  - reflexivity.
  - split; [exact H1 | exact H2].
Defined.

(** C3, counterexample.  Node 0 has been marked bad; the start signal is
    delivered again; node 0 is free again, and the next allocation gets
    it. *)
Lemma restart_frees_bad_node :
  unhealthy (self node_0_marked) "0" = true
  /\ (exists d,
        nodes (state (self (fst (step node_0_marked
                                   (Deliver signal_start_cluster))))) = Some d
        /\ is_free d "0" = true)
  /\ snd (run_events node_0_marked second_start) = [Result (VNodes ["0"])].
Proof.
  split; [reflexivity|]. split; [|reflexivity].
  eexists. split; reflexivity.
Qed.

(** The marker is an ordinary job name for [delete_job]: deleting the job
    of that name frees the bad nodes. *)
Lemma delete_marker_frees_bad_node :
  snd (run_events node_0_marked
         [Deliver (update_delete_job {| delete_task_name := BAD |});
          Wake 0; ActivityDone (Completed []);
          Deliver (update_allocate_n_nodes_to_job
                     {| num_nodes := 1; alloc_task_name := "task-1" |});
          Wake 0; ActivityDone (Completed [])])
    = [Result VNone; Result (VNodes ["0"])].
Proof. reflexivity. Qed.

(** ** The pool across runs *)

Lemma initial_seed_table_ok (input0 : ClusterManagerInput) :
  seed_of_cluster input0 ->
  table_ok (self (initial input0)) /\ held_free (self (initial input0))
  /\ outcome_ok (initial input0).
Proof.
  intros Hseed. destruct (initial_self input0) as [Hs Hl].
  split; [|split; [|exact I]].
  - split.
    + intros d Hd. rewrite Hs in Hd.
      destruct (input_state input0) as [st|] eqn:Hst; [|discriminate].
      exact (Hseed st d Hst Hd).
    + intros h Hh. rewrite Hl in Hh. discriminate.
  - intros d _. now rewrite Hl.
Qed.

Lemma entity_step_table_ok (c : Config) (e : EntityEvent) :
  table_ok (self c) -> held_free (self c) -> outcome_ok c ->
  match e with InRun ev => answers_within c ev | NextRun => true end = true ->
  table_ok (self (fst (entity_step c e)))
  /\ held_free (self (fst (entity_step c e))).
Proof.
  intros Hok Hf Hout Hw.
  destruct (entity_step_cases c e)
    as [[ev [-> ->]] | [[_ ->] | [next [_ [Hm ->]]]]]; cbn [fst].
  - split; [now apply step_table_ok | now apply step_held_free].
  - now split.
  - destruct (next_run_starts c next Hout Hm) as [Hs [Hl _]].
    split.
    + destruct Hok as [Hk Hh]. split.
      * intros d Hd. apply Hk. now rewrite <- Hs.
      * intros h Hlock. apply Hh. now rewrite <- Hl.
    + apply (held_free_ext (self c)); [now rewrite Hs | exact Hl | exact Hf].
Qed.

Lemma run_entity_table_ok (es : list EntityEvent) : forall c,
  table_ok (self c) -> held_free (self c) -> outcome_ok c ->
  entity_answers_within c es = true ->
  table_ok (self (fst (run_entity c es)))
  /\ held_free (self (fst (run_entity c es))).
Proof.
  induction es as [|e es IH]; intros c Hok Hf Hout Hw; [now split|].
  cbn [entity_answers_within] in Hw. apply andb_prop in Hw as [Hw1 Hw2].
  rewrite fst_run_entity_cons.
  destruct (entity_step_table_ok c e Hok Hf Hout Hw1) as [Hok' Hf'].
  apply IH; [assumption | assumption | | assumption].
  now apply entity_step_outcome_ok.
Qed.

(** The allocation that replies is the one that holds the lock; it has
    written its job on the nodes it selected, and on no other. *)
Lemma step_reply_table (c : Config) (ev : Event) (l : list string) :
  snd (step c ev) = Some (Result (VNodes l)) ->
  exists t d,
    nodes_lock (self c) = Some (allocate_at_104 l t)
    /\ nodes (state (self c)) = Some d
    /\ nodes (state (self (fst (step c ev)))) = Some (set_each d l (Some t))
    /\ nodes_lock (self (fst (step c ev))) = None.
Proof.
  unfold step. destruct (finished c); [discriminate|].
  destruct ev as [m | n | info timed_out | r]; cbn [snd]; try discriminate.
  - unfold wake. destruct (nth_error (handlers c) n) as [co|]; [|discriminate].
    pose proof (resume_returns (self c) co) as Hret.
    destruct (resume (self c) co) as [s' out].
    destruct out as [co' | | v | e]; cbn [snd reply_of] in *;
      destruct (is_signal co); try discriminate.
    intros [= ->]. specialize (Hret _ eq_refl). discriminate.
  - unfold activity_done.
    destruct (nodes_lock (self c)) as [[l' t | l' t | l']|]; cbn [snd];
      try discriminate.
    + cbn [resume_holder]. unfold allocate_from_104, _allocate_nodes_to_job.
      destruct r; [|discriminate].
      destruct (set_nodes (state (self c)) l' (Some t)) as [e | st] eqn:Hset;
        [discriminate|].
      apply set_nodes_nodes in Hset.
      destruct (nodes_items st) as [e | d0] eqn:Hitems; cbn [snd reply_of];
        [discriminate|].
      intros [= ->]. apply nodes_items_inr in Hitems.
      destruct (nodes (state (self c))) as [d|] eqn:Hd; [|congruence].
      exists t, d.
      cbn [fst self with_self state with_state with_lock nodes nodes_lock].
      repeat split. congruence.
    + cbn [resume_holder]. unfold delete_from_134, _deallocate_nodes_for_job.
      destruct r; [|discriminate].
      destruct (set_nodes (state (self c)) l' None); discriminate.
    + destruct (run_from_196 (resume_holder (self c) (health_at_152 l') r));
        discriminate.
Qed.

(** C4.  Take the runs of a workflow started without a seed state, or with
    the table of a cluster built by [start_cluster], and continued as new
    any number of times; signals and updates arrive in whatever
    interleaving, and the health check answers with nodes it was asked
    about.  In every configuration reached the table has exactly the 25
    keys of [start_cluster], all distinct, so the nodes that carry a job
    (counted as line 107 does, or as [get_assigned_nodes] does) are at most
    25, and the table holds one value for a node.  No allocation hands out
    a node that carries a job: the nodes an allocation holds across its
    activity are free in the table, and when an allocation replies, each
    node of its reply was free just before and carries its job now, and
    every other node has the value it had. *)
Theorem assigned_nodes_bounded :
  forall (input0 : ClusterManagerInput) (es : list EntityEvent)
         (d : Py.Dict),
    seed_of_cluster input0 ->
    entity_answers_within (initial input0) es = true ->
    nodes (state (self (fst (run_entity (initial input0) es)))) = Some d ->
    let c := fst (run_entity (initial input0) es) in
    Py.keys d = node_ids
    /\ NoDup (Py.keys d)
    /\ Py.len (not_None_of d) <= 25
    /\ Py.len (assigned_of d) <= 25
    /\ (forall k j1 j2,
          In (k, Some j1) (Py.items d) -> In (k, Some j2) (Py.items d) ->
          j1 = j2)
    /\ (forall l t,
          nodes_lock (self c) = Some (allocate_at_104 l t) ->
          forall k, In k l -> Py.get d k = Some None)
    /\ (forall e l,
          snd (entity_step c e) = Some (Result (VNodes l)) ->
          exists t d',
            nodes (state (self (fst (entity_step c e)))) = Some d'
            /\ Py.keys d' = node_ids
            /\ (forall k, In k l ->
                  Py.get d k = Some None /\ Py.get d' k = Some (Some t))
            /\ (forall k, ~ In k l -> Py.get d' k = Py.get d k)).
Proof.
  intros input0 es d Hseed Hw Hd c.
  destruct (initial_seed_table_ok input0 Hseed) as [Hok0 [Hf0 Hout0]].
  destruct (run_entity_table_ok es _ Hok0 Hf0 Hout0 Hw) as [[Hk Hh] Hf].
  fold c in Hk, Hh, Hf, Hd.
  pose proof (Hk d Hd) as Hkeys. specialize (Hf d Hd).
  assert (Hnd : NoDup (Py.keys d)) by (rewrite Hkeys; apply node_ids_NoDup).
  assert (Hlen : Py.len d = 25).
  { unfold Py.len. rewrite <- (length_map fst). fold (Py.keys d).
    now rewrite Hkeys. }
  assert (Hfree : forall k, is_free d k = true -> Py.get d k = Some None).
  { intros k. unfold is_free.
    destruct (Py.get d k) as [[j|]|]; congruence. }
  split; [exact Hkeys|]. split; [exact Hnd|].
  split; [|split; [|split; [|split]]].
  - unfold not_None_of, Py.len. rewrite length_map.
    fold (@Py.len (string * option string)).
    rewrite <- Hlen. apply PyFacts.len_filter_le.
  - unfold assigned_of, Py.len. rewrite length_map.
    fold (@Py.len (string * option string)).
    rewrite <- Hlen. apply PyFacts.len_filter_le.
  - intros k j1 j2 H1 H2.
    apply (PyFacts.get_In_item d k _ Hnd) in H1.
    apply (PyFacts.get_In_item d k _ Hnd) in H2. congruence.
  - intros l t Hl k Hin. rewrite Hl in Hf. apply Hfree. now apply Hf.
  - intros e l He.
    destruct (entity_step_reply c e l He) as [ev [-> Hev]].
    cbn [entity_step].
    destruct (step_reply_table c ev l Hev) as [t [d0 [Hl [Hd0 [Hd' _]]]]].
    rewrite Hd in Hd0. injection Hd0 as <-.
    rewrite Hl in Hf.
    exists t, (set_each d l (Some t)).
    split; [exact Hd'|]. split.
    { rewrite PyFacts.keys_set_each; [exact Hkeys|].
      rewrite Hkeys. exact (Hh _ Hl). }
    split.
    + intros k Hin. split; [apply Hfree; now apply Hf|].
      rewrite PyFacts.get_set_each.
      apply PyFacts.contains_In in Hin. now rewrite Hin.
    + intros k Hnotin. rewrite PyFacts.get_set_each.
      destruct (Py.contains l k) eqn:Hc; [|reflexivity].
      apply PyFacts.contains_In in Hc. contradiction.
Qed.

Lemma assigned_nodes_bounded_witness :
  exists d,
    nodes (state (self (fst (run_entity (initial fresh)
                               second_run_allocating)))) = Some d
    /\ Py.len (not_None_of d) <= 25
    /\ Py.get d "2" = Some None
    /\ exists t d',
         nodes (state (self (fst (entity_step
                                    (fst (run_entity (initial fresh)
                                            second_run_allocating))
                                    (InRun (ActivityDone (Completed []))))))) =
           Some d'
         /\ Py.get d' "2" = Some (Some t).
Proof.
  assert (Hseed : seed_of_cluster fresh)
    by (intros st d Hst; discriminate Hst).
  eexists. split; [reflexivity|].
  destruct (assigned_nodes_bounded fresh second_run_allocating _ Hseed
              eq_refl eq_refl)
    as [_ [_ [Hlen [_ [_ [Hheld Hreply]]]]]].
  split; [exact Hlen|]. split.
  - apply (Hheld ["2"; "3"; "4"] "task-1" eq_refl). now left.
  - destruct (Hreply (InRun (ActivityDone (Completed []))) ["2"; "3"; "4"]
                eq_refl) as [t [d' [Hd' [_ [Hin _]]]]].
    exists t, d'. split; [exact Hd'|]. apply Hin. now left.
Defined.

(** ** The handover *)




